(** * SmartCommerce: the fraud-detection and price-optimisation scorers

    A shallow embedding of

    - [fraud-detection/app/services/fraud_detector.py]
      ([FraudDetectionService]),
    - [price-optimization/app/services/price_optimizer.py]
      ([PriceOptimizerService]) and the pricing fields of
      [price-optimization/app/core/config.py],
    - the validators of the two [schemas.py] files that those services
      trigger, the alert listing of the fraud service and the bulk
      endpoint of [fraud-detection/app/main.py],

    followed by the properties of the specification that concern them
    and by further properties of the same code.

    Conventions of the embedding.

    - A Python [float] (and a [Decimal] converted with [float(...)]) is a
      rational number [Q]: arithmetic is exact, there is no rounding,
      overflow or NaN in a score.  Only the entries of a feature vector,
      which the services hand to library code without looking at them, keep
      the non-finite values that [np.log1p] can produce.
    - The numbers of a request are finite and in the range of a float: a
      [Decimal] or an [int] that [float(...)] cannot convert, and float
      fields that are infinite or NaN, are not inputs of the embedding.
      Properties that depend on this are stated in one direction only,
      or with a margin around a threshold.
    - A Python [int] is a [Z]; [Optional[T]] is [option T]; a [dict] looked
      up by key is a [gmap], a [dict] that is iterated is an association
      list in insertion order.
    - A function that can raise returns a [result]; the state of the
      service object ([self.scalers]) and of the global NumPy random
      generator is passed explicitly.
    - Library functions whose value the services only pass along
      ([hash], [hashlib.md5], [np.log1p], [np.std], [np.polyfit], string
      formatting) are the fields of the class [Runtime]. *)

From Stdlib Require Import QArith Qminmax Qround Qabs Lqa Lia ZArith.
From Stdlib Require Import Sorted Permutation.
From stdpp Require Import base option list gmap strings.

Local Open Scope Q_scope.

(* ================================================================== *)
(** * Python values and operators *)
(* ================================================================== *)

Module Py.

(** The exceptions that the modelled code can meet. *)
Inductive exn : Set :=
| ZeroDivisionError
| TypeError
| ValueError
| KeyError
| NotFittedError
| ValidationError.

(** The outcome of a call: a value, or an exception. *)
Inductive result (A : Type) : Type :=
| Ok (a : A)
| Raise (e : exn).
Arguments Ok {A} a.
Arguments Raise {A} e.

#[export] Instance result_bind : MBind result := fun A B k m =>
  match m with
  | Ok a => k a
  | Raise e => Raise e
  end.

Definition is_ok {A} (m : result A) : bool :=
  match m with Ok _ => true | Raise _ => false end.

(** Comparisons of floats, as booleans. *)
Definition Qltb (x y : Q) : bool := negb (Qle_bool y x).
Definition Qgtb (x y : Q) : bool := Qltb y x.
Definition Qgeb (x y : Q) : bool := Qle_bool y x.

(** [min(a, b)] and [max(a, b)] of the builtins: the first argument is
    kept unless the second is strictly better. *)
Definition py_min (a b : Q) : Q := if Qltb b a then b else a.
Definition py_max (a b : Q) : Q := if Qgtb b a then b else a.

(** [a / b] on floats. *)
Definition py_div (a b : Q) : result Q :=
  if Qeq_bool b 0 then Raise ZeroDivisionError else Ok (a / b).

(** [sum(xs)]: a left fold that starts at 0. *)
Definition py_sum (xs : list Q) : Q := foldl Qplus 0 xs.

(** [np.mean(xs)]; the callers test [xs] for emptiness first. *)
Definition np_mean (xs : list Q) : Q :=
  py_sum xs / inject_Z (Z.of_nat (length xs)).

(** [round(x)]: to the nearest integer, ties to the even one. *)
Definition round_half_even (x : Q) : Z :=
  let f := Qfloor x in
  let r := x - inject_Z f in
  if Qltb r (1 # 2) then f
  else if Qltb (1 # 2) r then (f + 1)%Z
  else if Z.even f then f else (f + 1)%Z.

(** [round(x, 2)]. *)
Definition py_round2 (x : Q) : Q :=
  inject_Z (round_half_even (x * 100)) / 100.

(** Truth value of an [Optional[int]], [Optional[float]],
    [Optional[str]], [Optional[bool]] and [Optional[dict]]. *)
Definition truthy_int (o : option Z) : bool :=
  match o with Some n => negb (n =? 0)%Z | None => false end.
Definition truthy_float (o : option Q) : bool :=
  match o with Some x => negb (Qeq_bool x 0) | None => false end.
Definition truthy_str (o : option string) : bool :=
  match o with Some s => negb (String.eqb s "") | None => false end.
Definition truthy_bool (o : option bool) : bool :=
  match o with Some b => b | None => false end.
Definition truthy_dict {V} (o : option (gmap string V)) : bool :=
  match o with Some d => negb (bool_decide (d = ∅)) | None => false end.

(** [o or 0]. *)
Definition int_or_0 (o : option Z) : Z := default 0%Z o.
Definition float_or_0 (o : option Q) : Q := default 0 o.

Definition bool_to_Q (b : bool) : Q := if b then 1 else 0.

(** A [datetime]: the fields the services read, its position on the time
    line in seconds, and whether it carries a time zone. *)
Record datetime : Type := {
  dt_month : Z;
  dt_hour : Z;
  dt_weekday : Z;
  dt_seconds : Q;
  dt_aware : bool
}.

(** [(a - b).total_seconds()]: subtracting a naive and an aware
    [datetime] is a [TypeError]. *)
Definition dt_diff_seconds (a b : datetime) : result Q :=
  if eqb (dt_aware a) (dt_aware b)
  then Ok (dt_seconds a - dt_seconds b)
  else Raise TypeError.

(** An entry of a NumPy float array. *)
Inductive fval : Type :=
| Fin (x : Q)
| NegInf
| NaN.

Definition is_nan (v : fval) : bool :=
  match v with NaN => true | _ => false end.
Definition is_inf (v : fval) : bool :=
  match v with NegInf => true | _ => false end.

(** A feature array of shape (1, n): its single row. *)
Definition ndarray : Type := list fval.

(** What the interpreter and the numeric libraries compute and the
    services only pass along. *)
Class Runtime : Type := {
  (** [hash(s)] of a string, fixed for the life of the process *)
  py_hash : string -> Z;
  (** [hashlib.md5(s.encode()).hexdigest()] *)
  md5_hexdigest : string -> string;
  (** [log(1 + x)] for [-1 < x] *)
  ln1p : Q -> Q;
  (** [np.std(xs)], a standard deviation: never negative *)
  np_std : list Q -> Q;
  np_std_nonneg : forall xs, 0 <= np_std xs;
  (** [np.polyfit(range(len(ys)), ys, 1)[0]] *)
  polyfit_slope : list Q -> Q;
  (** [str(x)] inside an f-string *)
  str_of_float : Q -> string;
  str_of_int : Z -> string
}.

(** [np.log1p(x)]. *)
Definition np_log1p `{Runtime} (x : Q) : fval :=
  if Qltb x (-1) then NaN
  else if Qeq_bool x (-1) then NegInf
  else Fin (ln1p x).

(** [sklearn.preprocessing.StandardScaler], as far as the services use
    it.  [fit_transform(X)] forgets the previous fit, validates [X]
    (NaN is accepted, an infinite entry is a [ValueError]), records the
    statistics of [X], which the model keeps as the array itself, and
    returns [X] centred on its mean: for a single row, zeros. *)
Record StandardScaler : Type := {
  fitted_on : option ndarray
}.

Definition new_scaler : StandardScaler := {| fitted_on := None |}.

Definition scale_entry (v : fval) : fval :=
  match v with Fin _ => Fin 0 | other => other end.

Definition fit_transform (s : StandardScaler) (X : ndarray)
  : result ndarray * StandardScaler :=
  if existsb is_inf X
  then (Raise ValueError, new_scaler)
  else (Ok (map scale_entry X), {| fitted_on := Some X |}).

(** The global NumPy random generator: the sequence of values that
    [np.random.beta(2, 8)] will return, and how many were consumed. *)
Record RandomState : Type := {
  beta_draws : nat -> Q;
  consumed : nat
}.

Definition random_beta (g : RandomState) : Q * RandomState :=
  (beta_draws g (consumed g),
   {| beta_draws := beta_draws g; consumed := S (consumed g) |}).

(** A beta variate lies in the unit interval. *)
Definition beta_in_unit (g : RandomState) : Prop :=
  forall n, 0 <= beta_draws g n <= 1.

(** A [dict] that is iterated: association list in insertion order.
    [d[k] = v] replaces the value of a present key in place and appends
    an absent one. *)
Fixpoint dict_set {V} (d : list (string * V)) (k : string) (v : V)
  : list (string * V) :=
  match d with
  | [] => [(k, v)]
  | (k', v') :: d' =>
      if String.eqb k' k then (k, v) :: d' else (k', v') :: dict_set d' k v
  end.

Definition dict_values {V} (d : list (string * V)) : list V := map snd d.

End Py.

Export Py.

(* ================================================================== *)
(** * The batch loop shared by the two bulk operations *)
(* ================================================================== *)

(** [bulk_analyze_transactions] and [bulk_optimize_prices] are the same
    loop: cut the requests into batches, start one coroutine per request,
    [asyncio.gather(..., return_exceptions=True)] them, and store under its
    key the response of every request that did not raise.  The loop is
    written once, over what differs: the coroutine [call], the [key] of a
    request, the response constructor [build] and [batch_size]. *)
Module Bulk.
Section Loop.
Context {Req Res Resp World : Type}.
Variable call : Req -> World -> result Res * World.
Variable key : Req -> string.
Variable build : string -> Res -> result Resp.
Variable batch_size : nat.

(** [range(0, n, batch_size)] *)
Definition range_step (n : nat) : list nat :=
  map (fun k => (k * batch_size)%nat)
      (seq 0 ((n + batch_size - 1) / batch_size)).

(** [requests[i:i + batch_size]] *)
Definition slice (requests : list Req) (i : nat) : list Req :=
  take batch_size (drop i requests).

(** [asyncio.gather] of the batch tasks with [return_exceptions=True]: the
    coroutines never suspend, so each runs to its end, in order, on
    the state that the previous one left. *)
Fixpoint gather (batch : list Req) (w : World)
  : list (result Res) * World :=
  match batch with
  | [] => ([], w)
  | request :: batch' =>
      let '(r, w) := call request w in
      let '(rs, w) := gather batch' w in
      (r :: rs, w)
  end.

(** [for j, result in enumerate(batch_results): ...]; an exception of
    the response constructor is not caught. *)
Fixpoint process_results (batch : list Req)
    (batch_results : list (result Res)) (results : gmap string Resp)
  : result (gmap string Resp) :=
  match batch, batch_results with
  | request :: batch', r :: rs =>
      match r with
      | Raise _ => process_results batch' rs results
      | Ok res =>
          response ← build (key request) res;
          process_results batch' rs (<[key request := response]> results)
      end
  | _, _ => Ok results
  end.

Definition run_batch (requests : list Req)
    (st : result (gmap string Resp) * World) (i : nat)
  : result (gmap string Resp) * World :=
  let '(acc, w) := st in
  match acc with
  | Raise e => (Raise e, w)
  | Ok results =>
      let batch := slice requests i in
      let '(batch_results, w) := gather batch w in
      (process_results batch batch_results results, w)
  end.

Definition bulk (requests : list Req) (w : World)
  : result (gmap string Resp) * World :=
  foldl (run_batch requests) (Ok ∅, w) (range_step (length requests)).

End Loop.
End Bulk.

(* ================================================================== *)
(** * fraud_detector.py *)
(* ================================================================== *)

Module Fraud.

(** ** schemas.py: the fields that the service reads or writes *)

Inductive FraudDecision : Set := APPROVE | DECLINE | REVIEW | CHALLENGE.

Inductive RiskLevel : Set := LOW | MEDIUM | HIGH | CRITICAL.

Record PaymentMethod : Type := {
  payment_type : string;
  is_tokenized : bool;
  token_confidence : option Q
}.

(** [validate_amount] accepts a positive [amount] only; no property below
    needs it. *)
Record TransactionData : Type := {
  transaction_id : string;
  amount : Q;
  payment_method : PaymentMethod;
  billing_address : option (gmap string string);
  shipping_address : option (gmap string string);
  is_recurring : bool;
  is_international : bool;
  transaction_time : datetime;
  hourly_transaction_count : option Z;
  daily_transaction_count : option Z;
  daily_amount_total : option Q
}.

Record UserData : Type := {
  account_age_days : Z;
  email_verified : bool;
  phone_verified : bool;
  transaction_frequency : option Q;
  average_transaction_amount : option Q;
  previous_fraud_reports : Z;
  chargebacks_count : Z;
  failed_login_attempts : Z;
  last_login_time : option datetime;
  profile_completeness : option Q
}.

Record DeviceInfo : Type := {
  device_type : string;
  is_mobile : bool;
  is_proxy : option bool;
  device_fingerprint : option string
}.

Record ContextData : Type := {
  session_duration : option Z;
  pages_visited : option Z;
  time_to_transaction : option Z;
  holiday_indicator : bool;
  promotional_period : bool
}.

Record FraudIndicator : Type := {
  indicator_type : string;
  description : string;
  severity : Q;
  confidence : Q;
  contributing_factors : list string
}.

(** The dictionaries that [_apply_fraud_rules] builds. *)
Record RuleIndicator : Type := {
  rule_type : string;
  rule_severity : Q;
  rule_description : string
}.

Record FraudDetectionResult : Type := {
  fraud_score : Q;
  decision : FraudDecision;
  confidence_score : Q;
  indicators : list FraudIndicator;
  recommendations : list string;
  primary_indicator : option string;
  processing_time_ms : Q;
  model_version : string;
  analysis_timestamp : datetime
}.

Record TransactionAnalysisResponse : Type := {
  resp_transaction_id : string;
  resp_fraud_score : Q;
  resp_risk_level : RiskLevel;
  resp_decision : FraudDecision;
  resp_indicators : list FraudIndicator;
  resp_risk_factors : list string;
  resp_recommendations : list string;
  resp_confidence_score : Q;
  resp_processing_time_ms : Q;
  resp_model_version : string;
  resp_analysis_timestamp : datetime
}.

(** [validate_score_range] of [TransactionAnalysisResponse], for
    [fraud_score] and [confidence_score]. *)
Definition validate_score_range (v : Q) : result Q :=
  if Qle_bool 0 v && Qle_bool v 1 then Ok v else Raise ValidationError.

(** ** The service object *)

(** A model object of [self.models]: whether it has the attribute
    [decision_function], and what [decision_function(features)[0]] is. *)
Record Model : Type := {
  has_decision_function : bool;
  decision_function : ndarray -> result Q
}.

Record Thresholds : Type := {
  high_amount : Q;
  velocity_transactions : Z;
  velocity_timeframe_hours : Z;
  international_risk_score : Q;
  device_risk_threshold : Q;
  behavioral_anomaly_threshold : Q
}.

(** [self.encoders] maps a name to a [LabelEncoder] that is never
    fitted nor called: only its keys are kept. *)
Record FraudDetectionService : Type := {
  models : gmap string Model;
  scalers : gmap string StandardScaler;
  encoders : gset string;
  is_initialized : bool;
  thresholds : Thresholds
}.

Definition set_scalers (self : FraudDetectionService)
    (s : gmap string StandardScaler) : FraudDetectionService :=
  {| models := models self; scalers := s; encoders := encoders self;
     is_initialized := is_initialized self; thresholds := thresholds self |}.

(** [__init__] *)
Definition init : FraudDetectionService :=
  {| models := ∅; scalers := ∅; encoders := ∅; is_initialized := false;
     thresholds := {| high_amount := 10000;
                      velocity_transactions := 10;
                      velocity_timeframe_hours := 1;
                      international_risk_score := 0.7;
                      device_risk_threshold := 0.8;
                      behavioral_anomaly_threshold := 0.75 |} |}.

(** An estimator that was constructed and not fitted: the classifiers
    have no [decision_function], the outlier detectors have one, which
    raises. *)
Definition unfitted_classifier : Model :=
  {| has_decision_function := false;
     decision_function := fun _ => Raise NotFittedError |}.
Definition unfitted_detector : Model :=
  {| has_decision_function := true;
     decision_function := fun _ => Raise NotFittedError |}.

Definition supervised_models : list string :=
  ["random_forest"; "xgboost"; "lightgbm"].
Definition anomaly_models : list string :=
  ["isolation_forest"; "autoencoder"; "local_outlier"].

(** [load_models]; [pretrained] holds what [_load_pretrained_models]
    finds under [MODEL_STORAGE_PATH], by model name. *)
Definition load_models (self : FraudDetectionService)
    (pretrained : gmap string Model) : FraudDetectionService :=
  let fresh : gmap string Model :=
    foldl (fun m n => <[n := unfitted_detector]> m)
          (foldl (fun m n => <[n := unfitted_classifier]> m)
                 (models self) supervised_models)
          anomaly_models in
  let loaded : gmap string Model :=
    foldl (fun m n => match pretrained !! n with
                      | Some p => <[n := p]> m
                      | None => m
                      end)
          fresh (supervised_models ++ anomaly_models) in
  {| models := loaded;
     scalers := foldl (fun m n => <[n := new_scaler]> m)
                      (scalers self) supervised_models;
     encoders := {["country"; "payment_type"; "device_type";
                   "merchant_category"]};
     is_initialized := true;
     thresholds := thresholds self |}.

(** ** Feature preparation *)

Section WithRuntime.
Context `{Runtime}.

(** [_encode_categorical] *)
Definition _encode_categorical (self : FraudDetectionService)
    (value encoder_name : string) : Q :=
  if bool_decide (encoder_name ∈ encoders self)
  then inject_Z (py_hash value mod 100)
  else 0.

(** [address.get('country', dflt)] *)
Definition get_country (d : gmap string string) (dflt : string) : string :=
  default dflt (d !! "country").

(** [_prepare_transaction_features] *)
Definition _prepare_transaction_features (self : FraudDetectionService)
    (transaction : TransactionData) (user : UserData)
    (device : DeviceInfo) (context : ContextData) : result ndarray :=
  let transaction_features := [
    Fin (amount transaction);
    np_log1p (amount transaction);
    Fin (inject_Z (dt_hour (transaction_time transaction)));
    Fin (inject_Z (dt_weekday (transaction_time transaction)));
    Fin (bool_to_Q (is_international transaction));
    Fin (bool_to_Q (is_recurring transaction));
    Fin (inject_Z (int_or_0 (hourly_transaction_count transaction)));
    Fin (inject_Z (int_or_0 (daily_transaction_count transaction)));
    Fin (float_or_0 (daily_amount_total transaction)) ] in
  let user_features := [
    Fin (inject_Z (account_age_days user));
    np_log1p (inject_Z (account_age_days user));
    Fin (bool_to_Q (email_verified user));
    Fin (bool_to_Q (phone_verified user));
    Fin (inject_Z (previous_fraud_reports user));
    Fin (inject_Z (chargebacks_count user));
    Fin (inject_Z (failed_login_attempts user));
    Fin (float_or_0 (average_transaction_amount user));
    Fin (float_or_0 (transaction_frequency user));
    Fin (float_or_0 (profile_completeness user)) ] in
  let device_features := [
    Fin (bool_to_Q (is_mobile device));
    Fin (bool_to_Q (truthy_bool (is_proxy device)));
    Fin (inject_Z (Z.of_nat
           (String.length (default "" (device_fingerprint device)))));
    Fin (_encode_categorical self (device_type device) "device_type") ] in
  let payment := payment_method transaction in
  let payment_features := [
    Fin (_encode_categorical self (payment_type payment) "payment_type");
    Fin (bool_to_Q (is_tokenized payment));
    Fin (float_or_0 (token_confidence payment)) ] in
  let geographic_features :=
    if truthy_dict (billing_address transaction)
       && truthy_dict (shipping_address transaction)
    then
      let billing_country :=
        get_country (default ∅ (billing_address transaction)) "unknown" in
      let shipping_country :=
        get_country (default ∅ (shipping_address transaction)) "unknown" in
      [ Fin (_encode_categorical self billing_country "country");
        Fin (_encode_categorical self shipping_country "country");
        Fin (bool_to_Q
               (negb (String.eqb billing_country shipping_country))) ]
    else [Fin 0; Fin 0; Fin 0] in
  time_features ←
    match last_login_time user with
    | Some login =>
        time_since_login ←
          dt_diff_seconds (transaction_time transaction) login;
        Ok [np_log1p time_since_login]
    | None => Ok [Fin 0]
    end;
  let session_features := [
    Fin (inject_Z (int_or_0 (session_duration context)));
    Fin (inject_Z (int_or_0 (pages_visited context)));
    Fin (inject_Z (int_or_0 (time_to_transaction context)));
    Fin (bool_to_Q (holiday_indicator context));
    Fin (bool_to_Q (promotional_period context)) ] in
  Ok (transaction_features ++ user_features ++ device_features
      ++ payment_features ++ geographic_features ++ time_features
      ++ session_features).

(** ** Rules *)

(** [if cond: indicators.append(x)] *)
Definition append_if {A} (cond : bool) (x : A) (l : list A) : list A :=
  if cond then l ++ [x] else l.

(** [_apply_fraud_rules] *)
Definition _apply_fraud_rules (self : FraudDetectionService)
    (transaction : TransactionData) (user : UserData)
    (device : DeviceInfo) (context : ContextData) : list RuleIndicator :=
  let indicators : list RuleIndicator := [] in
  let indicators :=
    append_if (Qgtb (amount transaction) (high_amount (thresholds self)))
      {| rule_type := "high_amount";
         rule_severity := py_min (amount transaction / 50000) 1;
         rule_description := "High transaction amount: $"
                             +:+ str_of_float (amount transaction) |}
      indicators in
  let hourly := int_or_0 (hourly_transaction_count transaction) in
  let indicators :=
    append_if (truthy_int (hourly_transaction_count transaction)
               && (velocity_transactions (thresholds self) <? hourly)%Z)
      {| rule_type := "velocity_abuse";
         rule_severity := py_min (inject_Z hourly / 20) 1;
         rule_description := "High transaction velocity: "
                             +:+ str_of_int hourly +:+ " in 1 hour" |}
      indicators in
  let indicators :=
    append_if (account_age_days user <? 1)%Z
      {| rule_type := "new_account";
         rule_severity := 0.7;
         rule_description := "Transaction from newly created account" |}
      indicators in
  let indicators :=
    append_if (negb (email_verified user) || negb (phone_verified user))
      {| rule_type := "unverified_account";
         rule_severity := 0.5;
         rule_description := "Transaction from unverified account" |}
      indicators in
  let indicators :=
    append_if (truthy_bool (is_proxy device))
      {| rule_type := "proxy_usage";
         rule_severity := 0.6;
         rule_description := "Transaction from proxy/VPN" |}
      indicators in
  let hour := dt_hour (transaction_time transaction) in
  let indicators :=
    append_if ((hour <? 6)%Z || (23 <? hour)%Z)
      {| rule_type := "unusual_time";
         rule_severity := 0.4;
         rule_description := "Transaction during unusual hours" |}
      indicators in
  let indicators :=
    append_if (0 <? previous_fraud_reports user)%Z
      {| rule_type := "fraud_history";
         rule_severity :=
           py_min (inject_Z (previous_fraud_reports user) / 5) 1;
         rule_description :=
           "User has " +:+ str_of_int (previous_fraud_reports user)
           +:+ " previous fraud reports" |}
      indicators in
  let indicators :=
    append_if (3 <? failed_login_attempts user)%Z
      {| rule_type := "failed_logins";
         rule_severity :=
           py_min (inject_Z (failed_login_attempts user) / 10) 1;
         rule_description :=
           "Recent failed login attempts: "
           +:+ str_of_int (failed_login_attempts user) |}
      indicators in
  indicators.

(** ** Model scores *)

(** One round of the loop of [_run_ml_models]: the body of the [try]
    for [model_name], and the [except] branch, which stores 0.0. *)
Definition run_ml_model (features : ndarray)
    (st : list (string * Q) * FraudDetectionService * RandomState)
    (model_name : string)
  : list (string * Q) * FraudDetectionService * RandomState :=
  let '(scores, self, rng) := st in
  match models self !! model_name with
  | None => (dict_set scores model_name 0, self, rng)
  | Some model =>
      let '(scaled_features, self) :=
        match scalers self !! model_name with
        | Some scaler =>
            let '(scaled, scaler) := fit_transform scaler features in
            (scaled,
             set_scalers self (<[model_name := scaler]> (scalers self)))
        | None => (Ok features, self)
        end in
      match scaled_features with
      | Ok _ =>
          let '(fraud_prob, rng) := random_beta rng in
          (dict_set scores model_name fraud_prob, self, rng)
      | Raise _ => (dict_set scores model_name 0, self, rng)
      end
  end.

(** [_run_ml_models] *)
Definition _run_ml_models (self : FraudDetectionService)
    (features : ndarray) (rng : RandomState)
  : list (string * Q) * FraudDetectionService * RandomState :=
  foldl (run_ml_model features) ([], self, rng) supervised_models.

(** One round of the loop of [_detect_anomalies]. *)
Definition detect_anomaly (self : FraudDetectionService)
    (features : ndarray) (st : list (string * Q) * RandomState)
    (model_name : string) : list (string * Q) * RandomState :=
  let '(scores, rng) := st in
  match models self !! model_name with
  | None => (dict_set scores model_name 0, rng)
  | Some model =>
      if has_decision_function model then
        match decision_function model features with
        | Ok d => (dict_set scores model_name (py_min (Qabs d) 1), rng)
        | Raise _ => (dict_set scores model_name 0, rng)
        end
      else
        let '(anomaly_score, rng) := random_beta rng in
        (dict_set scores model_name (py_min anomaly_score 1), rng)
  end.

(** [_detect_anomalies] *)
Definition _detect_anomalies (self : FraudDetectionService)
    (features : ndarray) (rng : RandomState)
  : list (string * Q) * RandomState :=
  foldl (detect_anomaly self features) ([], rng) anomaly_models.

(** ** Risk analyses *)

(** [risk_score += x] under a condition *)
Definition add_if (cond : bool) (x risk_score : Q) : Q :=
  if cond then risk_score + x else risk_score.

(** [_analyze_device_risk] *)
Definition _analyze_device_risk (device : DeviceInfo) (user : UserData)
  : Q :=
  let risk_score := 0 in
  let risk_score :=
    add_if (negb (truthy_str (device_fingerprint device))) 0.3
           risk_score in
  let risk_score :=
    add_if (truthy_bool (is_proxy device)) 0.4 risk_score in
  let device_hash :=
    md5_hexdigest (if truthy_str (device_fingerprint device)
                   then default "" (device_fingerprint device)
                   else "") in
  let risk_score :=
    add_if (95 <? py_hash device_hash mod 100)%Z 0.5 risk_score in
  py_min risk_score 1.

(** [_analyze_behavioral_patterns] *)
Definition _analyze_behavioral_patterns (transaction : TransactionData)
    (user : UserData) (context : ContextData) : Q :=
  let risk_score := 0 in
  let risk_score :=
    if truthy_int (time_to_transaction context) then
      let t := int_or_0 (time_to_transaction context) in
      if (t <? 10)%Z then risk_score + 0.3
      else if (3600 <? t)%Z then risk_score + 0.2
      else risk_score
    else risk_score in
  let risk_score :=
    if truthy_int (pages_visited context) then
      let p := int_or_0 (pages_visited context) in
      if (p <? 2)%Z then risk_score + 0.2
      else if (50 <? p)%Z then risk_score + 0.1
      else risk_score
    else risk_score in
  let risk_score :=
    if truthy_float (average_transaction_amount user) then
      (* the divisor is not zero: it was just tested *)
      let amount_ratio :=
        amount transaction
        / float_or_0 (average_transaction_amount user) in
      if Qgtb amount_ratio 5 then risk_score + 0.4
      else if Qltb amount_ratio 0.1 then risk_score + 0.2
      else risk_score
    else risk_score in
  py_min risk_score 1.

(** [_analyze_velocity_patterns].  In the amount velocity,
    [float(average) * user.transaction_frequency or 1] multiplies
    first: a missing frequency is a [TypeError], a zero product is
    replaced by 1. *)
Definition _analyze_velocity_patterns (transaction : TransactionData)
    (user : UserData) : result Q :=
  let risk_score := 0 in
  let hourly := int_or_0 (hourly_transaction_count transaction) in
  let risk_score :=
    add_if (truthy_int (hourly_transaction_count transaction)
            && (5 <? hourly)%Z)
           (py_min (inject_Z hourly / 10) 0.5) risk_score in
  let daily := int_or_0 (daily_transaction_count transaction) in
  let risk_score :=
    add_if (truthy_int (daily_transaction_count transaction)
            && (10 <? daily)%Z)
           (py_min (inject_Z daily / 20) 0.3) risk_score in
  risk_score ←
    (if truthy_float (daily_amount_total transaction)
        && truthy_float (average_transaction_amount user)
     then
       match transaction_frequency user with
       | None => Raise TypeError
       | Some frequency =>
           let product :=
             float_or_0 (average_transaction_amount user) * frequency in
           let divisor := if Qeq_bool product 0 then 1 else product in
           let daily_ratio :=
             float_or_0 (daily_amount_total transaction) / divisor in
           Ok (add_if (Qgtb daily_ratio 3)
                      (py_min (daily_ratio / 10) 0.4) risk_score)
       end
     else Ok risk_score);
  Ok (py_min risk_score 1).

Definition high_risk_countries : list string := ["XX"; "YY"; "ZZ"].

(** [_analyze_geographic_risk] *)
Definition _analyze_geographic_risk (transaction : TransactionData)
    (user : UserData) (device : DeviceInfo) : Q :=
  let risk_score := 0 in
  let risk_score := add_if (is_international transaction) 0.3 risk_score in
  let billing_country : option string :=
    default ∅ (billing_address transaction) !! "country" in
  let shipping_country : option string :=
    default ∅ (shipping_address transaction) !! "country" in
  let risk_score :=
    add_if (truthy_dict (billing_address transaction)
            && truthy_dict (shipping_address transaction)
            && negb (bool_decide (billing_country = shipping_country)))
           0.2 risk_score in
  let risk_score :=
    add_if (truthy_dict (billing_address transaction)
            && match billing_country with
               | Some c => bool_decide (c ∈ high_risk_countries)
               | None => false
               end)
           0.4 risk_score in
  py_min risk_score 1.

(** ** Ensemble score and decision *)

(** The [weights] dictionary of [_calculate_ensemble_score]. *)
Definition weight_ml_models : Q := 0.3.
Definition weight_anomaly_detection : Q := 0.2.
Definition weight_rules : Q := 0.2.
Definition weight_device_risk : Q := 0.1.
Definition weight_behavioral_risk : Q := 0.1.
Definition weight_velocity_risk : Q := 0.05.
Definition weight_geographic_risk : Q := 0.05.

(** [if xs: final_score += np.mean(xs) * w] *)
Definition add_mean (xs : list Q) (w final_score : Q) : Q :=
  match xs with
  | [] => final_score
  | _ :: _ => final_score + np_mean xs * w
  end.

(** [_calculate_ensemble_score] *)
Definition _calculate_ensemble_score
    (ml_scores anomaly_scores : list (string * Q))
    (rule_indicators : list RuleIndicator)
    (device_risk behavioral_risk velocity_risk geographic_risk : Q) : Q :=
  let final_score := 0 in
  let final_score :=
    add_mean (dict_values ml_scores) weight_ml_models final_score in
  let final_score :=
    add_mean (dict_values anomaly_scores) weight_anomaly_detection
             final_score in
  let final_score :=
    add_mean (map rule_severity rule_indicators) weight_rules
             final_score in
  let final_score := final_score + device_risk * weight_device_risk in
  let final_score :=
    final_score + behavioral_risk * weight_behavioral_risk in
  let final_score := final_score + velocity_risk * weight_velocity_risk in
  let final_score :=
    final_score + geographic_risk * weight_geographic_risk in
  py_min final_score 1.

(** [_make_fraud_decision] *)
Definition _make_fraud_decision (fraud_score : Q)
    (rule_indicators : list RuleIndicator) : FraudDecision :=
  let critical_indicators :=
    List.filter (fun indicator => Qgtb (rule_severity indicator) 0.9)
                rule_indicators in
  match critical_indicators with
  | _ :: _ => DECLINE
  | [] =>
      if Qgeb fraud_score 0.8 then DECLINE
      else if Qgeb fraud_score 0.6 then REVIEW
      else if Qgeb fraud_score 0.4 then CHALLENGE
      else APPROVE
  end.

(** [_score_to_risk_level] *)
Definition _score_to_risk_level (score : Q) : RiskLevel :=
  if Qgeb score 0.8 then CRITICAL
  else if Qgeb score 0.6 then HIGH
  else if Qgeb score 0.3 then MEDIUM
  else LOW.

(** ** Explanations *)

(** [indicators.sort(key=lambda x: x.severity, reverse=True)]: a stable
    sort by decreasing severity, written as the insertion sort that
    computes the same list. *)
Fixpoint insert_by_severity (x : FraudIndicator)
    (l : list FraudIndicator) : list FraudIndicator :=
  match l with
  | [] => [x]
  | y :: l' =>
      if Qltb (severity x) (severity y)
      then y :: insert_by_severity x l'
      else x :: y :: l'
  end.

Definition sort_by_severity (l : list FraudIndicator)
  : list FraudIndicator :=
  foldr insert_by_severity [] l.

Definition rule_to_indicator (rule_indicator : RuleIndicator)
  : FraudIndicator :=
  {| indicator_type := rule_type rule_indicator;
     description := rule_description rule_indicator;
     severity := rule_severity rule_indicator;
     confidence := 0.9;
     contributing_factors := [rule_type rule_indicator] |}.

Definition ml_indicator (entry : string * Q) : list FraudIndicator :=
  let '(model_name, score) := entry in
  if Qgtb score 0.5 then
    [ {| indicator_type := "ml_" +:+ model_name;
         description := "Machine learning model " +:+ model_name
                        +:+ " detected fraud patterns";
         severity := score;
         confidence := 0.7;
         contributing_factors := ["ml_prediction_" +:+ model_name] |} ]
  else [].

Definition anomaly_indicator (entry : string * Q) : list FraudIndicator :=
  let '(model_name, score) := entry in
  if Qgtb score 0.6 then
    [ {| indicator_type := "anomaly_" +:+ model_name;
         description := "Anomaly detection model " +:+ model_name
                        +:+ " detected unusual patterns";
         severity := score;
         confidence := 0.6;
         contributing_factors := ["anomaly_" +:+ model_name] |} ]
  else [].

(** [_generate_fraud_indicators] *)
Definition _generate_fraud_indicators
    (rule_indicators : list RuleIndicator)
    (ml_scores anomaly_scores : list (string * Q))
    (device_risk behavioral_risk velocity_risk geographic_risk : Q)
  : list FraudIndicator :=
  let indicators := map rule_to_indicator rule_indicators in
  let indicators := indicators ++ concat (map ml_indicator ml_scores) in
  let indicators :=
    indicators ++ concat (map anomaly_indicator anomaly_scores) in
  let indicators :=
    append_if (Qgtb device_risk 0.5)
      {| indicator_type := "device_risk";
         description := "High device risk detected";
         severity := device_risk;
         confidence := 0.8;
         contributing_factors := ["device_analysis"] |}
      indicators in
  let indicators :=
    append_if (Qgtb behavioral_risk 0.5)
      {| indicator_type := "behavioral_risk";
         description := "Unusual behavioral patterns detected";
         severity := behavioral_risk;
         confidence := 0.7;
         contributing_factors := ["behavioral_analysis"] |}
      indicators in
  sort_by_severity indicators.

(** [_generate_recommendations].  The last line, [list(set(...))],
    drops the duplicates; the order in which a Python set is listed is
    not specified, the model keeps the order of [remove_dups]. *)
Definition _generate_recommendations (fraud_score : Q)
    (decision : FraudDecision) (indicators : list FraudIndicator)
  : list string :=
  let recommendations :=
    match decision with
    | DECLINE =>
        [ "Block transaction immediately";
          "Alert fraud investigation team";
          "Consider temporary account suspension";
          "Require additional verification for future transactions" ]
    | REVIEW =>
        [ "Place transaction in manual review queue";
          "Contact customer for verification";
          "Monitor account for additional suspicious activity";
          "Consider lowering transaction limits temporarily" ]
    | CHALLENGE =>
        [ "Require additional authentication (2FA, SMS)";
          "Ask for additional verification documents";
          "Monitor transaction completion";
          "Set up enhanced monitoring for this account" ]
    | APPROVE => []
    end in
  let indicator_types := map indicator_type indicators in
  let has (t : string) := bool_decide (t ∈ indicator_types) in
  let recommendations :=
    append_if (has "high_amount")
      "Consider implementing daily/monthly spending limits"
      recommendations in
  let recommendations :=
    append_if (has "velocity_abuse")
      "Implement velocity controls and cooling-off periods"
      recommendations in
  let recommendations :=
    append_if (has "proxy_usage")
      "Block transactions from known proxy/VPN services"
      recommendations in
  let recommendations :=
    append_if (has "new_account")
      "Require additional verification for new accounts"
      recommendations in
  remove_dups recommendations.

(** [_calculate_confidence] *)
Definition _calculate_confidence
    (ml_scores anomaly_scores : list (string * Q)) (features : ndarray)
  : Q :=
  let confidence_factors : list Q := [] in
  let all_scores := dict_values ml_scores ++ dict_values anomaly_scores in
  let confidence_factors :=
    match all_scores with
    | [] => confidence_factors
    | _ :: _ =>
        let score_std := np_std all_scores in
        let agreement_confidence := py_max 0 (1 - score_std * 2) in
        confidence_factors ++ [agreement_confidence]
    end in
  let missing_ratio :=
    inject_Z (Z.of_nat (length (List.filter is_nan features)))
    / inject_Z (Z.of_nat (length features)) in
  let data_quality_confidence := 1 - missing_ratio in
  let confidence_factors :=
    confidence_factors ++ [data_quality_confidence] in
  let confidence_factors := confidence_factors ++ [0.8] in
  np_mean confidence_factors.

(** ** analyze_transaction *)

(** The two readings of the event-loop clock and the reading of
    [datetime.utcnow()] that a call makes. *)
Record Clock : Type := {
  loop_time_start : Q;
  loop_time_end : Q;
  utcnow : datetime
}.

(** [analyze_transaction]: the result or the exception, with the
    service object and the random generator as the call leaves them. *)
Definition analyze_transaction (self : FraudDetectionService)
    (rng : RandomState) (clock : Clock)
    (transaction_data : TransactionData) (user_data : UserData)
    (device_data : DeviceInfo) (context_data : ContextData)
  : result FraudDetectionResult * FraudDetectionService * RandomState :=
  let start_time := loop_time_start clock in
  match _prepare_transaction_features self transaction_data user_data
          device_data context_data with
  | Raise e => (Raise e, self, rng)
  | Ok features =>
      let rule_indicators :=
        _apply_fraud_rules self transaction_data user_data device_data
          context_data in
      let '(ml_scores, self, rng) := _run_ml_models self features rng in
      let '(anomaly_scores, rng) := _detect_anomalies self features rng in
      let device_risk := _analyze_device_risk device_data user_data in
      let behavioral_risk :=
        _analyze_behavioral_patterns transaction_data user_data
          context_data in
      let outcome :=
        velocity_risk ←
          _analyze_velocity_patterns transaction_data user_data;
        let geographic_risk :=
          _analyze_geographic_risk transaction_data user_data
            device_data in
        let fraud_score :=
          _calculate_ensemble_score ml_scores anomaly_scores
            rule_indicators device_risk behavioral_risk velocity_risk
            geographic_risk in
        let decision := _make_fraud_decision fraud_score rule_indicators in
        let indicators :=
          _generate_fraud_indicators rule_indicators ml_scores
            anomaly_scores device_risk behavioral_risk velocity_risk
            geographic_risk in
        let recommendations :=
          _generate_recommendations fraud_score decision indicators in
        let confidence_score :=
          _calculate_confidence ml_scores anomaly_scores features in
        let processing_time := (loop_time_end clock - start_time) * 1000 in
        Ok {| fraud_score := fraud_score;
              decision := decision;
              confidence_score := confidence_score;
              indicators := indicators;
              recommendations := recommendations;
              primary_indicator :=
                match indicators with
                | first :: _ => Some (indicator_type first)
                | [] => None
                end;
              processing_time_ms := processing_time;
              model_version := "ensemble_v2.0";
              analysis_timestamp := utcnow clock |} in
      (outcome, self, rng)
  end.

(** ** bulk_analyze_transactions *)

(** An element of [transactions]: a dictionary with the keys
    ['transaction'], ['user'], ['device'] and ['context'], together
    with the clock readings that its analysis will make. *)
Record TransactionRequest : Type := {
  req_transaction : TransactionData;
  req_user : UserData;
  req_device : DeviceInfo;
  req_context : ContextData;
  req_clock : Clock
}.

Definition analysis_task (request : TransactionRequest)
    (w : FraudDetectionService * RandomState)
  : result FraudDetectionResult * (FraudDetectionService * RandomState) :=
  let '(r, self, rng) :=
    analyze_transaction (fst w) (snd w) (req_clock request)
      (req_transaction request) (req_user request)
      (req_device request) (req_context request) in
  (r, (self, rng)).

(** [TransactionAnalysisResponse(...)] in the result loop, with the
    validator of the two scores. *)
Definition make_response (transaction_id : string)
    (r : FraudDetectionResult) : result TransactionAnalysisResponse :=
  score ← validate_score_range (fraud_score r);
  conf ← validate_score_range (confidence_score r);
  Ok {| resp_transaction_id := transaction_id;
        resp_fraud_score := score;
        resp_risk_level := _score_to_risk_level (fraud_score r);
        resp_decision := decision r;
        resp_indicators := indicators r;
        resp_risk_factors := [];
        resp_recommendations := recommendations r;
        resp_confidence_score := conf;
        resp_processing_time_ms := processing_time_ms r;
        resp_model_version := model_version r;
        resp_analysis_timestamp := analysis_timestamp r |}.

(** [bulk_analyze_transactions] *)
Definition bulk_analyze_transactions (self : FraudDetectionService)
    (rng : RandomState) (transactions : list TransactionRequest)
  : result (gmap string TransactionAnalysisResponse)
    * (FraudDetectionService * RandomState) :=
  Bulk.bulk analysis_task
    (fun request => transaction_id (req_transaction request))
    make_response 20 transactions (self, rng).

End WithRuntime.

End Fraud.

(* ================================================================== *)
(** * price_optimizer.py *)
(* ================================================================== *)

Module Price.

(** ** config.py: the pricing configuration *)

Record Settings : Type := {
  DEFAULT_PROFIT_MARGIN : Q;
  MIN_PROFIT_MARGIN : Q;
  MAX_PRICE_CHANGE_PERCENT : Q;
  PRICE_UPDATE_COOLDOWN_HOURS : Z
}.

(** The defaults of the [Field]s. *)
Definition default_settings : Settings :=
  {| DEFAULT_PROFIT_MARGIN := 0.25;
     MIN_PROFIT_MARGIN := 0.05;
     MAX_PRICE_CHANGE_PERCENT := 0.20;
     PRICE_UPDATE_COOLDOWN_HOURS := 6 |}.

(** ** schemas.py *)

Inductive PriceChangeReason : Set :=
| COMPETITIVE_PRESSURE
| DEMAND_INCREASE
| DEMAND_DECREASE
| COST_CHANGE
| INVENTORY_LEVEL
| SEASONAL_ADJUSTMENT
| PROMOTION
| MARKET_POSITION.

Record PricingConstraints : Type := {
  min_price : option Q;
  max_price : option Q;
  min_margin : option Q;
  max_discount : option Q;
  round_to_nearest : option Q;
  psychological_pricing : bool;
  competitor_price_buffer : option Q
}.

Record DemandData : Type := {
  daily_sales : list Z;
  price_points : list Q
}.

(** [demand_data.dict()]: the entries that hold numbers; only
    ['daily_sales'] is ever read. *)
Definition demand_dict (d : DemandData) : gmap string (list Q) :=
  {[ "daily_sales" := map inject_Z (daily_sales d);
     "price_points" := price_points d ]}.

Record ProductInfo : Type := {
  product_id : string;
  current_price : Q;
  cost : Q;
  inventory_level : Z;
  demand_data : option DemandData;
  constraints : option PricingConstraints
}.

(** The response, without [price_elasticity], [revenue_projections] and
    [competitor_analysis]: they are computed from the two prices by
    helpers that do not raise once [_calculate_impact] has returned,
    and nothing below reads them. *)
Record PriceOptimizationResponse : Type := {
  resp_product_id : string;
  resp_current_price : Q;
  recommended_price : Q;
  price_change : Q;
  price_change_percent : Q;
  expected_demand_change : Q;
  expected_revenue_change : Q;
  expected_profit_change : Q;
  confidence_score : Q;
  primary_reason : PriceChangeReason;
  secondary_reasons : list PriceChangeReason;
  market_position : string;
  risk_factors : list string;
  optimization_timestamp : datetime;
  model_version : string;
  data_quality_score : Q
}.

(** [validate_score_range] of [PriceOptimizationResponse]. *)
Definition validate_score_range (v : Q) : result Q :=
  if Qle_bool 0 v && Qle_bool v 1 then Ok v else Raise ValidationError.

(** ** The service object *)

Record ModelPrediction : Type := {
  price : Q;
  confidence : Q;
  features_importance : list (string * Q);
  model_used : string
}.

(** A regressor of [self.models]: [predict(X)[0]] and, when the
    attribute exists, [feature_importances_]. *)
Record Model : Type := {
  predict : ndarray -> result Q;
  feature_importances_ : option (list Q)
}.

(** [self.models] is iterated: an association list. *)
Record PriceOptimizerService : Type := {
  models : list (string * Model);
  scalers : gmap string StandardScaler;
  is_initialized : bool
}.

Definition set_scalers (self : PriceOptimizerService)
    (s : gmap string StandardScaler) : PriceOptimizerService :=
  {| models := models self; scalers := s;
     is_initialized := is_initialized self |}.

(** [__init__] *)
Definition init : PriceOptimizerService :=
  {| models := []; scalers := ∅; is_initialized := false |}.

Definition unfitted_regressor : Model :=
  {| predict := fun _ => Raise NotFittedError;
     feature_importances_ := None |}.

Definition model_names : list string :=
  ["random_forest"; "xgboost"; "lightgbm"; "gradient_boosting";
   "elastic_net"].

(** [load_models]; [pretrained] holds the pairs of model and scaler that
    [_load_pretrained_models] finds on disk. *)
Definition load_models (self : PriceOptimizerService)
    (pretrained : gmap string (Model * StandardScaler))
  : PriceOptimizerService :=
  let install (st : list (string * Model) * gmap string StandardScaler)
              (n : string) :=
    (dict_set (fst st) n unfitted_regressor, <[n := new_scaler]> (snd st)) in
  let load (st : list (string * Model) * gmap string StandardScaler)
           (n : string) :=
    match pretrained !! n with
    | Some (m, sc) => (dict_set (fst st) n m, <[n := sc]> (snd st))
    | None => st
    end in
  let st := foldl install (models self, scalers self) model_names in
  let st := foldl load st model_names in
  {| models := fst st; scalers := snd st; is_initialized := true |}.

Section WithRuntime.
Context `{Runtime}.
Variable settings : Settings.

(** [cp.get('price', 0)] of an element of [competitor_prices]. *)
Definition competitor_price (cp : gmap string Q) : Q :=
  default 0 (cp !! "price").

(** [np.min] and [np.max] of a list that is not empty. *)
Definition np_min (xs : list Q) : Q :=
  match xs with [] => 0 | x :: xs' => foldl py_min x xs' end.
Definition np_max (xs : list Q) : Q :=
  match xs with [] => 0 | x :: xs' => foldl py_max x xs' end.

(** [_prepare_features]; [now] is the reading of
    [datetime.utcnow()]. *)
Definition _prepare_features (now : datetime) (current_price cost : Q)
    (inventory_level : Z) (competitor_prices : list (gmap string Q))
    (demand_data : option (gmap string (list Q))) : ndarray :=
  let product_features := [
    Fin current_price;
    Fin cost;
    Fin (current_price - cost);
    Fin (if Qgtb current_price 0
         then (current_price - cost) / current_price else 0);
    Fin (inject_Z inventory_level);
    np_log1p (inject_Z inventory_level) ] in
  let competitor_features :=
    match competitor_prices with
    | _ :: _ =>
        let prices := map competitor_price competitor_prices in
        [ Fin (np_mean prices);
          Fin (np_min prices);
          Fin (np_max prices);
          Fin (np_std prices);
          Fin (if Qgtb (np_mean prices) 0
               then current_price / np_mean prices else 1);
          Fin (inject_Z (Z.of_nat (length prices))) ]
    | [] =>
        [ Fin current_price; Fin current_price; Fin current_price;
          Fin 0; Fin 1; Fin 0 ]
    end in
  let demand_features :=
    match demand_data ≫= (fun d => d !! "daily_sales") with
    | Some sales =>
        match sales with
        | _ :: _ =>
            [ Fin (np_mean sales);
              Fin (np_std sales);
              Fin (List.last sales 0);
              Fin (if (1 <? length sales)%nat
                   then polyfit_slope sales else 0) ]
        | [] => [Fin 0; Fin 0; Fin 0; Fin 0]
        end
    | None => [Fin 100; Fin 10; Fin 100; Fin 0]
    end in
  let time_features := [
    Fin (inject_Z (dt_month now));
    Fin (inject_Z (dt_weekday now));
    Fin (inject_Z (dt_hour now)) ] in
  product_features ++ competitor_features ++ demand_features
  ++ time_features.

(** One round of the loop of [_get_ensemble_prediction]: an exception
    of the scaler lookup, of the scaler or of [predict] skips the
    model. *)
Definition predict_one (features : ndarray)
    (st : list ModelPrediction * PriceOptimizerService)
    (entry : string * Model)
  : list ModelPrediction * PriceOptimizerService :=
  let '(predictions, self) := st in
  let '(model_name, model) := entry in
  match scalers self !! model_name with
  | None => (predictions, self)
  | Some scaler =>
      let '(scaled_features, scaler) := fit_transform scaler features in
      let self :=
        set_scalers self (<[model_name := scaler]> (scalers self)) in
      match scaled_features ≫= predict model with
      | Raise _ => (predictions, self)
      | Ok prediction =>
          let confidence := 0.8 in
          let feature_importance :=
            match feature_importances_ model with
            | Some importances =>
                let feature_names :=
                  map (fun i => "feature_" +:+ str_of_int (Z.of_nat i))
                      (seq 0 (length features)) in
                foldl (fun d kv => dict_set d (fst kv) (snd kv)) []
                      (zip feature_names importances)
            | None => []
            end in
          (predictions ++
             [ {| price := prediction;
                  confidence := confidence;
                  features_importance := feature_importance;
                  model_used := model_name |} ],
           self)
      end
  end.

(** [_get_ensemble_prediction] *)
Definition _get_ensemble_prediction (self : PriceOptimizerService)
    (features : ndarray) : list ModelPrediction * PriceOptimizerService :=
  foldl (predict_one features) ([], self) (models self).

(** The user-defined part of [_apply_business_rules]. *)
Definition apply_user_constraints (c : PricingConstraints)
    (cost optimized_price : Q) : result Q :=
  let optimized_price :=
    if truthy_float (min_price c)
    then py_max (float_or_0 (min_price c)) optimized_price
    else optimized_price in
  let optimized_price :=
    if truthy_float (max_price c)
    then py_min (float_or_0 (max_price c)) optimized_price
    else optimized_price in
  optimized_price ←
    (if truthy_float (min_margin c) then
       min_price_with_margin ←
         py_div cost (1 - float_or_0 (min_margin c));
       Ok (py_max min_price_with_margin optimized_price)
     else Ok optimized_price);
  let optimized_price :=
    if truthy_float (round_to_nearest c) then
      (* the divisor is not zero: it was just tested *)
      let r := float_or_0 (round_to_nearest c) in
      inject_Z (round_half_even (optimized_price / r)) * r
    else optimized_price in
  let optimized_price :=
    if psychological_pricing c
    then py_round2 (optimized_price - 0.01)
    else optimized_price in
  Ok optimized_price.

(** [_apply_business_rules] *)
Definition _apply_business_rules (predictions : list ModelPrediction)
    (current_price cost : Q) (constraints : option PricingConstraints)
  : result Q :=
  match predictions with
  | [] => Ok current_price
  | _ :: _ =>
      let total_weight := py_sum (map confidence predictions) in
      if Qeq_bool total_weight 0 then Ok current_price
      else
        let weighted_price :=
          py_sum (map (fun p => price p * confidence p) predictions)
          / total_weight in
        let min_price := cost * (1 + MIN_PROFIT_MARGIN settings) in
        let max_price_change :=
          current_price * MAX_PRICE_CHANGE_PERCENT settings in
        let optimized_price := py_max min_price weighted_price in
        let optimized_price :=
          py_max (current_price - max_price_change) optimized_price in
        let optimized_price :=
          py_min (current_price + max_price_change) optimized_price in
        optimized_price ←
          match constraints with
          | Some c => apply_user_constraints c cost optimized_price
          | None => Ok optimized_price
          end;
        Ok (py_round2 optimized_price)
  end.

(** The dictionary that [_calculate_impact] returns. *)
Record Impact : Type := {
  demand_change : Q;
  revenue_change : Q;
  profit_change : Q
}.

(** [_calculate_impact] *)
Definition _calculate_impact (current_price optimized_price : Q)
  : result Impact :=
  ratio ← py_div (optimized_price - current_price) current_price;
  let price_change_percent := ratio * 100 in
  let elasticity := -1.2 in
  let demand_change := elasticity * price_change_percent in
  let revenue_change := price_change_percent + demand_change in
  let current_profit_margin := 0.25 in
  let profit_change := revenue_change * (1 + current_profit_margin) in
  Ok {| demand_change := demand_change;
        revenue_change := revenue_change;
        profit_change := profit_change |}.

(** [_analyze_price_change_reasons] *)
Definition _analyze_price_change_reasons
    (current_price optimized_price : Q)
    (competitor_prices : list (gmap string Q))
  : PriceChangeReason * list PriceChangeReason :=
  let reasons : list PriceChangeReason := [] in
  let price_change := optimized_price - current_price in
  let reasons :=
    match competitor_prices with
    | _ :: _ =>
        let avg_competitor_price :=
          np_mean (map competitor_price competitor_prices) in
        if Qgtb current_price (avg_competitor_price * 1.1)
        then reasons ++ [COMPETITIVE_PRESSURE] else reasons
    | [] => reasons
    end in
  let reasons :=
    if Qgtb price_change 0
    then reasons ++ [DEMAND_INCREASE; MARKET_POSITION]
    else if Qltb price_change 0
    then reasons ++ [COMPETITIVE_PRESSURE; DEMAND_DECREASE]
    else reasons in
  let reasons :=
    match reasons with [] => [MARKET_POSITION] | _ :: _ => reasons end in
  (List.hd MARKET_POSITION reasons, List.tl reasons).

(** [_assess_risks] *)
Definition _assess_risks (current_price optimized_price : Q)
  : result (list string) :=
  ratio ← py_div (optimized_price - current_price) current_price;
  let price_change_percent := Qabs ratio * 100 in
  let risks : list string :=
    if Qgtb price_change_percent 10
    then ["Large price change may shock customers"] else [] in
  Ok (if Qgtb optimized_price current_price
      then risks ++ [ "Price increase may reduce demand";
                      "Competitors may maintain lower prices" ]
      else risks ++ [ "Price decrease may signal quality concerns";
                      "Profit margins will be reduced" ]).

(** [demand_data.get('daily_sales')] is there and not empty. *)
Definition has_daily_sales (demand_data : option (gmap string (list Q)))
  : bool :=
  match demand_data ≫= (fun d => d !! "daily_sales") with
  | Some (_ :: _) => true
  | _ => false
  end.

(** [_calculate_confidence_score] *)
Definition _calculate_confidence_score
    (predictions : list ModelPrediction)
    (demand_data : option (gmap string (list Q))) : Q :=
  match predictions with
  | [] => 0
  | _ :: _ =>
      let avg_confidence := np_mean (map confidence predictions) in
      let data_quality_factor := 1 in
      let data_quality_factor :=
        if negb (has_daily_sales demand_data)
        then data_quality_factor * 0.8 else data_quality_factor in
      let data_quality_factor :=
        if (1 <? length predictions)%nat then
          let price_std := np_std (map price predictions) in
          let avg_price := np_mean (map price predictions) in
          if Qgtb avg_price 0 && Qgtb (price_std / avg_price) 0.1
          then data_quality_factor * 0.9 else data_quality_factor
        else data_quality_factor in
      py_round2 (py_min 1 (avg_confidence * data_quality_factor))
  end.

(** [_determine_market_position] *)
Definition _determine_market_position (optimized_price : Q)
    (competitor_prices : list (gmap string Q)) : string :=
  match competitor_prices with
  | [] => "value_leader"
  | _ :: _ =>
      let avg_competitor_price :=
        np_mean (map competitor_price competitor_prices) in
      if Qgtb optimized_price (avg_competitor_price * 1.15)
      then "premium"
      else if Qgtb optimized_price (avg_competitor_price * 1.05)
      then "competitive_premium"
      else if Qgtb optimized_price (avg_competitor_price * 0.95)
      then "competitive"
      else if Qgtb optimized_price (avg_competitor_price * 0.85)
      then "value"
      else "value_leader"
  end.

(** [_assess_data_quality] *)
Definition _assess_data_quality (features : ndarray)
    (demand_data : option (gmap string (list Q))) : Q :=
  let quality_score := 1 in
  let quality_score :=
    if existsb is_nan features || existsb is_inf features
    then quality_score * 0.7 else quality_score in
  let quality_score :=
    if negb (truthy_dict demand_data) then quality_score * 0.8
    else
      match demand_data ≫= (fun d => d !! "daily_sales") with
      | Some ((_ :: _) as sales_data) =>
          if (length sales_data <? 30)%nat
          then quality_score * 0.9 else quality_score
      | _ => quality_score
      end in
  py_round2 quality_score.

(** The readings of [datetime.utcnow()] that a call makes. *)
Record Clock : Type := {
  utcnow_features : datetime;
  utcnow_response : datetime
}.

(** [optimize_product_price]: the response or the exception, and the
    service object as the call leaves it. *)
Definition optimize_product_price (self : PriceOptimizerService)
    (clock : Clock) (product_id : string) (current_price cost : Q)
    (inventory_level : Z) (competitor_prices : list (gmap string Q))
    (demand_data : option (gmap string (list Q)))
    (constraints : option PricingConstraints)
  : result PriceOptimizationResponse * PriceOptimizerService :=
  let features :=
    _prepare_features (utcnow_features clock) current_price cost
      inventory_level competitor_prices demand_data in
  let '(predictions, self) := _get_ensemble_prediction self features in
  let outcome :=
    optimized_price ←
      _apply_business_rules predictions current_price cost constraints;
    impact_analysis ← _calculate_impact current_price optimized_price;
    let '(primary_reason, secondary_reasons) :=
      _analyze_price_change_reasons current_price optimized_price
        competitor_prices in
    risk_factors ← _assess_risks current_price optimized_price;
    let confidence_score :=
      _calculate_confidence_score predictions demand_data in
    ratio ← py_div (optimized_price - current_price) current_price;
    let market_position :=
      _determine_market_position optimized_price competitor_prices in
    let data_quality_score := _assess_data_quality features demand_data in
    confidence_score ← validate_score_range confidence_score;
    data_quality_score ← validate_score_range data_quality_score;
    Ok {| resp_product_id := product_id;
          resp_current_price := current_price;
          recommended_price := optimized_price;
          price_change := optimized_price - current_price;
          price_change_percent := ratio * 100;
          expected_demand_change := demand_change impact_analysis;
          expected_revenue_change := revenue_change impact_analysis;
          expected_profit_change := profit_change impact_analysis;
          confidence_score := confidence_score;
          primary_reason := primary_reason;
          secondary_reasons := secondary_reasons;
          market_position := market_position;
          risk_factors := risk_factors;
          optimization_timestamp := utcnow_response clock;
          model_version := "ensemble_v1.0";
          data_quality_score := data_quality_score |} in
  (outcome, self).

(** ** bulk_optimize_prices *)

(** A product of the list, with the clock readings that its
    optimisation will make. *)
Definition ProductRequest : Type := ProductInfo * Clock.

(** The coroutine that [bulk_optimize_prices] starts for a product;
    [constraints] is the argument of the bulk call, used when the
    product has none of its own. *)
Definition optimization_task (constraints : option PricingConstraints)
    (request : ProductRequest) (self : PriceOptimizerService)
  : result PriceOptimizationResponse * PriceOptimizerService :=
  let product := fst request in
  optimize_product_price self (snd request)
    (product_id product) (current_price product) (cost product)
    (inventory_level product) []
    (demand_dict <$> demand_data product)
    (match Price.constraints product with
     | Some c => Some c
     | None => constraints
     end).

(** [bulk_optimize_prices] *)
Definition bulk_optimize_prices (self : PriceOptimizerService)
    (products : list ProductRequest)
    (constraints : option PricingConstraints)
  : result (gmap string PriceOptimizationResponse)
    * PriceOptimizerService :=
  Bulk.bulk (optimization_task constraints)
    (fun request => product_id (fst request))
    (fun _ response => Ok response) 10 products self.

End WithRuntime.

End Price.

(* ================================================================== *)
(** * Worked inputs *)
(* ================================================================== *)

(** Concrete values on which the definitions above are run: a runtime, a
    freshly loaded service of each kind, and a few requests. *)
Module Sample.

(** A runtime whose functions are as simple as their contracts allow:
    none of the facts below depends on which values they return. *)
#[export] Instance runtime : Runtime :=
  {| py_hash := fun s => Z.of_nat (String.length s);
     md5_hexdigest := fun s => s;
     ln1p := fun x => x;
     np_std := fun _ => 0;
     np_std_nonneg := fun _ => Qle_refl 0;
     polyfit_slope := fun _ => 0;
     str_of_float := fun _ => "<float>";
     str_of_int := fun _ => "<int>" |}.

Definition noon : datetime :=
  {| dt_month := 6; dt_hour := 12; dt_weekday := 2;
     dt_seconds := 1000; dt_aware := false |}.

(** A generator whose variates are all 1/2. *)
Definition rng : RandomState :=
  {| beta_draws := fun _ => 0.5; consumed := 0 |}.

Definition fraud_clock : Fraud.Clock :=
  {| Fraud.loop_time_start := 0; Fraud.loop_time_end := 0.01;
     Fraud.utcnow := noon |}.

(** The fraud service after [__init__] and [load_models], with nothing
    in the model storage. *)
Definition fraud_service : Fraud.FraudDetectionService :=
  Fraud.load_models Fraud.init ∅.

Definition card : Fraud.PaymentMethod :=
  {| Fraud.payment_type := "card"; Fraud.is_tokenized := false;
     Fraud.token_confidence := None |}.

(** A purchase of 120 at noon. *)
Definition purchase (id : string) : Fraud.TransactionData :=
  {| Fraud.transaction_id := id;
     Fraud.amount := 120;
     Fraud.payment_method := card;
     Fraud.billing_address := None;
     Fraud.shipping_address := None;
     Fraud.is_recurring := false;
     Fraud.is_international := false;
     Fraud.transaction_time := noon;
     Fraud.hourly_transaction_count := None;
     Fraud.daily_transaction_count := None;
     Fraud.daily_amount_total := None |}.

(** A verified user whose account is [age] days old. *)
Definition user (age : Z) : Fraud.UserData :=
  {| Fraud.account_age_days := age;
     Fraud.email_verified := true;
     Fraud.phone_verified := true;
     Fraud.transaction_frequency := None;
     Fraud.average_transaction_amount := None;
     Fraud.previous_fraud_reports := 0;
     Fraud.chargebacks_count := 0;
     Fraud.failed_login_attempts := 0;
     Fraud.last_login_time := None;
     Fraud.profile_completeness := None |}.

(** A desktop without fingerprint. *)
Definition desktop : Fraud.DeviceInfo :=
  {| Fraud.device_type := "desktop"; Fraud.is_mobile := false;
     Fraud.is_proxy := None; Fraud.device_fingerprint := None |}.

Definition session : Fraud.ContextData :=
  {| Fraud.session_duration := None; Fraud.pages_visited := None;
     Fraud.time_to_transaction := None;
     Fraud.holiday_indicator := false;
     Fraud.promotional_period := false |}.

(** The request of the purchase [id] by a user whose account is [age]
    days old. *)
Definition request (id : string) (age : Z) : Fraud.TransactionRequest :=
  {| Fraud.req_transaction := purchase id;
     Fraud.req_user := user age;
     Fraud.req_device := desktop;
     Fraud.req_context := session;
     Fraud.req_clock := fraud_clock |}.

(** The price service after [__init__] and [load_models], with nothing
    in the model storage: no regressor is fitted. *)
Definition price_service : Price.PriceOptimizerService :=
  Price.load_models Price.init ∅.

(** A regressor that was fitted, and predicts the price [p]. *)
Definition constant_model (p : Q) : Price.Model :=
  {| Price.predict := fun _ => Ok p;
     Price.feature_importances_ := None |}.

(** The price service with one fitted regressor. *)
Definition fitted_price_service (p : Q) : Price.PriceOptimizerService :=
  Price.load_models Price.init
    {[ "elastic_net" := (constant_model p, new_scaler) ]}.

Definition price_clock : Price.Clock :=
  {| Price.utcnow_features := noon; Price.utcnow_response := noon |}.

(** A product with neither demand data nor constraints. *)
Definition product (id : string) (current_price cost : Q)
  : Price.ProductRequest :=
  ({| Price.product_id := id;
      Price.current_price := current_price;
      Price.cost := cost;
      Price.inventory_level := 40;
      Price.demand_data := None;
      Price.constraints := None |},
   price_clock).

End Sample.

(* ================================================================== *)
(** * The vocabulary of the properties *)
(* ================================================================== *)

(** The notions in which the properties below are stated.  None of them is
    part of the services. *)
Module Spec.

(** ** Scores *)

Definition unit_interval (x : Q) : Prop := 0 <= x <= 1.

(** The mean of a collection of scores, 0 for an empty one. *)
Definition mean_or_zero (xs : list Q) : Q :=
  match xs with
  | [] => 0
  | _ :: _ => fold_right Qplus 0 xs / inject_Z (Z.of_nat (length xs))
  end.

(** The combination as the specification words it:
    [min(1, 0.3*mean(ml) + 0.2*mean(anomaly) + 0.2*mean(severities)
    + 0.1*device + 0.1*behavioral + 0.05*velocity + 0.05*geographic)] *)
Definition ensemble_formula (ml anomaly severities : list Q)
    (device behavioral velocity geographic : Q) : Q :=
  Qmin 1 (0.3 * mean_or_zero ml + 0.2 * mean_or_zero anomaly
          + 0.2 * mean_or_zero severities + 0.1 * device
          + 0.1 * behavioral + 0.05 * velocity + 0.05 * geographic).

(** What the loops of [_run_ml_models] and [_detect_anomalies]
    preserve: the scores are in the unit interval, and so are the
    variates still to come. *)
Definition ml_invariant
    (st : list (string * Q) * Fraud.FraudDetectionService * RandomState)
  : Prop :=
  Forall unit_interval (dict_values (fst (fst st)))
  /\ beta_in_unit (snd st).

Definition anomaly_invariant (st : list (string * Q) * RandomState)
  : Prop :=
  Forall unit_interval (dict_values (fst st)) /\ beta_in_unit (snd st).

(** ** Decisions and explanations *)

(** A rule indicator is critical when its severity exceeds 0.9. *)
Definition critical (rule_indicators : list Fraud.RuleIndicator) : Prop :=
  Exists (fun indicator => 0.9 < Fraud.rule_severity indicator)
         rule_indicators.

(** The decisions, from the most lenient to the most severe. *)
Definition decision_rank (d : Fraud.FraudDecision) : nat :=
  match d with
  | Fraud.APPROVE => 0
  | Fraud.CHALLENGE => 1
  | Fraud.REVIEW => 2
  | Fraud.DECLINE => 3
  end.

(** The risk levels, from the lowest to the highest. *)
Definition risk_rank (r : Fraud.RiskLevel) : nat :=
  match r with
  | Fraud.LOW => 0
  | Fraud.MEDIUM => 1
  | Fraud.HIGH => 2
  | Fraud.CRITICAL => 3
  end.

(** [a] may stand before [b] in a list sorted by decreasing severity. *)
Definition severity_ge (a b : Fraud.FraudIndicator) : Prop :=
  Fraud.severity b <= Fraud.severity a.

(** ** The state of the fraud service *)

(** Two service objects that differ at most in what their scalers were
    last fitted on. *)
Definition same_but_fit (s1 s2 : Fraud.FraudDetectionService) : Prop :=
  Fraud.models s1 = Fraud.models s2
  /\ Fraud.encoders s1 = Fraud.encoders s2
  /\ Fraud.thresholds s1 = Fraud.thresholds s2
  /\ Fraud.is_initialized s1 = Fraud.is_initialized s2
  /\ dom (Fraud.scalers s1) = dom (Fraud.scalers s2).

(** Two states of the loop of [_run_ml_models] with the same scores and
    the same generator, on such service objects. *)
Definition ml_states_agree
    (st1 st2 : list (string * Q) * Fraud.FraudDetectionService
               * RandomState)
  : Prop :=
  fst (fst st1) = fst (fst st2)
  /\ snd st1 = snd st2
  /\ same_but_fit (snd (fst st1)) (snd (fst st2)).

(** The calls that precede a request: each runs on the service object
    and the generator that the previous one left. *)
Definition run_calls `{Runtime} (calls : list Fraud.TransactionRequest)
    (w : Fraud.FraudDetectionService * RandomState)
  : Fraud.FraudDetectionService * RandomState :=
  foldl (fun w call => snd (Fraud.analysis_task call w)) w calls.

(** The state in which the fraud service answers: the thresholds of
    [__init__], and beta variates in the unit interval. *)
Definition fraud_ready (w : Fraud.FraudDetectionService * RandomState)
  : Prop :=
  Fraud.thresholds (fst w) = Fraud.thresholds Fraud.init
  /\ beta_in_unit (snd w).

(** ** The bulk operations *)

Section BulkLoop.
Context {Req Res Resp World : Type}.
Variable call : Req -> World -> result Res * World.
Variable key : Req -> string.
Variable build : string -> Res -> result Resp.

(** The outcome of every request when the calls are made one after the
    other, ... *)
Definition outcomes (requests : list Req) (w : World)
  : list (result Res) :=
  fst (Bulk.gather call requests w).

(** ... and the result of the last request with key [k] that did not
    raise. *)
Fixpoint last_success (k : string) (requests : list Req)
    (rs : list (result Res)) : option Res :=
  match requests, rs with
  | request :: requests', r :: rs' =>
      match last_success k requests' rs' with
      | Some res => Some res
      | None =>
          match r with
          | Ok res => if String.eqb (key request) k then Some res else None
          | Raise _ => None
          end
      end
  | _, _ => None
  end.

(** The dictionary [dict] answers the requests: its keys are the keys
    of the requests that did not raise, and each is mapped to the
    response built from the result of the last such request. *)
Definition answers (requests : list Req) (rs : list (result Res))
    (dict : gmap string Resp) : Prop :=
  (forall k : string,
     k ∈ dom dict <->
     exists (i : nat) (request : Req) (res : Res),
       requests !! i = Some request /\ key request = k
       /\ rs !! i = Some (Ok res))
  /\ (forall k : string,
        match last_success k requests rs with
        | Some res =>
            exists response,
              build k res = Ok response /\ dict !! k = Some response
        | None => dict !! k = None
        end).

(** With pairwise distinct keys, [dict] maps the key of every request
    that did not raise to the response built from its own result. *)
Definition answers_each (requests : list Req) (rs : list (result Res))
    (dict : gmap string Resp) : Prop :=
  forall (i : nat) (request : Req) (res : Res),
    requests !! i = Some request -> rs !! i = Some (Ok res) ->
    exists response,
      build (key request) res = Ok response
      /\ dict !! key request = Some response.

End BulkLoop.

(** The key under which the response of a request is stored. *)
Definition transaction_key (request : Fraud.TransactionRequest) : string :=
  Fraud.transaction_id (Fraud.req_transaction request).

Definition product_key (request : Price.ProductRequest) : string :=
  Price.product_id (fst request).

(** [results[product_id] = result] *)
Definition keep_response (product_id : string)
    (response : Price.PriceOptimizationResponse)
  : result Price.PriceOptimizationResponse :=
  Ok response.

(** ** Prices *)

(** Every prediction that [_get_ensemble_prediction] returns has the
    confidence 0.8. *)
Definition fixed_confidence (predictions : list Price.ModelPrediction)
  : Prop :=
  Forall (fun p => Price.confidence p = 0.8) predictions.

(** No model of the service predicts: [predict] raises whatever it is
    given, as it does for a regressor that was never fitted. *)
Definition no_model_predicts (self : Price.PriceOptimizerService) : Prop :=
  Forall (fun entry =>
            forall X, is_ok (Price.predict (snd entry) X) = false)
         (Price.models self).

(** The three steps of the default constraints of
    [_apply_business_rules]. *)
Definition clamp (settings : Price.Settings)
    (current_price cost weighted_price : Q) : Q :=
  py_min (current_price
          + current_price * Price.MAX_PRICE_CHANGE_PERCENT settings)
    (py_max (current_price
             - current_price * Price.MAX_PRICE_CHANGE_PERCENT settings)
       (py_max (cost * (1 + Price.MIN_PROFIT_MARGIN settings))
               weighted_price)).

End Spec.

(* ================================================================== *)
(** * fraud_detector.py: the alert listing *)
(* ================================================================== *)

Module FraudAlerts.

(** ** schemas.py: [FraudType] and [FraudAlert] *)

Inductive FraudType : Set :=
| CARD_NOT_PRESENT
| ACCOUNT_TAKEOVER
| SYNTHETIC_IDENTITY
| FRIENDLY_FRAUD
| MERCHANT_FRAUD
| REFUND_FRAUD
| PROMO_ABUSE
| VELOCITY_FRAUD
| BEHAVIORAL_ANOMALY
| DEVICE_FRAUD.

(** [timestamp] is kept as a position on the time line, in seconds. *)
Record FraudAlert : Type := {
  alert_id : string;
  alert_transaction_id : option string;
  alert_user_id : option string;
  alert_type : string;
  fraud_type : FraudType;
  alert_severity : string;
  alert_fraud_score : Q;
  alert_description : string;
  requires_immediate_action : bool;
  suggested_actions : list string;
  detection_model : string;
  confidence_level : Q;
  timestamp : Q;
  investigation_priority : string;
  assigned_to : option string;
  status : string
}.

Section WithRuntime.
Context `{Runtime}.

(** The alert that round [i] of the loop of [get_recent_alerts] builds;
    [now] is the reading of [datetime.utcnow()] in that round. *)
Definition mock_alert (now : datetime) (i : Z) : FraudAlert :=
  {| alert_id := "alert_" +:+ str_of_int i;
     alert_transaction_id := Some ("txn_" +:+ str_of_int i);
     alert_user_id := Some ("user_" +:+ str_of_int i);
     alert_type := "high_fraud_score";
     fraud_type := CARD_NOT_PRESENT;
     alert_severity := if (i mod 3 =? 0)%Z then "high" else "medium";
     alert_fraud_score := 0.8 + inject_Z (i mod 3) * 0.05;
     alert_description :=
       "High fraud score detected: "
       +:+ str_of_float (0.8 + inject_Z (i mod 3) * 0.05);
     requires_immediate_action := (i mod 3 =? 0)%Z;
     suggested_actions := ["Review transaction"; "Contact customer"];
     detection_model := "ensemble_v2.0";
     confidence_level := 0.85;
     timestamp := dt_seconds now - 3600 * inject_Z i;
     investigation_priority :=
       if (i mod 3 =? 0)%Z then "high" else "medium";
     assigned_to := None;
     status := "open" |}.

(** [get_recent_alerts]: [for i in range(min(limit, 10))]; the filter is
    an argument that the body does not read.  [utcnow i] is the clock
    reading of round [i]. *)
Definition get_recent_alerts (utcnow : nat -> datetime) (limit : Z)
    (severity_filter : option string) : list FraudAlert :=
  map (fun i => mock_alert (utcnow i) (Z.of_nat i))
      (seq 0 (Z.to_nat (Z.min limit 10))).

End WithRuntime.

End FraudAlerts.

(* ================================================================== *)
(** * fraud-detection/app/main.py: the bulk endpoint *)
(* ================================================================== *)

(** The endpoint hands [request.transactions] to the service as it is: a
    list of [TransactionAnalysisRequest] objects, where the service is
    annotated with, and subscripts, dictionaries.  The loop of the
    service is written again over a list whose elements are of either
    kind. *)
Module FraudEndpoint.
Import Fraud.

Inductive RequestValue : Type :=
| AsDict (request : TransactionRequest)
| AsModel (request : TransactionRequest).

(** [transaction_request['transaction']], and the same for ['user'],
    ['device'] and ['context']: an object of a pydantic model has no
    [__getitem__]. *)
Definition subscript (value : RequestValue) : result TransactionRequest :=
  match value with
  | AsDict request => Ok request
  | AsModel _ => Raise TypeError
  end.

(** The loop that fills [batch_tasks]: the arguments of every call of
    [self.analyze_transaction] are evaluated; no coroutine runs before
    [asyncio.gather]. *)
Fixpoint start_tasks (batch : list RequestValue)
  : result (list TransactionRequest) :=
  match batch with
  | [] => Ok []
  | value :: batch' =>
      request ← subscript value;
      tasks ← start_tasks batch';
      Ok (request :: tasks)
  end.

Section WithRuntime.
Context `{Runtime}.

Definition run_batch (transactions : list RequestValue)
    (st : result (gmap string TransactionAnalysisResponse)
          * (FraudDetectionService * RandomState)) (i : nat)
  : result (gmap string TransactionAnalysisResponse)
    * (FraudDetectionService * RandomState) :=
  let '(acc, w) := st in
  match acc with
  | Raise e => (Raise e, w)
  | Ok results =>
      let batch := Bulk.slice 20 transactions i in
      match start_tasks batch with
      | Raise e => (Raise e, w)
      | Ok tasks =>
          let '(batch_results, w) := Bulk.gather analysis_task tasks w in
          (Bulk.process_results
             (fun request => transaction_id (req_transaction request))
             make_response tasks batch_results results, w)
      end
  end.

(** [FraudDetectionService.bulk_analyze_transactions], whatever its
    list holds. *)
Definition service_bulk_analyze_transactions
    (self : FraudDetectionService) (rng : RandomState)
    (transactions : list RequestValue)
  : result (gmap string TransactionAnalysisResponse)
    * (FraudDetectionService * RandomState) :=
  foldl (run_batch transactions) (Ok ∅, (self, rng))
        (Bulk.range_step 20 (length transactions)).

(** What the client gets: the dictionary, or the [HTTPException] with
    status 500 that [except Exception] turns every exception into. *)
Inductive HttpResponse : Type :=
| Http200 (results : gmap string TransactionAnalysisResponse)
| Http500 (detail : string).

(** The endpoint [/api/v1/bulk-analyze].  The alerts that it schedules
    for the scores above 0.7 run in the background, after the response. *)
Definition bulk_analyze_transactions (self : FraudDetectionService)
    (rng : RandomState) (request_transactions : list TransactionRequest)
  : HttpResponse * (FraudDetectionService * RandomState) :=
  match service_bulk_analyze_transactions self rng
          (map AsModel request_transactions) with
  | (Ok results, w) => (Http200 results, w)
  | (Raise _, w) => (Http500 "Bulk analysis failed", w)
  end.

End WithRuntime.

End FraudEndpoint.

(* ================================================================== *)
(** * price_optimizer.py: the competitive analysis *)
(* ================================================================== *)

Module PriceAnalysis.
Import Price.

(** The dictionary that [_analyze_competition] returns when there are
    competitors.  [price_gap_to_avg] divides by a NumPy float: with an
    average of zero the quotient is an infinity or NaN and nothing is
    raised; [None] stands for these. *)
Record CompetitionFigures : Type := {
  position : string;
  price_rank : Z;
  price_percentile : Q;
  price_gap_to_avg : option Q;
  closest_competitor_gap : Q;
  market_spread : Q;
  competitive_intensity : string
}.

(** [NoCompetitorData] is the dictionary
    [{"position": "unknown", "analysis": "No competitor data available"}]. *)
Inductive CompetitorAnalysis : Type :=
| NoCompetitorData
| Figures (figures : CompetitionFigures).

(** [a / b] where [b] is a NumPy float. *)
Definition np_true_divide (a b : Q) : option Q :=
  if Qeq_bool b 0 then None else Some (a / b).

(** [_analyze_competition] *)
Definition _analyze_competition (optimized_price : Q)
    (competitor_prices : list (gmap string Q)) : CompetitorAnalysis :=
  match competitor_prices with
  | [] => NoCompetitorData
  | first :: rest =>
      let prices := map competitor_price competitor_prices in
      let avg_price := np_mean prices in
      let min_price := np_min prices in
      let max_price := np_max prices in
      let position :=
        if Qgtb optimized_price (avg_price * 1.1) then "premium"
        else if Qltb optimized_price (avg_price * 0.9) then "value"
        else "competitive" in
      let price_rank :=
        (Z.of_nat (length (List.filter (fun p => Qgtb optimized_price p)
                             prices)) + 1)%Z in
      Figures
        {| position := position;
           price_rank := price_rank;
           price_percentile :=
             inject_Z price_rank
             / inject_Z (Z.of_nat (length prices) + 1) * 100;
           price_gap_to_avg :=
             (fun ratio => ratio * 100)
               <$> np_true_divide (optimized_price - avg_price) avg_price;
           closest_competitor_gap :=
             foldl py_min
               (Qabs (optimized_price - competitor_price first))
               (map (fun cp => Qabs (optimized_price - competitor_price cp))
                    rest);
           market_spread := max_price - min_price;
           competitive_intensity :=
             if (5 <? length prices)%nat then "high" else "moderate" |}
  end.

End PriceAnalysis.

(* ================================================================== *)
(** * Conditions on requests and on the state of the services *)
(* ================================================================== *)

(** The conditions under which the properties of the last part are
    stated.  None of them is part of the services. *)
Module Conditions.

(** ** The fraud service *)

(** Every supervised model is there, with its scaler. *)
Definition supervised_installed (self : Fraud.FraudDetectionService)
  : Prop :=
  Forall (fun n => is_Some (Fraud.models self !! n)
                   /\ is_Some (Fraud.scalers self !! n))
         Fraud.supervised_models.

(** No outlier detector was fitted: each one that is there has a
    [decision_function], which raises. *)
Definition no_detector_fitted (self : Fraud.FraudDetectionService)
  : Prop :=
  Forall (fun n =>
            forall model, Fraud.models self !! n = Some model ->
              Fraud.has_decision_function model = true
              /\ forall X, is_ok (Fraud.decision_function model X) = false)
         Fraud.anomaly_models.

(** The amounts and counts at which a rule of [_apply_fraud_rules] has
    a severity above 0.9, with the thresholds of [__init__]. *)
Definition forced_decline (transaction : Fraud.TransactionData)
    (user : Fraud.UserData) : Prop :=
  45000 < Fraud.amount transaction
  \/ (18 < int_or_0 (Fraud.hourly_transaction_count transaction))%Z
  \/ (5 <= Fraud.previous_fraud_reports user)%Z
  \/ (10 <= Fraud.failed_login_attempts user)%Z.

(** The last login is recorded with a time zone and the transaction
    without, or the other way round. *)
Definition login_zone_mismatch (transaction : Fraud.TransactionData)
    (user : Fraud.UserData) : Prop :=
  exists login,
    Fraud.last_login_time user = Some login
    /\ dt_aware (Fraud.transaction_time transaction) <> dt_aware login.

(** The amount velocity is computed, and the user has no
    [transaction_frequency]. *)
Definition frequency_missing (transaction : Fraud.TransactionData)
    (user : Fraud.UserData) : Prop :=
  truthy_float (Fraud.daily_amount_total transaction) = true
  /\ truthy_float (Fraud.average_transaction_amount user) = true
  /\ Fraud.transaction_frequency user = None.

(** An input of [np.log1p] is exactly -1: the amount, the account age,
    or the seconds since the last login. *)
Definition log_of_zero (transaction : Fraud.TransactionData)
    (user : Fraud.UserData) : Prop :=
  Fraud.amount transaction == -1
  \/ Fraud.account_age_days user = (-1)%Z
  \/ exists login,
       Fraud.last_login_time user = Some login
       /\ dt_seconds (Fraud.transaction_time transaction)
          - dt_seconds login == -1.

(** ** The price service *)

(** The constraints object asks for nothing but price bounds. *)
Definition bounds_only (c : Price.PricingConstraints) : Prop :=
  truthy_float (Price.min_margin c) = false
  /\ truthy_float (Price.round_to_nearest c) = false
  /\ Price.psychological_pricing c = false.

(** The constraints object asks for nothing but psychological
    pricing. *)
Definition psychological_only (c : Price.PricingConstraints) : Prop :=
  truthy_float (Price.min_price c) = false
  /\ truthy_float (Price.max_price c) = false
  /\ truthy_float (Price.min_margin c) = false
  /\ truthy_float (Price.round_to_nearest c) = false
  /\ Price.psychological_pricing c = true.

(** The values that the confidence of a response can take. *)
Definition confidence_level_of_response (x : Q) : Prop :=
  x == 0 \/ x == 0.58 \/ x == 0.64 \/ x == 0.72 \/ x == 0.8.

(** The market positions, from the cheapest to the dearest. *)
Definition position_rank (position : string) : nat :=
  if String.eqb position "premium" then 4
  else if String.eqb position "competitive_premium" then 3
  else if String.eqb position "competitive" then 2
  else if String.eqb position "value" then 1
  else 0.

End Conditions.

(* ================================================================== *)
(** * Further worked inputs *)
(* ================================================================== *)

(** Predictions, constraints objects, a competitor, a generator and a
    request that is refused, next to the values of [Sample]. *)
Module Offers.

(** A prediction of 100 with the confidence of the ensemble. *)
Definition prediction_of_100 : Price.ModelPrediction :=
  {| Price.price := 100; Price.confidence := 0.8;
     Price.features_importance := []; Price.model_used := "elastic_net" |}.

(** Constraints that cap the price at 11. *)
Definition at_most_11 : Price.PricingConstraints :=
  {| Price.min_price := None; Price.max_price := Some 11;
     Price.min_margin := None; Price.max_discount := None;
     Price.round_to_nearest := None;
     Price.psychological_pricing := false;
     Price.competitor_price_buffer := None |}.

(** Constraints that ask for psychological pricing. *)
Definition psychological : Price.PricingConstraints :=
  {| Price.min_price := None; Price.max_price := None;
     Price.min_margin := None; Price.max_discount := None;
     Price.round_to_nearest := None;
     Price.psychological_pricing := true;
     Price.competitor_price_buffer := None |}.

(** A competitor that sells at 10. *)
Definition competitor_at_10 : gmap string Q := {[ "price" := 10 ]}.

(** Constraints that ask for a minimum margin of 1. *)
Definition margin_of_one : Price.PricingConstraints :=
  {| Price.min_price := None; Price.max_price := None;
     Price.min_margin := Some 1; Price.max_discount := None;
     Price.round_to_nearest := None;
     Price.psychological_pricing := false;
     Price.competitor_price_buffer := None |}.

(** A generator whose first three variates are 0.1 and whose later ones
    are 0.9. *)
Definition stepping_rng : RandomState :=
  {| beta_draws := fun n => if (n <? 3)%nat then 0.1 else 0.9;
     consumed := 0 |}.

(** A purchase of 120 on a day on which 100 were spent before ... *)
Definition later_purchase (id : string) : Fraud.TransactionData :=
  {| Fraud.transaction_id := id;
     Fraud.amount := 120;
     Fraud.payment_method := Sample.card;
     Fraud.billing_address := None;
     Fraud.shipping_address := None;
     Fraud.is_recurring := false;
     Fraud.is_international := false;
     Fraud.transaction_time := Sample.noon;
     Fraud.hourly_transaction_count := None;
     Fraud.daily_transaction_count := None;
     Fraud.daily_amount_total := Some 100 |}.

(** ... by a user whose average amount is known and whose
    [transaction_frequency] was left out. *)
Definition regular_user : Fraud.UserData :=
  {| Fraud.account_age_days := 400;
     Fraud.email_verified := true;
     Fraud.phone_verified := true;
     Fraud.transaction_frequency := None;
     Fraud.average_transaction_amount := Some 10;
     Fraud.previous_fraud_reports := 0;
     Fraud.chargebacks_count := 0;
     Fraud.failed_login_attempts := 0;
     Fraud.last_login_time := None;
     Fraud.profile_completeness := None |}.

(** The request of that purchase. *)
Definition refused_request (id : string) : Fraud.TransactionRequest :=
  {| Fraud.req_transaction := later_purchase id;
     Fraud.req_user := regular_user;
     Fraud.req_device := Sample.desktop;
     Fraud.req_context := Sample.session;
     Fraud.req_clock := Sample.fraud_clock |}.

End Offers.

(* ================================================================== *)
(** * Facts about the Python operators *)
(* ================================================================== *)

Module PyFacts.

Lemma Qltb_lt (x y : Q) : Qltb x y = true <-> x < y.
Proof.
  unfold Qltb. rewrite negb_true_iff.
  split; intro E.
  - apply Qnot_le_lt. intro L. apply Qle_bool_iff in L. congruence.
  - destruct (Qle_bool y x) eqn:B; [|reflexivity].
    apply Qle_bool_iff in B. apply Qle_not_lt in B. contradiction.
Qed.

Lemma Qltb_ge (x y : Q) : Qltb x y = false <-> y <= x.
Proof.
  unfold Qltb. rewrite negb_false_iff. apply Qle_bool_iff.
Qed.

Lemma Qgeb_ge (x y : Q) : Qgeb x y = true <-> y <= x.
Proof. apply Qle_bool_iff. Qed.

Lemma Qgeb_lt (x y : Q) : Qgeb x y = false <-> x < y.
Proof.
  unfold Qgeb. split; intro E.
  - apply Qnot_le_lt. intro L. apply Qle_bool_iff in L. congruence.
  - destruct (Qle_bool y x) eqn:B; [|reflexivity].
    apply Qle_bool_iff in B. apply Qle_not_lt in B. contradiction.
Qed.

Lemma Qgtb_gt (x y : Q) : Qgtb x y = true <-> y < x.
Proof. apply Qltb_lt. Qed.

Lemma Qgtb_le (x y : Q) : Qgtb x y = false <-> x <= y.
Proof. apply Qltb_ge. Qed.

(** Case analysis on a comparison, leaving the order fact in the
    context. *)
Ltac case_cmp :=
  match goal with
  | |- context [Qltb ?a ?b] =>
      let E := fresh "E" in
      destruct (Qltb a b) eqn:E;
      [apply Qltb_lt in E | apply Qltb_ge in E]
  | |- context [Qgtb ?a ?b] =>
      let E := fresh "E" in
      destruct (Qgtb a b) eqn:E;
      [apply Qgtb_gt in E | apply Qgtb_le in E]
  | |- context [Qgeb ?a ?b] =>
      let E := fresh "E" in
      destruct (Qgeb a b) eqn:E;
      [apply Qgeb_ge in E | apply Qgeb_lt in E]
  end.

Lemma py_min_cases (a b : Q) :
  (b < a /\ py_min a b = b) \/ (a <= b /\ py_min a b = a).
Proof. unfold py_min. case_cmp; auto. Qed.

Lemma py_max_cases (a b : Q) :
  (a < b /\ py_max a b = b) \/ (b <= a /\ py_max a b = a).
Proof. unfold py_max. case_cmp; auto. Qed.

Lemma py_min_le_l (a b : Q) : py_min a b <= a.
Proof. destruct (py_min_cases a b) as [[? ->]|[? ->]]; lra. Qed.

Lemma py_min_le_r (a b : Q) : py_min a b <= b.
Proof. destruct (py_min_cases a b) as [[? ->]|[? ->]]; lra. Qed.

Lemma py_min_glb (a b c : Q) : c <= a -> c <= b -> c <= py_min a b.
Proof. destruct (py_min_cases a b) as [[? ->]|[? ->]]; lra. Qed.

Lemma py_max_ge_l (a b : Q) : a <= py_max a b.
Proof. destruct (py_max_cases a b) as [[? ->]|[? ->]]; lra. Qed.

Lemma py_max_ge_r (a b : Q) : b <= py_max a b.
Proof. destruct (py_max_cases a b) as [[? ->]|[? ->]]; lra. Qed.

Lemma py_max_lub (a b c : Q) : a <= c -> b <= c -> py_max a b <= c.
Proof. destruct (py_max_cases a b) as [[? ->]|[? ->]]; lra. Qed.

(** Loops written with [foldl]: a property of the state that every
    round preserves, and a relation between two runs. *)
Lemma foldl_invariant {A B} (P : A -> Prop) (f : A -> B -> A) :
  (forall a b, P a -> P (f a b)) ->
  forall (l : list B) (a : A), P a -> P (foldl f a l).
Proof.
  intros Hf l. induction l as [|b l IH]; intros a Pa; simpl; auto.
Qed.

Lemma foldl_related {A A' B} (R : A -> A' -> Prop)
    (f : A -> B -> A) (g : A' -> B -> A') :
  (forall a a' b, R a a' -> R (f a b) (g a' b)) ->
  forall (l : list B) (a : A) (a' : A'),
    R a a' -> R (foldl f a l) (foldl g a' l).
Proof.
  intros Hfg l. induction l as [|b l IH]; intros a a' Raa'; simpl; auto.
Qed.

Lemma bind_Ok {A B} (a : A) (k : A -> result B) : Ok a ≫= k = k a.
Proof. reflexivity. Qed.

Lemma bind_Raise {A B} (e : exn) (k : A -> result B) :
  Raise e ≫= k = Raise e.
Proof. reflexivity. Qed.

Lemma foldl_ext {A B} (f g : A -> B -> A) (a : A) (l : list B) :
  (forall a b, f a b = g a b) -> foldl f a l = foldl g a l.
Proof.
  intro E. apply (foldl_related eq); [|reflexivity].
  intros ? ? b <-. apply E.
Qed.

End PyFacts.

Import PyFacts.

(* ================================================================== *)
(** * The fraud decision and the risk level *)
(* ================================================================== *)

Module FraudThresholds.
Import Fraud Spec.

Lemma critical_filter (rule_indicators : list RuleIndicator) :
  critical rule_indicators <->
  List.filter (fun indicator => Qgtb (rule_severity indicator) 0.9)
              rule_indicators <> [].
Proof.
  unfold critical.
  induction rule_indicators as [|r rs IH]; simpl.
  - split; [intro E; inversion E | congruence].
  - rewrite Exists_cons, IH.
    destruct (Qgtb (rule_severity r) 0.9) eqn:G.
    + apply Qgtb_gt in G. split; [discriminate | auto].
    + apply Qgtb_le in G. split; [intros [L|N]; [lra | exact N] | auto].
Qed.

Lemma decision_without_critical (s : Q) (rules : list RuleIndicator) :
  ~ critical rules ->
  _make_fraud_decision s rules =
  if Qgeb s 0.8 then DECLINE
  else if Qgeb s 0.6 then REVIEW
  else if Qgeb s 0.4 then CHALLENGE
  else APPROVE.
Proof.
  intro N. unfold _make_fraud_decision.
  destruct (List.filter _ rules) eqn:F; [reflexivity|].
  exfalso. apply N, critical_filter. rewrite F. discriminate.
Qed.

Lemma decision_with_critical (s : Q) (rules : list RuleIndicator) :
  critical rules -> _make_fraud_decision s rules = DECLINE.
Proof.
  intro C. apply critical_filter in C. unfold _make_fraud_decision.
  destruct (List.filter _ rules); [congruence | reflexivity].
Qed.

Lemma critical_dec (rules : list RuleIndicator) :
  critical rules \/ ~ critical rules.
Proof.
  destruct (List.filter (fun i => Qgtb (rule_severity i) 0.9) rules) eqn:F.
  - right. rewrite critical_filter, F. auto.
  - left. rewrite critical_filter, F. discriminate.
Qed.

(** C2.  [_make_fraud_decision] returns DECLINE exactly when a rule
    indicator has severity above 0.9 or the score is at least 0.8,
    REVIEW exactly when there is no such indicator and the score is in
    [0.6, 0.8), CHALLENGE exactly when there is none and the score is in
    [0.4, 0.6), APPROVE exactly when there is none and the score is
    below 0.4; and without a critical indicator a larger score never
    gives a more lenient decision. *)
Theorem make_fraud_decision_thresholds :
  forall (s : Q) (rules : list RuleIndicator),
    (_make_fraud_decision s rules = DECLINE
       <-> critical rules \/ 0.8 <= s)
    /\ (_make_fraud_decision s rules = REVIEW
       <-> ~ critical rules /\ 0.6 <= s < 0.8)
    /\ (_make_fraud_decision s rules = CHALLENGE
       <-> ~ critical rules /\ 0.4 <= s < 0.6)
    /\ (_make_fraud_decision s rules = APPROVE
       <-> ~ critical rules /\ s < 0.4)
    /\ (forall s' : Q,
          ~ critical rules -> s <= s' ->
          (decision_rank (_make_fraud_decision s rules)
           <= decision_rank (_make_fraud_decision s' rules))%nat).
Proof.
  intros s rules.
  destruct (critical_dec rules) as [C|N].
  - rewrite (decision_with_critical s rules C).
    repeat split; try discriminate; tauto.
  - rewrite (decision_without_critical s rules N).
    assert (D : forall d : FraudDecision,
               (if Qgeb s 0.8 then DECLINE
                else if Qgeb s 0.6 then REVIEW
                else if Qgeb s 0.4 then CHALLENGE else APPROVE) = d ->
               match d with
               | DECLINE => 0.8 <= s
               | REVIEW => 0.6 <= s < 0.8
               | CHALLENGE => 0.4 <= s < 0.6
               | APPROVE => s < 0.4
               end).
    { intros d <-. repeat case_cmp; lra. }
    split; [|split; [|split; [|split]]].
    + split; [intro E; right; exact (D _ E)|].
      intros [?|?]; [tauto|]. repeat case_cmp; try reflexivity; lra.
    + split; [intro E; split; [exact N | exact (D _ E)]|].
      intros [_ ?]. repeat case_cmp; try reflexivity; lra.
    + split; [intro E; split; [exact N | exact (D _ E)]|].
      intros [_ ?]. repeat case_cmp; try reflexivity; lra.
    + split; [intro E; split; [exact N | exact (D _ E)]|].
      intros [_ ?]. repeat case_cmp; try reflexivity; lra.
    + intros s' _ L.
      rewrite (decision_without_critical s' rules N).
      repeat case_cmp; simpl; try lia; lra.
Qed.

Lemma risk_level_cases (s : Q) :
  match _score_to_risk_level s with
  | CRITICAL => 0.8 <= s
  | HIGH => 0.6 <= s < 0.8
  | MEDIUM => 0.3 <= s < 0.6
  | LOW => s < 0.3
  end.
Proof. unfold _score_to_risk_level. repeat case_cmp; lra. Qed.

(** C10.  [_score_to_risk_level] returns CRITICAL exactly for scores of
    at least 0.8, HIGH exactly on [0.6, 0.8), MEDIUM exactly on
    [0.3, 0.6) and LOW exactly below 0.3, and a larger score never has
    a lower level.  Its lowest threshold is below the one of the
    decision: every score in [0.3, 0.4) without a critical indicator,
    such as 0.35, is at level MEDIUM and is approved. *)
Theorem score_to_risk_level_thresholds :
  (forall s : Q,
     (_score_to_risk_level s = CRITICAL <-> 0.8 <= s)
     /\ (_score_to_risk_level s = HIGH <-> 0.6 <= s < 0.8)
     /\ (_score_to_risk_level s = MEDIUM <-> 0.3 <= s < 0.6)
     /\ (_score_to_risk_level s = LOW <-> s < 0.3))
  /\ (forall s s' : Q,
        s <= s' ->
        (risk_rank (_score_to_risk_level s)
         <= risk_rank (_score_to_risk_level s'))%nat)
  /\ (forall (s : Q) (rules : list RuleIndicator),
        ~ critical rules -> 0.3 <= s < 0.4 ->
        _score_to_risk_level s = MEDIUM
        /\ _make_fraud_decision s rules = APPROVE)
  /\ (_score_to_risk_level 0.35 = MEDIUM
      /\ _make_fraud_decision 0.35 [] = APPROVE).
Proof.
  split; [|split; [|split]].
  - intro s. pose proof (risk_level_cases s) as D.
    split; [|split; [|split]]; (split; [intro E; rewrite E in D; exact D|]);
      intro R; unfold _score_to_risk_level;
      repeat case_cmp; try reflexivity; lra.
  - intros s s' L.
    unfold _score_to_risk_level.
    repeat case_cmp; simpl; try lia; lra.
  - intros s rules N R. split.
    + unfold _score_to_risk_level. repeat case_cmp; try reflexivity; lra.
    + rewrite (decision_without_critical s rules N).
      repeat case_cmp; try reflexivity; lra.
  - split; reflexivity.
Qed.

End FraudThresholds.

(* ================================================================== *)
(** * The ensemble score *)
(* ================================================================== *)

Module FraudScore.
Import Fraud Spec.

(** ** Sums and means *)

Lemma foldl_Qplus_shift (xs : list Q) (a : Q) :
  foldl Qplus a xs == a + fold_right Qplus 0 xs.
Proof.
  revert a. induction xs as [|x xs IH]; intro a; simpl.
  - lra.
  - rewrite IH. lra.
Qed.

Lemma inject_length_cons {A} (x : A) (xs : list A) :
  inject_Z (Z.of_nat (length (x :: xs)))
  == inject_Z (Z.of_nat (length xs)) + 1.
Proof.
  simpl length. rewrite Nat2Z.inj_succ. unfold Z.succ.
  rewrite inject_Z_plus. reflexivity.
Qed.

Lemma inject_length_nonneg {A} (xs : list A) :
  0 <= inject_Z (Z.of_nat (length xs)).
Proof.
  change 0 with (inject_Z 0). rewrite <- Zle_Qle. lia.
Qed.

Lemma sum_unit_bounds (xs : list Q) :
  Forall unit_interval xs ->
  0 <= fold_right Qplus 0 xs <= inject_Z (Z.of_nat (length xs)).
Proof.
  induction 1 as [|x xs [L U] _ IH].
  - simpl. change (inject_Z (Z.of_nat 0)) with 0. lra.
  - rewrite inject_length_cons. simpl fold_right. lra.
Qed.

Lemma np_mean_mean_or_zero (x : Q) (xs : list Q) :
  np_mean (x :: xs) == mean_or_zero (x :: xs).
Proof.
  unfold np_mean, mean_or_zero, py_sum.
  rewrite foldl_Qplus_shift, Qplus_0_l. reflexivity.
Qed.

Lemma mean_or_zero_unit (xs : list Q) :
  Forall unit_interval xs -> unit_interval (mean_or_zero xs).
Proof.
  intro F. destruct xs as [|x xs]; [unfold unit_interval; simpl; lra|].
  pose proof (sum_unit_bounds _ F) as [L U].
  pose proof (inject_length_nonneg xs) as P.
  pose proof (inject_length_cons x xs) as E.
  unfold mean_or_zero.
  set (n := inject_Z (Z.of_nat (length (x :: xs)))) in *.
  set (t := fold_right Qplus 0 (x :: xs)) in *.
  split.
  - apply Qle_shift_div_l; lra.
  - apply Qle_shift_div_r; lra.
Qed.

Lemma add_mean_formula (xs : list Q) (w acc : Q) :
  add_mean xs w acc == acc + w * mean_or_zero xs.
Proof.
  destruct xs as [|x xs].
  - simpl. lra.
  - unfold add_mean. rewrite np_mean_mean_or_zero. lra.
Qed.

(** The score that [_calculate_ensemble_score] returns is the fixed
    combination, whatever its arguments. *)
Lemma calculate_ensemble_score_formula
    (ml_scores anomaly_scores : list (string * Q))
    (rule_indicators : list RuleIndicator)
    (device_risk behavioral_risk velocity_risk geographic_risk : Q) :
  _calculate_ensemble_score ml_scores anomaly_scores rule_indicators
    device_risk behavioral_risk velocity_risk geographic_risk
  == ensemble_formula (dict_values ml_scores) (dict_values anomaly_scores)
       (map rule_severity rule_indicators)
       device_risk behavioral_risk velocity_risk geographic_risk.
Proof.
  unfold _calculate_ensemble_score, ensemble_formula.
  unfold weight_ml_models, weight_anomaly_detection, weight_rules,
    weight_device_risk, weight_behavioral_risk, weight_velocity_risk,
    weight_geographic_risk.
  pose proof (add_mean_formula (dict_values ml_scores) 0.3 0) as E1.
  set (s1 := add_mean (dict_values ml_scores) 0.3 0) in *.
  pose proof (add_mean_formula (dict_values anomaly_scores) 0.2 s1) as E2.
  set (s2 := add_mean (dict_values anomaly_scores) 0.2 s1) in *.
  pose proof (add_mean_formula (map rule_severity rule_indicators) 0.2 s2)
    as E3.
  set (s3 := add_mean (map rule_severity rule_indicators) 0.2 s2) in *.
  set (m1 := mean_or_zero (dict_values ml_scores)) in *.
  set (m2 := mean_or_zero (dict_values anomaly_scores)) in *.
  set (m3 := mean_or_zero (map rule_severity rule_indicators)) in *.
  match goal with
  | |- py_min ?a 1 == Qmin 1 ?b =>
      destruct (py_min_cases a 1) as [[L ->]|[L ->]];
      destruct (Q.min_spec 1 b) as [[M ->]|[M ->]]; lra
  end.
Qed.

(** The combination of scores of the unit interval is in the unit
    interval. *)
Lemma ensemble_formula_unit (ml anomaly severities : list Q)
    (device behavioral velocity geographic : Q) :
  Forall unit_interval ml -> Forall unit_interval anomaly ->
  Forall unit_interval severities ->
  unit_interval device -> unit_interval behavioral ->
  unit_interval velocity -> unit_interval geographic ->
  unit_interval
    (ensemble_formula ml anomaly severities device behavioral velocity
       geographic).
Proof.
  intros F1 F2 F3 [? ?] [? ?] [? ?] [? ?].
  destruct (mean_or_zero_unit _ F1), (mean_or_zero_unit _ F2),
    (mean_or_zero_unit _ F3).
  unfold ensemble_formula, unit_interval.
  split.
  - apply Q.min_glb; lra.
  - apply Q.le_min_l.
Qed.

(** ** The scores that enter the combination *)

Lemma dict_set_values_Forall {V} (P : V -> Prop)
    (d : list (string * V)) (k : string) (v : V) :
  Forall P (dict_values d) -> P v ->
  Forall P (dict_values (dict_set d k v)).
Proof.
  unfold dict_values. intros F Pv.
  induction d as [|[k' v'] d IH]; simpl in *.
  - constructor; [exact Pv | constructor].
  - inversion F; subst.
    destruct (String.eqb k' k); simpl; constructor; auto.
Qed.

Lemma unit_zero : unit_interval 0.
Proof. unfold unit_interval. lra. Qed.

Lemma py_min_one_unit (x : Q) : 0 <= x -> unit_interval (py_min x 1).
Proof.
  intro P. split; [apply py_min_glb; lra | apply py_min_le_r].
Qed.

Lemma random_beta_unit (g : RandomState) :
  beta_in_unit g ->
  unit_interval (fst (random_beta g)) /\ beta_in_unit (snd (random_beta g)).
Proof.
  intro B. split; [apply B | exact B].
Qed.

Lemma add_if_nonneg (cond : bool) (x risk_score : Q) :
  (cond = true -> 0 <= x) -> 0 <= risk_score ->
  0 <= add_if cond x risk_score.
Proof.
  intros Px Pr. unfold add_if. destruct cond; [specialize (Px eq_refl)|]; lra.
Qed.

Lemma append_if_Forall {A} (P : A -> Prop) (cond : bool) (x : A)
    (l : list A) :
  (cond = true -> P x) -> Forall P l -> Forall P (append_if cond x l).
Proof.
  intros Px Pl. unfold append_if. destruct cond; [|exact Pl].
  apply Forall_app. split; [exact Pl | constructor; auto].
Qed.

(** A count above a threshold that is not negative, divided by a
    positive constant. *)
Lemma count_ratio_nonneg (a b : Z) (c : Q) :
  (a <? b)%Z = true -> (0 <= a)%Z -> 0 < c -> 0 <= inject_Z b / c.
Proof.
  intros L P C.
  assert (B : inject_Z 0 <= inject_Z b) by (rewrite <- Zle_Qle; lia).
  change (inject_Z 0) with 0 in B.
  apply Qle_shift_div_l; [exact C | lra].
Qed.

Section Components.
Context `{Runtime}.

Lemma run_ml_model_invariant (features : ndarray)
    (st : list (string * Q) * FraudDetectionService * RandomState)
    (model_name : string) :
  ml_invariant st -> ml_invariant (run_ml_model features st model_name).
Proof.
  destruct st as [[scores self] rng]. intros [F B].
  unfold run_ml_model, ml_invariant in *. simpl in *.
  destruct (models self !! model_name); simpl.
  - destruct (scalers self !! model_name) as [scaler|]; simpl.
    + destruct (fit_transform scaler features) as [[scaled|e] scaler'];
        simpl; split; auto using dict_set_values_Forall, unit_zero.
      apply dict_set_values_Forall; [exact F | apply B].
    + split; [|exact B].
      apply dict_set_values_Forall; [exact F | apply B].
  - split; auto using dict_set_values_Forall, unit_zero.
Qed.

Lemma run_ml_models_unit (self : FraudDetectionService)
    (features : ndarray) (rng : RandomState) :
  beta_in_unit rng ->
  ml_invariant (_run_ml_models self features rng).
Proof.
  intro B. unfold _run_ml_models.
  apply foldl_invariant.
  - intros a b. apply run_ml_model_invariant.
  - split; [constructor | exact B].
Qed.

Lemma detect_anomaly_invariant (self : FraudDetectionService)
    (features : ndarray) (st : list (string * Q) * RandomState)
    (model_name : string) :
  anomaly_invariant st ->
  anomaly_invariant (detect_anomaly self features st model_name).
Proof.
  destruct st as [scores rng]. intros [F B].
  unfold detect_anomaly, anomaly_invariant in *. simpl in *.
  destruct (models self !! model_name) as [model|]; simpl.
  - destruct (has_decision_function model).
    + destruct (decision_function model features) as [d|e]; simpl;
        split; auto using dict_set_values_Forall, unit_zero.
      apply dict_set_values_Forall; [exact F|].
      apply py_min_one_unit, Qabs_nonneg.
    + simpl. split; [|exact B].
      apply dict_set_values_Forall; [exact F|].
      apply py_min_one_unit, B.
  - split; auto using dict_set_values_Forall, unit_zero.
Qed.

Lemma detect_anomalies_unit (self : FraudDetectionService)
    (features : ndarray) (rng : RandomState) :
  beta_in_unit rng ->
  anomaly_invariant (_detect_anomalies self features rng).
Proof.
  intro B. unfold _detect_anomalies.
  apply foldl_invariant.
  - intros a b. apply detect_anomaly_invariant.
  - split; [constructor | exact B].
Qed.

Lemma device_risk_unit (device : DeviceInfo) (user : UserData) :
  unit_interval (_analyze_device_risk device user).
Proof.
  unfold _analyze_device_risk.
  apply py_min_one_unit.
  repeat (apply add_if_nonneg; [intros _; lra|]). lra.
Qed.

Lemma behavioral_risk_unit (transaction : TransactionData)
    (user : UserData) (context : ContextData) :
  unit_interval (_analyze_behavioral_patterns transaction user context).
Proof.
  unfold _analyze_behavioral_patterns.
  apply py_min_one_unit.
  repeat match goal with
         | |- context [if ?b then _ else _] => destruct b
         end; lra.
Qed.

Lemma geographic_risk_unit (transaction : TransactionData)
    (user : UserData) (device : DeviceInfo) :
  unit_interval (_analyze_geographic_risk transaction user device).
Proof.
  unfold _analyze_geographic_risk.
  apply py_min_one_unit.
  repeat (apply add_if_nonneg; [intros _; lra|]). lra.
Qed.

Lemma velocity_risk_unit (transaction : TransactionData)
    (user : UserData) (velocity_risk : Q) :
  _analyze_velocity_patterns transaction user = Ok velocity_risk ->
  unit_interval velocity_risk.
Proof.
  unfold _analyze_velocity_patterns.
  set (hourly := int_or_0 (hourly_transaction_count transaction)).
  set (daily := int_or_0 (daily_transaction_count transaction)).
  set (r1 := add_if _ (py_min (inject_Z hourly / 10) 0.5) 0).
  set (r2 := add_if _ (py_min (inject_Z daily / 20) 0.3) r1).
  assert (P1 : 0 <= r1).
  { apply add_if_nonneg; [|lra].
    intros C. apply andb_true_iff in C as [_ C].
    apply py_min_glb; [|lra].
    apply (count_ratio_nonneg 5); [exact C | lia | lra]. }
  assert (P2 : 0 <= r2).
  { apply add_if_nonneg; [|exact P1].
    intros C. apply andb_true_iff in C as [_ C].
    apply py_min_glb; [|lra].
    apply (count_ratio_nonneg 10); [exact C | lia | lra]. }
  destruct (truthy_float (daily_amount_total transaction)
            && truthy_float (average_transaction_amount user)).
  - destruct (transaction_frequency user) as [frequency|];
      [|discriminate].
    simpl. intros [= <-]. apply py_min_one_unit.
    apply add_if_nonneg; [|exact P2].
    intros C. apply Qgtb_gt in C. apply py_min_glb; [|lra].
    apply Qle_shift_div_l; lra.
  - simpl. intros [= <-]. apply py_min_one_unit, P2.
Qed.

(** With the thresholds of [__init__], every rule severity is in the
    unit interval. *)
Lemma apply_fraud_rules_unit (self : FraudDetectionService)
    (transaction : TransactionData) (user : UserData)
    (device : DeviceInfo) (context : ContextData) :
  thresholds self = thresholds init ->
  Forall (fun r => unit_interval (rule_severity r))
    (_apply_fraud_rules self transaction user device context).
Proof.
  intro T. unfold _apply_fraud_rules. rewrite T. simpl.
  repeat (apply append_if_Forall; [intro C; simpl|]);
    try (unfold unit_interval; lra);
    try apply Forall_nil; try exact I.
  - apply py_min_one_unit.
    apply (count_ratio_nonneg 3); [exact C | lia | lra].
  - apply py_min_one_unit.
    apply (count_ratio_nonneg 0); [exact C | lia | lra].
  - apply andb_true_iff in C as [_ C]. apply py_min_one_unit.
    apply (count_ratio_nonneg 10); [exact C | lia | lra].
  - apply Qgtb_gt in C. apply py_min_one_unit.
    apply Qle_shift_div_l; lra.
Qed.

(** A result of [analyze_transaction], traced back to the analyses
    that produced it. *)
Lemma analyze_transaction_inversion
    (self : FraudDetectionService) (rng : RandomState) (clock : Clock)
    (transaction : TransactionData) (user : UserData)
    (device : DeviceInfo) (context : ContextData)
    (r : FraudDetectionResult) (self' : FraudDetectionService)
    (rng' : RandomState) :
  analyze_transaction self rng clock transaction user device context
    = (Ok r, self', rng') ->
  exists (features : ndarray) (ml_scores anomaly_scores : list (string * Q))
         (velocity_risk : Q) (rng1 : RandomState),
    _prepare_transaction_features self transaction user device context
      = Ok features
    /\ _run_ml_models self features rng = (ml_scores, self', rng1)
    /\ _detect_anomalies self' features rng1 = (anomaly_scores, rng')
    /\ _analyze_velocity_patterns transaction user = Ok velocity_risk
    /\ fraud_score r
       = _calculate_ensemble_score ml_scores anomaly_scores
           (_apply_fraud_rules self transaction user device context)
           (_analyze_device_risk device user)
           (_analyze_behavioral_patterns transaction user context)
           velocity_risk
           (_analyze_geographic_risk transaction user device)
    /\ confidence_score r
       = _calculate_confidence ml_scores anomaly_scores features.
Proof.
  unfold analyze_transaction.
  destruct (_prepare_transaction_features self transaction user device
              context) as [features|e] eqn:EF; [|discriminate].
  destruct (_run_ml_models self features rng) as [[ml_scores self1] rng1]
    eqn:EM.
  destruct (_detect_anomalies self1 features rng1)
    as [anomaly_scores rng2] eqn:EA.
  destruct (_analyze_velocity_patterns transaction user)
    as [velocity_risk|e] eqn:EV; simpl; [|discriminate].
  intros [= <- <- <-].
  exists features, ml_scores, anomaly_scores, velocity_risk, rng1.
  repeat split; assumption.
Qed.

(** The confidence of a result is in the unit interval. *)
Lemma calculate_confidence_unit
    (ml_scores anomaly_scores : list (string * Q)) (features : ndarray) :
  unit_interval (_calculate_confidence ml_scores anomaly_scores features).
Proof.
  unfold _calculate_confidence.
  set (all_scores := dict_values ml_scores ++ dict_values anomaly_scores).
  set (missing_ratio :=
         inject_Z (Z.of_nat (length (List.filter is_nan features)))
         / inject_Z (Z.of_nat (length features))).
  assert (M : unit_interval missing_ratio).
  { subst missing_ratio.
    pose proof (filter_length_le is_nan features) as LE.
    assert (C : 0 <= inject_Z (Z.of_nat
                                 (length (List.filter is_nan features))))
      by apply inject_length_nonneg.
    assert (D : inject_Z (Z.of_nat (length (List.filter is_nan features)))
                <= inject_Z (Z.of_nat (length features)))
      by (rewrite <- Zle_Qle; lia).
    destruct features as [|v features].
    - split; vm_compute; discriminate.
    - pose proof (inject_length_cons v features) as E.
      pose proof (inject_length_nonneg features) as P.
      split.
      + apply Qle_shift_div_l; lra.
      + apply Qle_shift_div_r; lra. }
  assert (A : unit_interval (py_max 0 (1 - np_std all_scores * 2))).
  { pose proof (np_std_nonneg all_scores).
    split; [apply py_max_ge_l | apply py_max_lub; lra]. }
  assert (F : Forall unit_interval
                ((match all_scores with
                  | [] => []
                  | _ :: _ => [] ++ [py_max 0 (1 - np_std all_scores * 2)]
                  end ++ [1 - missing_ratio]) ++ [0.8])).
  { apply Forall_app. split.
    - apply Forall_app. split.
      + destruct all_scores; simpl; repeat constructor; apply A.
      + repeat constructor; destruct M; lra.
    - repeat constructor; lra. }
  destruct (match all_scores with
            | [] => []
            | _ :: _ => [] ++ [py_max 0 (1 - np_std all_scores * 2)]
            end ++ [1 - missing_ratio]) as [|c cs] eqn:E.
  - destruct all_scores; discriminate.
  - simpl app in *.
    pose proof (mean_or_zero_unit _ F) as U. unfold unit_interval in *.
    rewrite np_mean_mean_or_zero. exact U.
Qed.

(** The two scores that the response validates are in the unit
    interval. *)
Lemma analyze_transaction_scores_valid
    (self : FraudDetectionService) (rng : RandomState) (clock : Clock)
    (transaction : TransactionData) (user : UserData)
    (device : DeviceInfo) (context : ContextData)
    (r : FraudDetectionResult) (self' : FraudDetectionService)
    (rng' : RandomState) :
  thresholds self = thresholds init ->
  beta_in_unit rng ->
  analyze_transaction self rng clock transaction user device context
    = (Ok r, self', rng') ->
  unit_interval (fraud_score r) /\ unit_interval (confidence_score r).
Proof.
  intros T B E.
  destruct (analyze_transaction_inversion _ _ _ _ _ _ _ _ _ _ E)
    as (features & ml & an & v & rng1 & _ & EM & EA & EV & ES & EC).
  pose proof (run_ml_models_unit self features rng B) as [Fml B1].
  rewrite EM in Fml, B1. cbn [fst snd] in Fml, B1.
  pose proof (detect_anomalies_unit self' features rng1 B1) as [Fan _].
  rewrite EA in Fan. cbn [fst] in Fan.
  split; [|rewrite EC; apply calculate_confidence_unit].
  rewrite ES. unfold unit_interval.
  rewrite calculate_ensemble_score_formula.
  apply ensemble_formula_unit; auto.
  - apply Forall_map, apply_fraud_rules_unit, T.
  - apply device_risk_unit.
  - apply behavioral_risk_unit.
  - eapply velocity_risk_unit, EV.
  - apply geographic_risk_unit.
Qed.

(** An analysis leaves a generator whose variates are still in the
    unit interval. *)
Lemma analyze_transaction_rng_unit
    (self : FraudDetectionService) (rng : RandomState) (clock : Clock)
    (transaction : TransactionData) (user : UserData)
    (device : DeviceInfo) (context : ContextData) :
  beta_in_unit rng ->
  beta_in_unit
    (snd (analyze_transaction self rng clock transaction user device
            context)).
Proof.
  intro B. unfold analyze_transaction.
  destruct (_prepare_transaction_features self transaction user device
              context) as [features|e]; [|exact B].
  pose proof (run_ml_models_unit self features rng B) as Iml.
  destruct (_run_ml_models self features rng) as [[ml_scores self1] rng1].
  destruct Iml as [_ B1]. simpl in B1.
  pose proof (detect_anomalies_unit self1 features rng1 B1) as Ian.
  destruct (_detect_anomalies self1 features rng1)
    as [anomaly_scores rng2].
  destruct Ian as [_ B2]. exact B2.
Qed.

(** C1.  Whenever [analyze_transaction] returns a result, on a service
    with the thresholds of [__init__] and beta variates in the unit
    interval, its fraud score lies in [0, 1] and is
    [min(1, 0.3*mean(ml_scores) + 0.2*mean(anomaly_scores)
    + 0.2*mean(rule severities) + 0.1*device_risk
    + 0.1*behavioral_risk + 0.05*velocity_risk
    + 0.05*geographic_risk)] of the scores that the analyses of this
    transaction produced, an empty group counting for 0; the weights
    are constants. *)
Theorem analyze_transaction_fraud_score
    (self : FraudDetectionService) (rng : RandomState) (clock : Clock)
    (transaction : TransactionData) (user : UserData)
    (device : DeviceInfo) (context : ContextData)
    (r : FraudDetectionResult) (self' : FraudDetectionService)
    (rng' : RandomState) :
  thresholds self = thresholds init ->
  beta_in_unit rng ->
  analyze_transaction self rng clock transaction user device context
    = (Ok r, self', rng') ->
  0 <= fraud_score r <= 1
  /\ exists (features : ndarray) (ml_scores anomaly_scores : list (string * Q))
       (velocity_risk : Q) (rng1 : RandomState),
      _prepare_transaction_features self transaction user device context
        = Ok features
      /\ _run_ml_models self features rng = (ml_scores, self', rng1)
      /\ _detect_anomalies self' features rng1 = (anomaly_scores, rng')
      /\ _analyze_velocity_patterns transaction user = Ok velocity_risk
      /\ fraud_score r
         == ensemble_formula
              (dict_values ml_scores) (dict_values anomaly_scores)
              (map rule_severity
                 (_apply_fraud_rules self transaction user device context))
              (_analyze_device_risk device user)
              (_analyze_behavioral_patterns transaction user context)
              velocity_risk
              (_analyze_geographic_risk transaction user device).
Proof.
  intros T B E.
  destruct (analyze_transaction_inversion _ _ _ _ _ _ _ _ _ _ E)
    as (features & ml & an & v & rng1 & EF & EM & EA & EV & ES & _).
  assert (Formula :
            fraud_score r
            == ensemble_formula (dict_values ml) (dict_values an)
                 (map rule_severity
                    (_apply_fraud_rules self transaction user device
                       context))
                 (_analyze_device_risk device user)
                 (_analyze_behavioral_patterns transaction user context)
                 v (_analyze_geographic_risk transaction user device)).
  { rewrite ES. apply calculate_ensemble_score_formula. }
  split.
  - pose proof (run_ml_models_unit self features rng B) as [Fml B1].
    rewrite EM in Fml, B1. cbn [fst snd] in Fml, B1.
    pose proof (detect_anomalies_unit self' features rng1 B1) as [Fan _].
    rewrite EA in Fan. cbn [fst] in Fan.
    rewrite Formula. apply ensemble_formula_unit.
    + exact Fml.
    + exact Fan.
    + apply Forall_map, apply_fraud_rules_unit, T.
    + apply device_risk_unit.
    + apply behavioral_risk_unit.
    + eapply velocity_risk_unit, EV.
    + apply geographic_risk_unit.
  - exists features, ml, an, v, rng1. auto.
Qed.

End Components.

End FraudScore.

(* ================================================================== *)
(** * The order of the explanations *)
(* ================================================================== *)

Module FraudIndicators.
Import Fraud Spec.

Lemma insert_by_severity_perm (x : FraudIndicator)
    (l : list FraudIndicator) :
  Permutation (insert_by_severity x l) (x :: l).
Proof.
  induction l as [|y l IH]; simpl.
  - reflexivity.
  - destruct (Qltb (severity x) (severity y)).
    + rewrite IH. apply perm_swap.
    + reflexivity.
Qed.

Lemma sort_by_severity_perm (l : list FraudIndicator) :
  Permutation (sort_by_severity l) l.
Proof.
  induction l as [|x l IH]; simpl.
  - reflexivity.
  - rewrite insert_by_severity_perm. constructor. exact IH.
Qed.

Lemma insert_by_severity_sorted (x : FraudIndicator)
    (l : list FraudIndicator) :
  StronglySorted severity_ge l ->
  StronglySorted severity_ge (insert_by_severity x l).
Proof.
  induction 1 as [|y l S IH F]; simpl.
  - repeat constructor.
  - destruct (Qltb (severity x) (severity y)) eqn:C.
    + apply Qltb_lt in C.
      constructor; [exact IH|].
      rewrite insert_by_severity_perm.
      constructor; [unfold severity_ge; lra | exact F].
    + apply Qltb_ge in C.
      constructor; [constructor; assumption|].
      constructor; [exact C|].
      eapply Forall_impl; [exact F|].
      unfold severity_ge. intros z ?. lra.
Qed.

Lemma sort_by_severity_sorted (l : list FraudIndicator) :
  StronglySorted severity_ge (sort_by_severity l).
Proof.
  induction l as [|x l IH]; simpl.
  - constructor.
  - apply insert_by_severity_sorted, IH.
Qed.

Section Analysis.
Context `{Runtime}.

Lemma analyze_transaction_indicators
    (self : FraudDetectionService) (rng : RandomState) (clock : Clock)
    (transaction : TransactionData) (user : UserData)
    (device : DeviceInfo) (context : ContextData)
    (r : FraudDetectionResult) (self' : FraudDetectionService)
    (rng' : RandomState) :
  analyze_transaction self rng clock transaction user device context
    = (Ok r, self', rng') ->
  (exists unsorted, indicators r = sort_by_severity unsorted)
  /\ primary_indicator r
     = match indicators r with
       | first :: _ => Some (indicator_type first)
       | [] => None
       end.
Proof.
  unfold analyze_transaction.
  destruct (_prepare_transaction_features self transaction user device
              context) as [features|e]; [|discriminate].
  destruct (_run_ml_models self features rng) as [[ml_scores self1] rng1].
  destruct (_detect_anomalies self1 features rng1)
    as [anomaly_scores rng2].
  destruct (_analyze_velocity_patterns transaction user)
    as [velocity_risk|e]; simpl; [|discriminate].
  intros [= <- <- <-]. simpl. split; [|reflexivity].
  unfold _generate_fraud_indicators. eauto.
Qed.

(** C5.  In every result of [analyze_transaction] the indicators are
    in order of non-increasing severity, and [primary_indicator] is
    the type of the first of them, whose severity none of the others
    exceeds, or [None] when there is no indicator. *)
Theorem analyze_transaction_indicators_ordered
    (self : FraudDetectionService) (rng : RandomState) (clock : Clock)
    (transaction : TransactionData) (user : UserData)
    (device : DeviceInfo) (context : ContextData)
    (r : FraudDetectionResult) (self' : FraudDetectionService)
    (rng' : RandomState) :
  analyze_transaction self rng clock transaction user device context
    = (Ok r, self', rng') ->
  StronglySorted severity_ge (indicators r)
  /\ match indicators r with
     | first :: rest =>
         primary_indicator r = Some (indicator_type first)
         /\ Forall (fun i => severity i <= severity first) rest
     | [] => primary_indicator r = None
     end.
Proof.
  intro E.
  destruct (analyze_transaction_indicators _ _ _ _ _ _ _ _ _ _ E)
    as [[unsorted U] P].
  assert (S : StronglySorted severity_ge (indicators r)).
  { rewrite U. apply sort_by_severity_sorted. }
  split; [exact S|].
  rewrite P. destruct (indicators r) as [|first rest]; [reflexivity|].
  split; [reflexivity|].
  inversion S; subst. assumption.
Qed.

End Analysis.

End FraudIndicators.

(* ================================================================== *)
(** * What the model scores and the results depend on *)
(* ================================================================== *)

Module FraudState.
Import Fraud Spec.

Lemma same_but_fit_refl (s : FraudDetectionService) : same_but_fit s s.
Proof. repeat split. Qed.

Lemma same_but_fit_sym (s1 s2 : FraudDetectionService) :
  same_but_fit s1 s2 -> same_but_fit s2 s1.
Proof. intros (? & ? & ? & ? & ?). repeat split; auto. Qed.

Lemma same_but_fit_trans (s1 s2 s3 : FraudDetectionService) :
  same_but_fit s1 s2 -> same_but_fit s2 s3 -> same_but_fit s1 s3.
Proof.
  intros (? & ? & ? & ? & ?) (? & ? & ? & ? & ?).
  repeat split; congruence.
Qed.

Lemma same_but_fit_lookup (s1 s2 : FraudDetectionService) (k : string) :
  same_but_fit s1 s2 ->
  is_Some (scalers s1 !! k) <-> is_Some (scalers s2 !! k).
Proof.
  intros (_ & _ & _ & _ & D).
  rewrite <- !elem_of_dom, D. reflexivity.
Qed.

Lemma same_but_fit_insert (s1 s2 : FraudDetectionService) (k : string)
    (sc1 sc2 : StandardScaler) :
  same_but_fit s1 s2 ->
  same_but_fit (set_scalers s1 (<[k := sc1]> (scalers s1)))
               (set_scalers s2 (<[k := sc2]> (scalers s2))).
Proof.
  intros (? & ? & ? & ? & D). repeat split; simpl; auto.
  rewrite !dom_insert_L, D. reflexivity.
Qed.

(** A round of the loop reads the features only through the check of
    the scaler for an infinite entry. *)
Lemma run_ml_model_agree (f1 f2 : ndarray)
    (st1 st2 : list (string * Q) * FraudDetectionService * RandomState)
    (model_name : string) :
  existsb is_inf f1 = existsb is_inf f2 ->
  ml_states_agree st1 st2 ->
  ml_states_agree (run_ml_model f1 st1 model_name)
                  (run_ml_model f2 st2 model_name).
Proof.
  destruct st1 as [[scores1 s1] rng1], st2 as [[scores2 s2] rng2].
  intros I (ES & ER & S). simpl in ES, ER, S. subst scores2 rng2.
  pose proof S as (EM & _).
  pose proof (same_but_fit_lookup s1 s2 model_name S) as L.
  unfold run_ml_model. rewrite <- EM.
  destruct (models s1 !! model_name) as [model|];
    [|repeat split; apply S].
  destruct (scalers s1 !! model_name) as [sc1|],
           (scalers s2 !! model_name) as [sc2|].
  - unfold fit_transform. rewrite <- I.
    destruct (existsb is_inf f1); simpl;
      (split; [reflexivity|split; [reflexivity|]]);
      apply same_but_fit_insert, S.
  - exfalso. destruct L as [L _].
    destruct (L (mk_is_Some _ _ eq_refl)) as [? ?]. discriminate.
  - exfalso. destruct L as [_ L].
    destruct (L (mk_is_Some _ _ eq_refl)) as [? ?]. discriminate.
  - simpl. repeat split; apply S.
Qed.

Lemma run_ml_models_agree (s1 s2 : FraudDetectionService)
    (f1 f2 : ndarray) (rng : RandomState) :
  existsb is_inf f1 = existsb is_inf f2 ->
  same_but_fit s1 s2 ->
  ml_states_agree (_run_ml_models s1 f1 rng) (_run_ml_models s2 f2 rng).
Proof.
  intros I S. unfold _run_ml_models.
  apply foldl_related.
  - intros a a' b. apply run_ml_model_agree, I.
  - repeat split; apply S.
Qed.

(** C4, as the code has it.  With the same service object and the same
    state of the random generator, [_run_ml_models] returns the same
    score dictionary, and leaves the same generator state, for any two
    feature arrays that agree on whether they hold an infinite entry
    (in particular for any two arrays of finite or NaN entries): the
    scaler's refusal of an infinite entry is the only way in which a
    feature value reaches a score. *)
Theorem run_ml_models_features_irrelevant :
  forall (self : FraudDetectionService) (f1 f2 : ndarray)
         (rng : RandomState),
    existsb is_inf f1 = existsb is_inf f2 ->
    fst (fst (_run_ml_models self f1 rng))
      = fst (fst (_run_ml_models self f2 rng))
    /\ snd (_run_ml_models self f1 rng) = snd (_run_ml_models self f2 rng).
Proof.
  intros self f1 f2 rng I.
  destruct (run_ml_models_agree self self f1 f2 rng I
              (same_but_fit_refl self)) as (ES & ER & _).
  split; assumption.
Qed.

(** The claim as the specification states it fails: the fresh service
    gives the three models the score 0.0 on an array that holds an
    infinite entry, and the three variates on a finite array. *)
Lemma run_ml_models_reads_features :
  ~ (forall (self : FraudDetectionService) (f1 f2 : ndarray)
            (rng : RandomState),
       fst (fst (_run_ml_models self f1 rng))
         = fst (fst (_run_ml_models self f2 rng))).
Proof.
  intro claim.
  specialize (claim Sample.fraud_service [NegInf] [Fin 0] Sample.rng).
  vm_compute in claim. discriminate.
Qed.

(** Such an array is one that [_prepare_transaction_features] produces:
    an account age of -1 day gives [np.log1p(-1)], which is minus
    infinity.  The three model scores of that request are 0.0, those of
    the same request with an account age of 0 are the three variates. *)
Lemma negative_account_age_reaches_ml_scores :
  (exists features,
     _prepare_transaction_features (H := Sample.runtime)
       Sample.fraud_service (Sample.purchase "t1") (Sample.user (-1))
       Sample.desktop Sample.session = Ok features
     /\ existsb is_inf features = true
     /\ dict_values (fst (fst (_run_ml_models Sample.fraud_service features
                                 Sample.rng))) = [0; 0; 0])
  /\ (exists features,
        _prepare_transaction_features (H := Sample.runtime)
          Sample.fraud_service (Sample.purchase "t1") (Sample.user 0)
          Sample.desktop Sample.session = Ok features
        /\ existsb is_inf features = false
        /\ dict_values (fst (fst (_run_ml_models Sample.fraud_service
                                    features Sample.rng)))
           = [0.5; 0.5; 0.5]).
Proof.
  split; eexists; (split; [vm_compute; reflexivity|]);
    split; vm_compute; reflexivity.
Qed.

(** ** Requests in sequence *)

Lemma run_ml_model_keeps (self : FraudDetectionService) (features : ndarray)
    (st : list (string * Q) * FraudDetectionService * RandomState)
    (model_name : string) :
  same_but_fit self (snd (fst st)) ->
  same_but_fit self (snd (fst (run_ml_model features st model_name))).
Proof.
  destruct st as [[scores s] rng]. simpl. intro S.
  unfold run_ml_model.
  destruct (models s !! model_name) as [model|]; [|exact S].
  destruct (scalers s !! model_name) as [sc|] eqn:L.
  - assert (S' : forall sc', same_but_fit self
              (set_scalers s (<[model_name := sc']> (scalers s)))).
    { intro sc'. destruct S as (? & ? & ? & ? & D).
      repeat split; simpl; auto.
      rewrite dom_insert_lookup_L; [exact D | eauto]. }
    destruct (fit_transform sc features) as [[scaled|e] sc']; simpl;
      apply S'.
  - simpl. exact S.
Qed.

Lemma run_ml_models_keeps (self : FraudDetectionService)
    (features : ndarray) (rng : RandomState) :
  same_but_fit self (snd (fst (_run_ml_models self features rng))).
Proof.
  unfold _run_ml_models.
  apply (foldl_invariant
           (fun st => same_but_fit self (snd (fst st)))).
  - intros a b. apply run_ml_model_keeps.
  - apply same_but_fit_refl.
Qed.

Lemma detect_anomalies_agree (s1 s2 : FraudDetectionService)
    (features : ndarray) (rng : RandomState) :
  same_but_fit s1 s2 ->
  _detect_anomalies s1 features rng = _detect_anomalies s2 features rng.
Proof.
  intros (EM & _). unfold _detect_anomalies.
  apply (foldl_related eq); [|reflexivity].
  intros a a' b <-. unfold detect_anomaly. rewrite EM. reflexivity.
Qed.

Section Analysis.
Context `{Runtime}.

Lemma prepare_features_agree (s1 s2 : FraudDetectionService)
    (transaction : TransactionData) (user : UserData)
    (device : DeviceInfo) (context : ContextData) :
  same_but_fit s1 s2 ->
  _prepare_transaction_features s1 transaction user device context
  = _prepare_transaction_features s2 transaction user device context.
Proof.
  intros (_ & EE & _).
  unfold _prepare_transaction_features, _encode_categorical.
  rewrite EE. reflexivity.
Qed.

Lemma apply_fraud_rules_agree (s1 s2 : FraudDetectionService)
    (transaction : TransactionData) (user : UserData)
    (device : DeviceInfo) (context : ContextData) :
  same_but_fit s1 s2 ->
  _apply_fraud_rules s1 transaction user device context
  = _apply_fraud_rules s2 transaction user device context.
Proof.
  intros (_ & _ & ET & _).
  unfold _apply_fraud_rules. rewrite ET. reflexivity.
Qed.

(** The outcome of an analysis and the generator it leaves do not
    depend on what the scalers were fitted on. *)
Lemma analyze_transaction_agree (s1 s2 : FraudDetectionService)
    (rng : RandomState) (clock : Clock)
    (transaction : TransactionData) (user : UserData)
    (device : DeviceInfo) (context : ContextData) :
  same_but_fit s1 s2 ->
  fst (fst (analyze_transaction s1 rng clock transaction user device
              context))
  = fst (fst (analyze_transaction s2 rng clock transaction user device
                context))
  /\ snd (analyze_transaction s1 rng clock transaction user device
            context)
     = snd (analyze_transaction s2 rng clock transaction user device
              context).
Proof.
  intro S. unfold analyze_transaction.
  rewrite <- (prepare_features_agree s1 s2 _ _ _ _ S).
  rewrite <- (apply_fraud_rules_agree s1 s2 _ _ _ _ S).
  destruct (_prepare_transaction_features s1 transaction user device
              context) as [features|e]; [|split; reflexivity].
  pose proof (run_ml_models_agree s1 s2 features features rng eq_refl S)
    as (ES & ER & S').
  destruct (_run_ml_models s1 features rng) as [[ml1 s1'] rng1].
  destruct (_run_ml_models s2 features rng) as [[ml2 s2'] rng2].
  simpl in ES, ER, S'. subst ml2 rng2.
  rewrite <- (detect_anomalies_agree s1' s2' features rng1 S').
  destruct (_detect_anomalies s1' features rng1) as [anomaly rng3].
  split; reflexivity.
Qed.

Lemma analyze_transaction_keeps (self : FraudDetectionService)
    (rng : RandomState) (clock : Clock)
    (transaction : TransactionData) (user : UserData)
    (device : DeviceInfo) (context : ContextData) :
  same_but_fit self
    (snd (fst (analyze_transaction self rng clock transaction user
                 device context))).
Proof.
  unfold analyze_transaction.
  destruct (_prepare_transaction_features self transaction user device
              context) as [features|e]; [|apply same_but_fit_refl].
  pose proof (run_ml_models_keeps self features rng) as K.
  destruct (_run_ml_models self features rng) as [[ml self'] rng1].
  destruct (_detect_anomalies self' features rng1) as [anomaly rng2].
  exact K.
Qed.

Lemma run_calls_keeps (calls : list TransactionRequest)
    (self : FraudDetectionService) (rng : RandomState) :
  same_but_fit self (fst (run_calls calls (self, rng))).
Proof.
  unfold run_calls.
  apply (foldl_invariant
           (fun w => same_but_fit self (fst w))).
  - intros [s g] call S. unfold analysis_task. simpl in *.
    pose proof (analyze_transaction_keeps s g (req_clock call)
                  (req_transaction call) (req_user call)
                  (req_device call) (req_context call)) as K.
    destruct (analyze_transaction s g (req_clock call)
                (req_transaction call) (req_user call)
                (req_device call) (req_context call)) as [[r s'] g'].
    simpl in *. eapply same_but_fit_trans; eassumption.
  - apply same_but_fit_refl.
Qed.

(** C7.  Take a service after [__init__] and [load_models], whatever
    the model storage holds, and any sequence of earlier calls of
    [analyze_transaction], started from any state of the random
    generator.  A call made after them, from a given generator state
    and with given clock readings, has the same outcome (the same
    result, or the same exception) and leaves the same generator state
    as the same call made first.  The earlier calls change nothing in
    the models, the encoders and the thresholds, and in the scalers
    only what they were last fitted on, which no result reads. *)
Theorem analyze_transaction_history_independent :
  forall (pretrained : gmap string Model)
         (prior : list TransactionRequest) (rng0 rng : RandomState)
         (clock : Clock) (transaction : TransactionData)
         (user : UserData) (device : DeviceInfo) (context : ContextData),
    fst (fst (analyze_transaction
                (fst (run_calls prior (load_models init pretrained, rng0)))
                rng clock transaction user device context))
    = fst (fst (analyze_transaction (load_models init pretrained) rng
                  clock transaction user device context))
    /\ snd (analyze_transaction
              (fst (run_calls prior (load_models init pretrained, rng0)))
              rng clock transaction user device context)
       = snd (analyze_transaction (load_models init pretrained) rng clock
                transaction user device context)
    /\ same_but_fit (load_models init pretrained)
         (fst (run_calls prior (load_models init pretrained, rng0))).
Proof.
  intros pretrained prior rng0 rng clock transaction user device context.
  assert (S : same_but_fit (load_models init pretrained)
                (fst (run_calls prior (load_models init pretrained, rng0))))
    by apply run_calls_keeps.
  destruct (analyze_transaction_agree _ _ rng clock transaction
              user device context (same_but_fit_sym _ _ S)) as [E1 E2].
  auto.
Qed.

End Analysis.

End FraudState.

(* ================================================================== *)
(** * The bulk operations *)
(* ================================================================== *)

Module BulkFacts.
Import Bulk Spec.

Section Loop.
Context {Req Res Resp World : Type}.
Variable call : Req -> World -> result Res * World.
Variable key : Req -> string.
Variable build : string -> Res -> result Resp.
Variable batch_size : nat.
Hypothesis batch_size_pos : (0 < batch_size)%nat.

Lemma gather_length (l : list Req) (w : World) :
  length (fst (gather call l w)) = length l.
Proof.
  revert w. induction l as [|x l IH]; intro w; simpl; [reflexivity|].
  destruct (call x w) as [r w1]. specialize (IH w1).
  destruct (gather call l w1) as [rs w2]. simpl in *. congruence.
Qed.

Lemma gather_app (l1 l2 : list Req) (w : World) :
  gather call (l1 ++ l2) w
  = (fst (gather call l1 w)
       ++ fst (gather call l2 (snd (gather call l1 w))),
     snd (gather call l2 (snd (gather call l1 w)))).
Proof.
  revert w. induction l1 as [|x l1 IH]; intro w; simpl.
  - destruct (gather call l2 w); reflexivity.
  - destruct (call x w) as [r w1]. rewrite IH.
    destruct (gather call l1 w1) as [rs w2]. reflexivity.
Qed.

Lemma process_results_app (l1 l2 : list Req) (r1 r2 : list (result Res))
    (results : gmap string Resp) :
  length l1 = length r1 ->
  process_results key build (l1 ++ l2) (r1 ++ r2) results
  = process_results key build l1 r1 results
      ≫= process_results key build l2 r2.
Proof.
  revert r1 results.
  induction l1 as [|x l1 IH]; intros [|r r1] results L;
    try discriminate; simpl.
  - reflexivity.
  - injection L as L. destruct r as [res|e]; [|auto].
    destruct (build (key x) res) as [response|e]; simpl; auto.
Qed.

Lemma foldl_run_batch_raise (l : list Req) (e : exn) (w : World)
    (starts : list nat) :
  foldl (run_batch call key build batch_size l) (Raise e, w) starts
  = (Raise e, w).
Proof. induction starts as [|i starts IH]; simpl; auto. Qed.

Lemma range_step_unfold (n : nat) :
  range_step batch_size n
  = match n with
    | O => []
    | S _ =>
        O :: map (fun i => (i + batch_size)%nat)
                 (range_step batch_size (n - batch_size))
    end.
Proof.
  unfold range_step. destruct n as [|n].
  - rewrite Nat.div_small by lia. reflexivity.
  - assert (E : ((S n + batch_size - 1) / batch_size
                 = S ((S n - batch_size + batch_size - 1) / batch_size))%nat).
    { destruct (le_lt_dec batch_size (S n)) as [G|L].
      - replace (S n + batch_size - 1)%nat
          with ((S n - batch_size + batch_size - 1) + 1 * batch_size)%nat
          by lia.
        rewrite Nat.div_add by lia. lia.
      - replace (S n - batch_size + batch_size - 1)%nat
          with (batch_size - 1)%nat by lia.
        rewrite (Nat.div_small (batch_size - 1)) by lia.
        replace (S n + batch_size - 1)%nat
          with (n + 1 * batch_size)%nat by lia.
        rewrite Nat.div_add by lia.
        rewrite Nat.div_small by lia. reflexivity. }
    rewrite E. simpl seq. rewrite <- seq_shift.
    simpl map. f_equal. rewrite !map_map.
    apply map_ext. intro k. simpl. lia.
Qed.

Lemma slice_shift (l : list Req) (i : nat) :
  slice batch_size l (i + batch_size)
  = slice batch_size (drop batch_size l) i.
Proof.
  unfold slice. rewrite drop_drop, (Nat.add_comm batch_size i).
  reflexivity.
Qed.

(** Cutting the requests into batches does not show in the
    dictionary: it is the one obtained by making all the calls in
    sequence and then storing the responses in order. *)
Lemma bulk_loop_sequential (n : nat) :
  forall (l : list Req) (results : gmap string Resp) (w : World),
    (length l <= n)%nat ->
    fst (foldl (run_batch call key build batch_size l) (Ok results, w)
           (range_step batch_size (length l)))
    = process_results key build l (outcomes call l w) results.
Proof.
  unfold outcomes.
  induction n as [|n IH]; intros l results w L.
  - destruct l; [|simpl in L; lia].
    rewrite range_step_unfold. reflexivity.
  - rewrite range_step_unfold.
    destruct l as [|x l']; [reflexivity|].
    set (l := x :: l') in *.
    change (length l) with (S (length l')).
    cbv iota. simpl foldl.
    rewrite foldl_fmap.
    rewrite (foldl_ext _ (run_batch call key build batch_size
                            (drop batch_size l)))
      by (intros st i; unfold run_batch; rewrite slice_shift;
          reflexivity).
    unfold slice. rewrite drop_0.
    transitivity
      (process_results key build
         (take batch_size l ++ drop batch_size l)
         (fst (gather call (take batch_size l ++ drop batch_size l) w))
         results);
      [|rewrite take_drop; reflexivity].
    rewrite gather_app. cbn [fst snd].
    rewrite process_results_app by (rewrite gather_length; reflexivity).
    destruct (gather call (take batch_size l) w) as [rs1 w1] eqn:G1.
    cbn [fst snd].
    destruct (process_results key build (take batch_size l) rs1 results)
      as [results1|e].
    + simpl. replace (S (length l') - batch_size)%nat
        with (length (drop batch_size l))
        by (rewrite length_drop; reflexivity).
      apply IH. rewrite length_drop. subst l. simpl in *. lia.
    + rewrite foldl_run_batch_raise. reflexivity.
Qed.

Lemma bulk_sequential (requests : list Req) (w : World) :
  fst (bulk call key build batch_size requests w)
  = process_results key build requests (outcomes call requests w) ∅.
Proof. apply (bulk_loop_sequential (length requests)). lia. Qed.

Lemma process_results_last_success (l : list Req) :
  forall (rs : list (result Res)) (results dict : gmap string Resp),
    process_results key build l rs results = Ok dict ->
    forall k : string,
      match last_success key k l rs with
      | Some res =>
          exists response,
            build k res = Ok response /\ dict !! k = Some response
      | None => dict !! k = results !! k
      end.
Proof.
  induction l as [|x l IH]; intros rs results dict P k.
  - simpl in *. injection P as <-. reflexivity.
  - destruct rs as [|r rs]; simpl in *.
    { injection P as <-. reflexivity. }
    destruct r as [res|e].
    + destruct (build (key x) res) as [response|e] eqn:B;
        [|discriminate].
      simpl in P. specialize (IH _ _ _ P k).
      destruct (last_success key k l rs) as [res'|]; [exact IH|].
      destruct (String.eqb (key x) k) eqn:K.
      * apply String.eqb_eq in K. subst k.
        exists response. split; [exact B|].
        rewrite IH. apply lookup_insert_eq.
      * apply String.eqb_neq in K.
        rewrite IH. apply lookup_insert_ne, K.
    + specialize (IH _ _ _ P k).
      destruct (last_success key k l rs); exact IH.
Qed.

Lemma last_success_exists (k : string) (l : list Req) :
  forall rs : list (result Res),
    is_Some (last_success key k l rs) <->
    exists (i : nat) (request : Req) (res : Res),
      l !! i = Some request /\ key request = k /\ rs !! i = Some (Ok res).
Proof.
  induction l as [|x l IH]; intro rs; simpl.
  - split; [intros [? ?]; discriminate|].
    intros (i & ? & ? & L & _). destruct i; discriminate.
  - destruct rs as [|r rs].
    { split; [intros [? ?]; discriminate|].
      intros (i & ? & ? & _ & _ & R). destruct i; discriminate. }
    split.
    + destruct (last_success key k l rs) as [res'|] eqn:T.
      * intros _.
        destruct (proj1 (IH rs)) as (i & q & res & ? & ? & ?);
          [rewrite T; eauto|].
        exists (S i), q, res. auto.
      * destruct r as [res|e]; [|intros [? ?]; discriminate].
        destruct (String.eqb (key x) k) eqn:K;
          [|intros [? ?]; discriminate].
        apply String.eqb_eq in K. intros _.
        exists O, x, res. auto.
    + intros (i & q & res & Lq & Kq & Rq).
      destruct i as [|i]; simpl in Lq, Rq.
      * injection Lq as ->. injection Rq as ->.
        destruct (last_success key k l rs); [eauto|].
        rewrite (proj2 (String.eqb_eq _ _) Kq). eauto.
      * assert (T : is_Some (last_success key k l rs))
          by (apply IH; eauto 6).
        destruct T as [res' ->]. eauto.
Qed.

Lemma last_success_own (l : list Req) :
  forall (rs : list (result Res)) (i : nat) (request : Req) (res : Res),
    NoDup (map key l) ->
    l !! i = Some request -> rs !! i = Some (Ok res) ->
    last_success key (key request) l rs = Some res.
Proof.
  induction l as [|x l IH]; intros rs i q res N Lq Rq.
  - destruct i; discriminate.
  - destruct rs as [|r rs]; [destruct i; discriminate|].
    simpl in N. apply NoDup_cons in N as [Nx N].
    destruct i as [|i]; simpl in *.
    + injection Lq as ->. injection Rq as ->.
      destruct (last_success key (key q) l rs) as [res'|] eqn:T.
      * exfalso. apply Nx.
        destruct (proj1 (last_success_exists (key q) l rs))
          as (j & q' & ? & Lj & Kj & _); [rewrite T; eauto|].
        rewrite <- Kj. apply list_elem_of_fmap.
        exists q'. split; [reflexivity|].
        eapply list_elem_of_lookup_2, Lj.
      * rewrite String.eqb_refl. reflexivity.
    + rewrite (IH rs i q res N Lq Rq). reflexivity.
Qed.

(** A property of the results that follows from an invariant of the
    state holds of every outcome. *)
Lemma outcomes_invariant (Inv : World -> Prop)
    (Good : Req -> Res -> Prop) :
  (forall request w, Inv w -> Inv (snd (call request w))) ->
  (forall request w res,
     Inv w -> fst (call request w) = Ok res -> Good request res) ->
  forall (l : list Req) (w : World),
    Inv w ->
    forall (i : nat) (request : Req) (res : Res),
      l !! i = Some request ->
      outcomes call l w !! i = Some (Ok res) ->
      Good request res.
Proof.
  intros Step Result. unfold outcomes.
  induction l as [|x l IH]; intros w I i q res Lq Rq.
  - destruct i; discriminate.
  - simpl in Rq.
    pose proof (Step x w I) as I1. pose proof (Result x w) as G.
    destruct (call x w) as [r w1]. simpl in I1, G.
    specialize (IH w1 I1).
    destruct (gather call l w1) as [rs w2]. simpl in *.
    destruct i as [|i]; simpl in *.
    + injection Lq as ->. injection Rq as ->. apply G; auto.
    + eapply IH; eassumption.
Qed.

(** What a bulk call that returns a dictionary has computed. *)
Lemma bulk_answers (requests : list Req) (w w' : World)
    (dict : gmap string Resp) :
  bulk call key build batch_size requests w = (Ok dict, w') ->
  answers key build requests (outcomes call requests w) dict
  /\ (NoDup (map key requests) ->
      answers_each key build requests (outcomes call requests w) dict).
Proof.
  intro E.
  pose proof (bulk_sequential requests w) as P.
  rewrite E in P. simpl in P. symmetry in P.
  pose proof (process_results_last_success _ _ _ _ P) as LS.
  assert (A2 : forall k : string,
             match last_success key k requests
                     (outcomes call requests w) with
             | Some res =>
                 exists response,
                   build k res = Ok response
                   /\ dict !! k = Some response
             | None => dict !! k = None
             end).
  { intro k. specialize (LS k).
    destruct (last_success key k requests (outcomes call requests w));
      [exact LS|]. rewrite LS. apply lookup_empty. }
  split; [split; [|exact A2]|].
  - intro k. rewrite elem_of_dom, <- last_success_exists.
    specialize (A2 k).
    destruct (last_success key k requests (outcomes call requests w)).
    + destruct A2 as (response & _ & ->). split; eauto.
    + rewrite A2. split; intros [? ?]; discriminate.
  - intros N i q res Lq Rq.
    specialize (A2 (key q)).
    rewrite (last_success_own _ _ _ _ _ N Lq Rq) in A2. exact A2.
Qed.

(** A bulk call returns a dictionary when the response constructor
    accepts the result of every request that did not raise. *)
Lemma process_results_total (l : list Req) :
  forall (rs : list (result Res)) (results : gmap string Resp),
    (forall (i : nat) (request : Req) (res : Res),
       l !! i = Some request -> rs !! i = Some (Ok res) ->
       is_ok (build (key request) res) = true) ->
    exists dict, process_results key build l rs results = Ok dict.
Proof.
  induction l as [|x l IH]; intros rs results B; simpl; [eauto|].
  destruct rs as [|r rs]; [eauto|].
  assert (B' : forall i q res,
             l !! i = Some q -> rs !! i = Some (Ok res) ->
             is_ok (build (key q) res) = true)
    by (intros i q res ? ?; apply (B (S i)); assumption).
  destruct r as [res|e]; [|apply IH, B'].
  specialize (B O x res eq_refl eq_refl).
  destruct (build (key x) res) as [response|e]; [|discriminate].
  simpl. apply IH, B'.
Qed.

Lemma bulk_total (requests : list Req) (w : World) :
  (forall (i : nat) (request : Req) (res : Res),
     requests !! i = Some request ->
     outcomes call requests w !! i = Some (Ok res) ->
     is_ok (build (key request) res) = true) ->
  exists dict w',
    bulk call key build batch_size requests w = (Ok dict, w').
Proof.
  intro B.
  destruct (process_results_total requests _ ∅ B) as [dict P].
  pose proof (bulk_sequential requests w) as S. rewrite P in S.
  destruct (bulk call key build batch_size requests w) as [r w'].
  simpl in S. subst r. eauto.
Qed.

End Loop.
End BulkFacts.

Module BulkOperations.
Import Bulk Spec.

Section Operations.
Context `{Runtime}.

Lemma fraud_validate_score_range_unit (v : Q) :
  unit_interval v -> Fraud.validate_score_range v = Ok v.
Proof.
  intros [L U]. unfold Fraud.validate_score_range.
  apply Qle_bool_iff in L, U. rewrite L, U. reflexivity.
Qed.

Lemma analysis_task_ready (request : Fraud.TransactionRequest)
    (w : Fraud.FraudDetectionService * RandomState) :
  fraud_ready w -> fraud_ready (snd (Fraud.analysis_task request w)).
Proof.
  destruct w as [self rng]. intros [T B]. cbn [fst snd] in T, B.
  unfold Fraud.analysis_task. simpl fst; simpl snd.
  pose proof (FraudState.analyze_transaction_keeps self rng
                (Fraud.req_clock request)
                (Fraud.req_transaction request) (Fraud.req_user request)
                (Fraud.req_device request) (Fraud.req_context request))
    as (_ & _ & ET & _).
  pose proof (FraudScore.analyze_transaction_rng_unit self rng
                (Fraud.req_clock request)
                (Fraud.req_transaction request) (Fraud.req_user request)
                (Fraud.req_device request) (Fraud.req_context request) B)
    as B'.
  destruct (Fraud.analyze_transaction self rng (Fraud.req_clock request)
              (Fraud.req_transaction request) (Fraud.req_user request)
              (Fraud.req_device request) (Fraud.req_context request))
    as [[r self'] rng'].
  unfold fraud_ready. cbn [fst snd] in *.
  split; [rewrite <- ET; exact T | exact B'].
Qed.

Lemma analysis_task_response (request : Fraud.TransactionRequest)
    (w : Fraud.FraudDetectionService * RandomState)
    (res : Fraud.FraudDetectionResult) :
  fraud_ready w ->
  fst (Fraud.analysis_task request w) = Ok res ->
  is_ok (Fraud.make_response (transaction_key request) res) = true.
Proof.
  destruct w as [self rng]. intros [T B]. cbn [fst snd] in T, B.
  unfold Fraud.analysis_task. simpl fst; simpl snd.
  destruct (Fraud.analyze_transaction self rng (Fraud.req_clock request)
              (Fraud.req_transaction request) (Fraud.req_user request)
              (Fraud.req_device request) (Fraud.req_context request))
    as [[r self'] rng'] eqn:E.
  simpl. intros ->.
  destruct (FraudScore.analyze_transaction_scores_valid
              _ _ _ _ _ _ _ _ _ _ T B E) as [S C].
  unfold Fraud.make_response.
  rewrite (fraud_validate_score_range_unit _ S). simpl.
  rewrite (fraud_validate_score_range_unit _ C). reflexivity.
Qed.

(** C6, as the code has it.  On the fraud service in its answering
    state, [bulk_analyze_transactions] returns a dictionary for every
    list of requests, and [bulk_optimize_prices] does for every list
    of products.  The keys of the dictionary are exactly the ids of
    the requests whose own call did not raise, the calls being made in
    the order of the list, each on the state left by the previous one.
    A key is mapped to the response built from the result of the last
    request with that id that did not raise; when the ids of the list
    are pairwise distinct, this is the request's own result.  A
    request that raises adds no entry and replaces none; the calls
    after it run on the state it left. *)
Theorem bulk_operations_answer
    (self : Fraud.FraudDetectionService) (rng : RandomState)
    (transactions : list Fraud.TransactionRequest)
    (settings : Price.Settings) (optimizer : Price.PriceOptimizerService)
    (products : list Price.ProductRequest)
    (constraints : option Price.PricingConstraints) :
  Fraud.thresholds self = Fraud.thresholds Fraud.init ->
  beta_in_unit rng ->
  (exists dict w',
     Fraud.bulk_analyze_transactions self rng transactions
       = (Ok dict, w')
     /\ answers transaction_key Fraud.make_response transactions
          (outcomes Fraud.analysis_task transactions (self, rng)) dict
     /\ (NoDup (map transaction_key transactions) ->
         answers_each transaction_key Fraud.make_response transactions
           (outcomes Fraud.analysis_task transactions (self, rng)) dict))
  /\ (exists dict optimizer',
        Price.bulk_optimize_prices settings optimizer products constraints
          = (Ok dict, optimizer')
        /\ answers product_key keep_response products
             (outcomes (Price.optimization_task settings constraints)
                products optimizer) dict
        /\ (NoDup (map product_key products) ->
            answers_each product_key keep_response products
              (outcomes (Price.optimization_task settings constraints)
                 products optimizer) dict)).
Proof.
  intros T B. split.
  - destruct (BulkFacts.bulk_total Fraud.analysis_task transaction_key
                Fraud.make_response 20 ltac:(lia) transactions (self, rng))
      as (dict & w' & E).
    { apply (BulkFacts.outcomes_invariant Fraud.analysis_task fraud_ready
               (fun request res =>
                  is_ok (Fraud.make_response (transaction_key request)
                           res) = true)).
      - apply analysis_task_ready.
      - apply analysis_task_response.
      - split; assumption. }
    exists dict, w'. split; [exact E|].
    apply (BulkFacts.bulk_answers _ _ _ 20 ltac:(lia) _ _ _ _ E).
  - destruct (BulkFacts.bulk_total
                (Price.optimization_task settings constraints)
                product_key keep_response 10 ltac:(lia) products optimizer)
      as (dict & w' & E); [reflexivity|].
    exists dict, w'. split; [exact E|].
    apply (BulkFacts.bulk_answers _ _ _ 10 ltac:(lia) _ _ _ _ E).
Qed.

End Operations.

Lemma make_response_score (id : string) (r : Fraud.FraudDetectionResult)
    (response : Fraud.TransactionAnalysisResponse) :
  Fraud.make_response id r = Ok response ->
  Fraud.resp_fraud_score response = Fraud.fraud_score r.
Proof.
  unfold Fraud.make_response, Fraud.validate_score_range.
  destruct (Qle_bool 0 (Fraud.fraud_score r)
            && Qle_bool (Fraud.fraud_score r) 1); [|discriminate].
  destruct (Qle_bool 0 (Fraud.confidence_score r)
            && Qle_bool (Fraud.confidence_score r) 1); [|discriminate].
  simpl. intros [= <-]. reflexivity.
Qed.

(** The claim as the specification states it fails on a list with a
    repeated id: of two requests with the id "t1", analysed with the
    scores 0.32 and 0.18, only the second has its own result in the
    dictionary. *)
Lemma bulk_repeated_id_keeps_last :
  ~ (forall (R : Runtime) (self : Fraud.FraudDetectionService)
            (rng : RandomState)
            (transactions : list Fraud.TransactionRequest)
            (dict : gmap string Fraud.TransactionAnalysisResponse)
            (w' : Fraud.FraudDetectionService * RandomState),
       Fraud.bulk_analyze_transactions self rng transactions
         = (Ok dict, w') ->
       answers_each transaction_key Fraud.make_response transactions
         (outcomes Fraud.analysis_task transactions (self, rng)) dict).
Proof.
  intro claim.
  pose (txs := [Sample.request "t1" 0; Sample.request "t1" 400]).
  destruct (Fraud.bulk_analyze_transactions (H := Sample.runtime)
              Sample.fraud_service Sample.rng txs)
    as [[dict|e] w'] eqn:E; [|vm_compute in E; discriminate].
  specialize (claim Sample.runtime _ _ _ _ _ E).
  assert (R0 : exists res,
             outcomes (Fraud.analysis_task (H := Sample.runtime)) txs
               (Sample.fraud_service, Sample.rng) !! 0%nat = Some (Ok res)
             /\ Qeq_bool (Fraud.fraud_score res) 0.32 = true).
  { eexists. split; vm_compute; reflexivity. }
  assert (R1 : exists res,
             outcomes (Fraud.analysis_task (H := Sample.runtime)) txs
               (Sample.fraud_service, Sample.rng) !! 1%nat = Some (Ok res)
             /\ Qeq_bool (Fraud.fraud_score res) 0.18 = true).
  { eexists. split; vm_compute; reflexivity. }
  destruct R0 as (res0 & O0 & S0), R1 as (res1 & O1 & S1).
  destruct (claim 0%nat _ res0 eq_refl O0) as (resp0 & M0 & D0).
  destruct (claim 1%nat _ res1 eq_refl O1) as (resp1 & M1 & D1).
  change (transaction_key (Sample.request "t1" 400))
    with (transaction_key (Sample.request "t1" 0)) in D1.
  rewrite D0 in D1. injection D1 as ->.
  apply make_response_score in M0, M1.
  rewrite <- M0 in S0. rewrite <- M1 in S1.
  apply Qeq_bool_iff in S0, S1. rewrite S0 in S1.
  vm_compute in S1. discriminate.
Qed.

(** A request that raises adds no entry, and yet the entries of the
    requests after it depend on it: the calls share the generator.  With
    a generator whose first three variates are 0.1 and whose later ones
    are 0.9, the purchase "t1" is scored 0.2 when it is analysed alone,
    and 0.44 after a request that raised in
    [_analyze_velocity_patterns], once the supervised models had drawn
    their three variates. *)
Lemma bulk_refused_request_shifts_scores :
  exists (dict dict' : gmap string Fraud.TransactionAnalysisResponse)
         (w w' : Fraud.FraudDetectionService * RandomState)
         (response response' : Fraud.TransactionAnalysisResponse),
    Fraud.bulk_analyze_transactions (H := Sample.runtime)
      Sample.fraud_service Offers.stepping_rng
      [Offers.refused_request "t0"; Sample.request "t1" 0] = (Ok dict, w)
    /\ Fraud.bulk_analyze_transactions (H := Sample.runtime)
         Sample.fraud_service Offers.stepping_rng [Sample.request "t1" 0]
       = (Ok dict', w')
    /\ dict !! "t0" = None
    /\ dict !! "t1" = Some response
    /\ dict' !! "t1" = Some response'
    /\ Fraud.resp_fraud_score response == 0.44
    /\ Fraud.resp_fraud_score response' == 0.2.
Proof.
  destruct (Fraud.bulk_analyze_transactions (H := Sample.runtime)
              Sample.fraud_service Offers.stepping_rng
              [Offers.refused_request "t0"; Sample.request "t1" 0])
    as [[dict|e] w] eqn:E; [|vm_compute in E; discriminate].
  destruct (Fraud.bulk_analyze_transactions (H := Sample.runtime)
              Sample.fraud_service Offers.stepping_rng
              [Sample.request "t1" 0])
    as [[dict'|e'] w'] eqn:E'; [|vm_compute in E'; discriminate].
  vm_compute in E. injection E as <- _.
  vm_compute in E'. injection E' as <- _.
  do 4 eexists. eexists. eexists.
  split; [reflexivity|]. split; [reflexivity|].
  split; [vm_compute; reflexivity|].
  split; [vm_compute; reflexivity|].
  split; [vm_compute; reflexivity|].
  split; vm_compute; reflexivity.
Qed.

End BulkOperations.

(* ================================================================== *)
(** * The recommended price *)
(* ================================================================== *)

Module PriceFacts.
Import Price Spec.

(** ** Rounding *)

Lemma round_half_even_near (x : Q) :
  x - (1 # 2) <= inject_Z (round_half_even x) <= x + (1 # 2).
Proof.
  unfold round_half_even.
  pose proof (Qfloor_le x) as L. pose proof (Qlt_floor x) as U.
  rewrite inject_Z_plus in U. change (inject_Z 1) with 1 in U.
  repeat case_cmp; try destruct (Z.even (Qfloor x));
    rewrite ?inject_Z_plus; change (inject_Z 1) with 1; lra.
Qed.

Lemma round_half_even_bounds (a b : Z) (x : Q) :
  inject_Z a <= x <= inject_Z b ->
  (a <= round_half_even x <= b)%Z.
Proof.
  intros [A B]. unfold round_half_even.
  pose proof (Qfloor_le x) as L.
  assert (FA : (a <= Qfloor x)%Z).
  { rewrite <- (Qfloor_Z a). apply Qfloor_resp_le, A. }
  assert (FB : (Qfloor x <= b)%Z).
  { rewrite <- (Qfloor_Z b). apply Qfloor_resp_le, B. }
  assert (UP : inject_Z (Qfloor x) < x -> (Qfloor x + 1 <= b)%Z).
  { intro S. assert (T : inject_Z (Qfloor x) < inject_Z b) by lra.
    rewrite <- Zlt_Qlt in T. lia. }
  repeat case_cmp; try destruct (Z.even (Qfloor x)); try lia;
    (split; [lia | apply UP; lra]).
Qed.

(** [round(x, 2)] moves a price by half a cent at most. *)
Lemma py_round2_near (x : Q) :
  x - (1 # 200) <= py_round2 x <= x + (1 # 200).
Proof.
  unfold py_round2. pose proof (round_half_even_near (x * 100)) as [L U].
  set (z := inject_Z (round_half_even (x * 100))) in *.
  split.
  - apply Qle_shift_div_l; lra.
  - apply Qle_shift_div_r; lra.
Qed.

Lemma py_round2_unit (x : Q) : unit_interval x -> unit_interval (py_round2 x).
Proof.
  intros [L U]. unfold py_round2.
  destruct (round_half_even_bounds 0 100 (x * 100)) as [A B].
  { change (inject_Z 0) with 0. change (inject_Z 100) with 100. lra. }
  rewrite Zle_Qle in A, B.
  change (inject_Z 0) with 0 in A. change (inject_Z 100) with 100 in B.
  set (z := inject_Z (round_half_even (x * 100))) in *.
  split.
  - apply Qle_shift_div_l; lra.
  - apply Qle_shift_div_r; lra.
Qed.

Lemma validate_score_range_unit (v : Q) :
  unit_interval v -> validate_score_range v = Ok v.
Proof.
  intros [L U]. unfold validate_score_range.
  apply Qle_bool_iff in L, U. rewrite L, U. reflexivity.
Qed.

Lemma py_div_nonzero (a b : Q) : ~ b == 0 -> py_div a b = Ok (a / b).
Proof.
  intro N. unfold py_div.
  destruct (Qeq_bool b 0) eqn:E; [|reflexivity].
  apply Qeq_bool_iff in E. contradiction.
Qed.

Lemma py_div_zero (a b : Q) : b == 0 -> py_div a b = Raise ZeroDivisionError.
Proof.
  intro Z. unfold py_div.
  rewrite (proj2 (Qeq_bool_iff b 0) Z). reflexivity.
Qed.

Section Optimizer.
Context `{Runtime}.
Variable settings : Settings.

(** ** The predictions of the ensemble *)

Lemma predict_one_confidence (features : ndarray)
    (st : list ModelPrediction * PriceOptimizerService)
    (entry : string * Model) :
  fixed_confidence (fst st) ->
  fixed_confidence (fst (predict_one features st entry)).
Proof.
  destruct st as [predictions self], entry as [model_name model].
  unfold predict_one. cbn [fst]. intro F.
  destruct (scalers self !! model_name) as [scaler|]; [|exact F].
  destruct (fit_transform scaler features) as [scaled scaler'].
  destruct (scaled ≫= predict model) as [prediction|e]; [|exact F].
  cbn [fst]. apply Forall_app. split; [exact F|].
  repeat constructor.
Qed.

Lemma ensemble_prediction_confidence (self : PriceOptimizerService)
    (features : ndarray) :
  fixed_confidence (fst (_get_ensemble_prediction self features)).
Proof.
  unfold _get_ensemble_prediction.
  apply (foldl_invariant (fun st => fixed_confidence (fst st))).
  - intros st entry. apply predict_one_confidence.
  - constructor.
Qed.

Lemma ensemble_prediction_none (self : PriceOptimizerService)
    (features : ndarray) :
  no_model_predicts self ->
  fst (_get_ensemble_prediction self features) = [].
Proof.
  unfold _get_ensemble_prediction, no_model_predicts.
  generalize (models self). intros l F.
  assert (G : forall st, fst st = [] ->
              fst (foldl (predict_one features) st l) = []).
  { induction F as [|[model_name model] l P F IH]; intros st E;
      [exact E|].
    simpl. apply IH. destruct st as [predictions s]. simpl in E.
    subst predictions. unfold predict_one.
    destruct (scalers s !! model_name) as [scaler|]; [|reflexivity].
    destruct (fit_transform scaler features) as [[scaled|e] scaler'];
      simpl; [|reflexivity].
    specialize (P scaled). simpl in P.
    destruct (predict model scaled); [discriminate | reflexivity]. }
  apply G. reflexivity.
Qed.

Lemma fixed_confidence_weight (predictions : list ModelPrediction) :
  fixed_confidence predictions -> predictions <> [] ->
  0 < py_sum (map confidence predictions).
Proof.
  intros F N. unfold py_sum.
  rewrite FraudScore.foldl_Qplus_shift.
  destruct F as [|p ps E F]; [congruence|].
  assert (P : 0 <= fold_right Qplus 0 (map confidence ps)).
  { clear -F. induction F as [|q qs E F IH]; simpl; [lra|].
    rewrite E. lra. }
  simpl. rewrite E. lra.
Qed.

Lemma fixed_confidence_mean (predictions : list ModelPrediction) :
  fixed_confidence predictions -> predictions <> [] ->
  unit_interval (np_mean (map confidence predictions)).
Proof.
  intros F N. destruct predictions as [|p ps]; [congruence|].
  assert (U : Forall unit_interval (map confidence (p :: ps))).
  { apply Forall_map. eapply Forall_impl; [exact F|].
    intros q ->. unfold unit_interval. lra. }
  pose proof (FraudScore.mean_or_zero_unit _ U) as M.
  unfold unit_interval in *. simpl map in *.
  rewrite FraudScore.np_mean_mean_or_zero. exact M.
Qed.

(** ** The scores that the response validates *)

Lemma calculate_confidence_score_unit
    (predictions : list ModelPrediction)
    (demand_data : option (gmap string (list Q))) :
  fixed_confidence predictions ->
  unit_interval (_calculate_confidence_score predictions demand_data).
Proof.
  intro F. unfold _calculate_confidence_score.
  destruct predictions as [|p ps]; [unfold unit_interval; lra|].
  destruct (fixed_confidence_mean (p :: ps) F ltac:(discriminate))
    as [L U].
  set (avg := np_mean (map confidence (p :: ps))) in *.
  apply py_round2_unit.
  repeat match goal with
         | |- context [if ?b then _ else _] => destruct b
         end;
    (split; [apply py_min_glb; lra | apply py_min_le_l]).
Qed.

Lemma assess_data_quality_unit (features : ndarray)
    (demand_data : option (gmap string (list Q))) :
  unit_interval (_assess_data_quality features demand_data).
Proof.
  unfold _assess_data_quality. apply py_round2_unit.
  destruct (existsb is_nan features || existsb is_inf features),
    (negb (truthy_dict demand_data));
    try (unfold unit_interval; lra).
  - destruct (demand_data ≫= _) as [[|x sales]|];
      try (unfold unit_interval; lra).
    destruct (length (x :: sales) <? 30)%nat; unfold unit_interval; lra.
  - destruct (demand_data ≫= _) as [[|x sales]|];
      try (unfold unit_interval; lra).
    destruct (length (x :: sales) <? 30)%nat; unfold unit_interval; lra.
Qed.

(** ** The business rules *)

Lemma apply_user_constraints_raise (c : PricingConstraints)
    (cost optimized_price : Q) (e : exn) :
  apply_user_constraints c cost optimized_price = Raise e ->
  e = ZeroDivisionError.
Proof.
  unfold apply_user_constraints.
  destruct (truthy_float (min_margin c)); simpl; [|discriminate].
  unfold py_div. destruct (Qeq_bool _ 0); simpl; [|discriminate].
  congruence.
Qed.

Lemma apply_business_rules_raise (predictions : list ModelPrediction)
    (current_price cost : Q) (constraints : option PricingConstraints)
    (e : exn) :
  _apply_business_rules settings predictions current_price cost
    constraints = Raise e ->
  e = ZeroDivisionError.
Proof.
  unfold _apply_business_rules.
  destruct predictions as [|p ps]; [discriminate|].
  destruct (Qeq_bool _ 0); [discriminate|].
  destruct constraints as [c|]; simpl; [|discriminate].
  destruct (apply_user_constraints c cost _) as [x|e'] eqn:A;
    simpl; [discriminate|].
  intros [= <-]. eapply apply_user_constraints_raise, A.
Qed.

(** Without a constraints object the rules do not raise. *)
Lemma apply_business_rules_unconstrained
    (predictions : list ModelPrediction) (current_price cost : Q) :
  is_ok (_apply_business_rules settings predictions current_price cost
           None) = true.
Proof.
  unfold _apply_business_rules.
  destruct predictions as [|p ps]; [reflexivity|].
  destruct (Qeq_bool _ 0); reflexivity.
Qed.

(** Without predictions, or with predictions whose confidences sum to
    zero, the rules return the current price itself. *)
Lemma apply_business_rules_no_prediction
    (predictions : list ModelPrediction) (current_price cost : Q)
    (constraints : option PricingConstraints) :
  predictions = [] \/ py_sum (map confidence predictions) == 0 ->
  _apply_business_rules settings predictions current_price cost
    constraints = Ok current_price.
Proof.
  unfold _apply_business_rules.
  intros [->|Z]; [reflexivity|].
  destruct predictions as [|p ps]; [reflexivity|].
  rewrite (proj2 (Qeq_bool_iff _ 0) Z). reflexivity.
Qed.

Lemma clamp_band (current_price cost weighted_price : Q) :
  0 <= current_price * MAX_PRICE_CHANGE_PERCENT settings ->
  current_price - current_price * MAX_PRICE_CHANGE_PERCENT settings
    <= clamp settings current_price cost weighted_price
    <= current_price + current_price * MAX_PRICE_CHANGE_PERCENT settings.
Proof.
  intro P. unfold clamp. split.
  - apply py_min_glb; [lra | apply py_max_ge_l].
  - apply py_min_le_l.
Qed.

Lemma clamp_floor (current_price cost weighted_price : Q) :
  cost * (1 + MIN_PROFIT_MARGIN settings)
    <= current_price + current_price * MAX_PRICE_CHANGE_PERCENT settings ->
  cost * (1 + MIN_PROFIT_MARGIN settings)
    <= clamp settings current_price cost weighted_price.
Proof.
  intro P. unfold clamp. apply py_min_glb; [exact P|].
  eapply Qle_trans; [|apply py_max_ge_r]. apply py_max_ge_l.
Qed.

(** With predictions of fixed confidence and no constraints object,
    the rules return the clamped weighted price, rounded. *)
Lemma apply_business_rules_clamp (predictions : list ModelPrediction)
    (current_price cost : Q) :
  fixed_confidence predictions -> predictions <> [] ->
  exists weighted_price,
    _apply_business_rules settings predictions current_price cost None
    = Ok (py_round2 (clamp settings current_price cost weighted_price)).
Proof.
  intros F N. unfold _apply_business_rules.
  destruct predictions as [|p ps]; [congruence|].
  pose proof (fixed_confidence_weight _ F N) as W.
  destruct (Qeq_bool _ 0) eqn:Z.
  - apply Qeq_bool_iff in Z. lra.
  - simpl. eexists. reflexivity.
Qed.

(** ** The whole operation *)

(** With a current price that is not zero, the operation raises only
    what the business rules raise, and otherwise returns a response
    that recommends the price of the rules. *)
Lemma optimize_outcome (self : PriceOptimizerService) (clock : Clock)
    (product_id : string) (current_price cost : Q) (inventory_level : Z)
    (competitor_prices : list (gmap string Q))
    (demand_data : option (gmap string (list Q)))
    (constraints : option PricingConstraints) :
  ~ current_price == 0 ->
  match _apply_business_rules settings
          (fst (_get_ensemble_prediction self
                  (_prepare_features (utcnow_features clock)
                     current_price cost inventory_level
                     competitor_prices demand_data)))
          current_price cost constraints with
  | Ok optimized_price =>
      exists r,
        fst (optimize_product_price settings self clock product_id
               current_price cost inventory_level competitor_prices
               demand_data constraints) = Ok r
        /\ recommended_price r = optimized_price
        /\ price_change r = optimized_price - current_price
  | Raise e =>
      fst (optimize_product_price settings self clock product_id
             current_price cost inventory_level competitor_prices
             demand_data constraints) = Raise e
  end.
Proof.
  intro N. unfold optimize_product_price.
  set (features := _prepare_features _ _ _ _ _ _).
  pose proof (ensemble_prediction_confidence self features) as F.
  destruct (_get_ensemble_prediction self features)
    as [predictions self'].
  cbn [fst] in *.
  destruct (_apply_business_rules settings predictions current_price cost
              constraints) as [optimized_price|e]; [|reflexivity].
  unfold _calculate_impact, _assess_risks.
  rewrite bind_Ok, (py_div_nonzero _ _ N), !bind_Ok.
  destruct (_analyze_price_change_reasons current_price optimized_price
              competitor_prices) as [primary secondary].
  rewrite ?(py_div_nonzero _ _ N), !bind_Ok.
  rewrite (validate_score_range_unit _
             (calculate_confidence_score_unit _ demand_data F)), bind_Ok.
  rewrite (validate_score_range_unit _
             (assess_data_quality_unit features demand_data)), bind_Ok.
  eexists. repeat split.
Qed.

Lemma optimize_zero_price (self : PriceOptimizerService) (clock : Clock)
    (product_id : string) (current_price cost : Q) (inventory_level : Z)
    (competitor_prices : list (gmap string Q))
    (demand_data : option (gmap string (list Q)))
    (constraints : option PricingConstraints) :
  current_price == 0 ->
  fst (optimize_product_price settings self clock product_id
         current_price cost inventory_level competitor_prices
         demand_data constraints) = Raise ZeroDivisionError.
Proof.
  intro Z. unfold optimize_product_price.
  destruct (_get_ensemble_prediction self _) as [predictions self'].
  cbn [fst].
  destruct (_apply_business_rules settings predictions current_price cost
              constraints) as [optimized_price|e] eqn:A.
  - unfold _calculate_impact.
    rewrite bind_Ok, (py_div_zero _ _ Z). reflexivity.
  - apply apply_business_rules_raise in A. subst e. reflexivity.
Qed.

End Optimizer.
End PriceFacts.

Module PriceClaims.
Import Price Spec PriceFacts.

Section Optimizer.
Context `{Runtime}.
Variable settings : Settings.

(** C8.  [_apply_business_rules] returns the current price itself when
    there is no prediction or when the confidences of the predictions
    sum to zero.  Hence, when no model of the service predicts, every
    response of [optimize_product_price] recommends the current price
    with a price change of 0, and there is such a response whenever
    the current price is not zero. *)
Theorem no_prediction_keeps_current_price :
  (forall (predictions : list ModelPrediction) (current_price cost : Q)
          (constraints : option PricingConstraints),
     predictions = [] \/ py_sum (map confidence predictions) == 0 ->
     _apply_business_rules settings predictions current_price cost
       constraints = Ok current_price)
  /\ (forall (self : PriceOptimizerService) (clock : Clock)
             (product_id : string) (current_price cost : Q)
             (inventory_level : Z)
             (competitor_prices : list (gmap string Q))
             (demand_data : option (gmap string (list Q)))
             (constraints : option PricingConstraints),
        no_model_predicts self ->
        (forall r,
           fst (optimize_product_price settings self clock product_id
                  current_price cost inventory_level competitor_prices
                  demand_data constraints) = Ok r ->
           recommended_price r = current_price /\ price_change r == 0)
        /\ (~ current_price == 0 ->
            exists r,
              fst (optimize_product_price settings self clock product_id
                     current_price cost inventory_level competitor_prices
                     demand_data constraints) = Ok r)).
Proof.
  split; [apply apply_business_rules_no_prediction|].
  intros self clock product_id current_price cost inventory_level
    competitor_prices demand_data constraints NP.
  assert (O : ~ current_price == 0 ->
              exists r,
                fst (optimize_product_price settings self clock product_id
                       current_price cost inventory_level
                       competitor_prices demand_data constraints) = Ok r
                /\ recommended_price r = current_price
                /\ price_change r = current_price - current_price).
  { intro N.
    pose proof (optimize_outcome settings self clock product_id
                  current_price cost inventory_level competitor_prices
                  demand_data constraints N) as O.
    rewrite (ensemble_prediction_none self _ NP) in O.
    rewrite apply_business_rules_no_prediction in O by auto.
    exact O. }
  split.
  - intros r E.
    destruct (Qeq_dec current_price 0) as [Z|N].
    + rewrite (optimize_zero_price settings _ _ _ _ _ _ _ _ _ Z) in E.
      discriminate.
    + destruct (O N) as (r' & E' & R & C).
      rewrite E in E'. injection E' as <-.
      split; [exact R|]. rewrite C. lra.
  - intro N. destruct (O N) as (r & E & _). eauto.
Qed.

(** C9.  [optimize_product_price] divides by [current_price]: with a
    current price of zero it raises [ZeroDivisionError], whatever its
    other arguments.  With a positive current price the division of
    [_calculate_impact] and the one of the response are defined for
    every optimised price; the operation then raises only what the
    business rules raise, and nothing when it is given no constraints
    object. *)
Theorem division_by_current_price
    (self : PriceOptimizerService) (clock : Clock)
    (product_id : string) (current_price cost : Q) (inventory_level : Z)
    (competitor_prices : list (gmap string Q))
    (demand_data : option (gmap string (list Q)))
    (constraints : option PricingConstraints) :
  (current_price == 0 ->
   fst (optimize_product_price settings self clock product_id
          current_price cost inventory_level competitor_prices
          demand_data constraints) = Raise ZeroDivisionError)
  /\ (0 < current_price ->
      (forall optimized_price,
         is_ok (_calculate_impact current_price optimized_price) = true
         /\ is_ok (py_div (optimized_price - current_price)
                     current_price) = true)
      /\ (forall e,
            fst (optimize_product_price settings self clock product_id
                   current_price cost inventory_level competitor_prices
                   demand_data constraints) = Raise e ->
            _apply_business_rules settings
              (fst (_get_ensemble_prediction self
                      (_prepare_features (utcnow_features clock)
                         current_price cost inventory_level
                         competitor_prices demand_data)))
              current_price cost constraints = Raise e)
      /\ (constraints = None ->
          is_ok (fst (optimize_product_price settings self clock
                        product_id current_price cost inventory_level
                        competitor_prices demand_data constraints))
          = true)).
Proof.
  split; [apply optimize_zero_price|].
  intro P. assert (N : ~ current_price == 0) by lra.
  pose proof (optimize_outcome settings self clock product_id
                current_price cost inventory_level competitor_prices
                demand_data constraints N) as O.
  split; [|split].
  - intro optimized_price. unfold _calculate_impact.
    rewrite (py_div_nonzero _ _ N). split; reflexivity.
  - intros e E.
    destruct (_apply_business_rules settings _ current_price cost
                constraints) as [optimized_price|e'].
    + destruct O as (r & E' & _). congruence.
    + congruence.
  - intros ->.
    destruct (_apply_business_rules settings _ current_price cost None)
      as [optimized_price|e'] eqn:A.
    + destruct O as (r & -> & _). reflexivity.
    + pose proof (apply_business_rules_unconstrained settings
                    (fst (_get_ensemble_prediction self
                            (_prepare_features (utcnow_features clock)
                               current_price cost inventory_level
                               competitor_prices demand_data)))
                    current_price cost) as T.
      rewrite A in T. discriminate.
Qed.

(** C3, as the code has it.  For a positive current price, a maximum
    price change that is not negative and no constraints object,
    [optimize_product_price] returns a response.  Its recommended
    price is within half a cent, the effect of the rounding to 2
    decimals, of the band
    [current_price -/+ current_price * MAX_PRICE_CHANGE_PERCENT].
    When no model predicts, it is the current price itself.  When a
    model predicts and the floor [cost * (1 + MIN_PROFIT_MARGIN)] does
    not exceed the upper end of the band, it is at least the floor
    less half a cent. *)
Theorem recommended_price_within_constraints
    (self : PriceOptimizerService) (clock : Clock)
    (product_id : string) (current_price cost : Q) (inventory_level : Z)
    (competitor_prices : list (gmap string Q))
    (demand_data : option (gmap string (list Q))) :
  0 < current_price ->
  0 <= MAX_PRICE_CHANGE_PERCENT settings ->
  exists r,
    fst (optimize_product_price settings self clock product_id
           current_price cost inventory_level competitor_prices
           demand_data None) = Ok r
    /\ current_price - current_price * MAX_PRICE_CHANGE_PERCENT settings
         - (1 # 200)
       <= recommended_price r
       <= current_price + current_price * MAX_PRICE_CHANGE_PERCENT settings
          + (1 # 200)
    /\ (fst (_get_ensemble_prediction self
               (_prepare_features (utcnow_features clock) current_price
                  cost inventory_level competitor_prices demand_data))
        = [] ->
        recommended_price r = current_price)
    /\ (fst (_get_ensemble_prediction self
               (_prepare_features (utcnow_features clock) current_price
                  cost inventory_level competitor_prices demand_data))
        <> [] ->
        cost * (1 + MIN_PROFIT_MARGIN settings)
          <= current_price
             + current_price * MAX_PRICE_CHANGE_PERCENT settings ->
        cost * (1 + MIN_PROFIT_MARGIN settings) - (1 # 200)
          <= recommended_price r).
Proof.
  intros P M. assert (N : ~ current_price == 0) by lra.
  assert (C : 0 <= current_price * MAX_PRICE_CHANGE_PERCENT settings).
  { apply Qmult_le_0_compat; lra. }
  pose proof (optimize_outcome settings self clock product_id
                current_price cost inventory_level competitor_prices
                demand_data None N) as O.
  pose proof (ensemble_prediction_confidence self
                (_prepare_features (utcnow_features clock) current_price
                   cost inventory_level competitor_prices demand_data))
    as F.
  destruct (fst (_get_ensemble_prediction self _)) as [|p ps] eqn:E.
  - rewrite apply_business_rules_no_prediction in O by auto.
    destruct O as (r & -> & R & _). exists r.
    split; [reflexivity|]. rewrite R.
    split; [lra|]. split; [reflexivity | congruence].
  - destruct (apply_business_rules_clamp settings (p :: ps) current_price
                cost F ltac:(discriminate)) as [weighted A].
    rewrite A in O. destruct O as (r & -> & R & _). exists r.
    split; [reflexivity|]. rewrite R.
    pose proof (py_round2_near (clamp settings current_price cost weighted))
      as [L U].
    pose proof (clamp_band settings current_price cost weighted C)
      as [BL BU].
    split; [lra|]. split; [discriminate|].
    intros _ FL.
    pose proof (clamp_floor settings current_price cost weighted FL).
    lra.
Qed.

End Optimizer.

(** The claim as the specification states it fails where no model
    predicts, which is the case of the freshly loaded service: for a
    current price of 10 and a cost of 9.9 the service recommends 10,
    below the floor of 10.395. *)
Lemma recommended_price_below_floor :
  ~ (forall (R : Runtime) (settings : Settings)
            (self : PriceOptimizerService) (clock : Clock)
            (product_id : string) (current_price cost : Q)
            (inventory_level : Z)
            (competitor_prices : list (gmap string Q))
            (demand_data : option (gmap string (list Q)))
            (r : PriceOptimizationResponse),
       0 < current_price -> 0 <= cost ->
       fst (optimize_product_price settings self clock product_id
              current_price cost inventory_level competitor_prices
              demand_data None) = Ok r ->
       cost * (1 + MIN_PROFIT_MARGIN settings) <= recommended_price r
       /\ current_price - current_price * MAX_PRICE_CHANGE_PERCENT settings
            <= recommended_price r
            <= current_price
               + current_price * MAX_PRICE_CHANGE_PERCENT settings).
Proof.
  intro claim.
  destruct (fst (optimize_product_price (H := Sample.runtime)
                   default_settings Sample.price_service
                   Sample.price_clock "p1" 10 9.9 40 [] None None))
    as [r|e] eqn:E; [|vm_compute in E; discriminate].
  destruct (claim Sample.runtime default_settings Sample.price_service
              Sample.price_clock "p1" 10 9.9 40%Z [] None r
              ltac:(reflexivity) ltac:(discriminate) E) as [FL _].
  vm_compute in E. injection E as <-.
  vm_compute in FL. apply FL. reflexivity.
Qed.

End PriceClaims.

(* ================================================================== *)
(** * The theorems at the worked inputs *)
(* ================================================================== *)

Module Witnesses.
Import Fraud Spec Sample.

(** [analyze_transaction_fraud_score] applies to the purchase of a new
    account on the fresh service. *)
Lemma analyze_transaction_fraud_score_witness :
  thresholds fraud_service = thresholds init
  /\ beta_in_unit rng
  /\ exists r self' rng',
       analyze_transaction fraud_service rng fraud_clock (purchase "t1")
         (user 0) desktop session = (Ok r, self', rng')
       /\ 0 <= fraud_score r <= 1.
Proof.
  assert (T : thresholds fraud_service = thresholds init) by reflexivity.
  assert (B : beta_in_unit rng).
  { intro n. split; vm_compute; discriminate. }
  split; [exact T|]. split; [exact B|].
  destruct (analyze_transaction fraud_service rng fraud_clock
              (purchase "t1") (user 0) desktop session)
    as [[[r|e] self'] rng'] eqn:E; [|vm_compute in E; discriminate].
  exists r, self', rng'. split; [reflexivity|].
  exact (proj1 (FraudScore.analyze_transaction_fraud_score
                  fraud_service rng fraud_clock (purchase "t1") (user 0)
                  desktop session r self' rng' T B E)).
Defined.

(** [make_fraud_decision_thresholds] at the score 0.7 and no rule
    indicator. *)
Lemma make_fraud_decision_thresholds_witness :
  ~ critical [] /\ 0.6 <= 0.7 < 0.8
  /\ _make_fraud_decision 0.7 [] = REVIEW.
Proof.
  assert (N : ~ critical []).
  { intro C. inversion C. }
  assert (R : 0.6 <= 0.7 < 0.8) by (split; [discriminate | reflexivity]).
  split; [exact N|]. split; [exact R|].
  apply (proj1 (proj2 (FraudThresholds.make_fraud_decision_thresholds
                         0.7 []))).
  split; assumption.
Defined.

(** [score_to_risk_level_thresholds] at the purchase of a new account:
    its score is 0.32 and its only rule indicator has severity 0.7, so it
    is at level MEDIUM and is approved. *)
Lemma score_to_risk_level_thresholds_witness :
  exists r self' rng',
    analyze_transaction fraud_service rng fraud_clock (purchase "t1")
      (user 0) desktop session = (Ok r, self', rng')
    /\ fraud_score r == 0.32
    /\ _score_to_risk_level (fraud_score r) = MEDIUM
    /\ decision r = APPROVE.
Proof.
  destruct (analyze_transaction fraud_service rng fraud_clock
              (purchase "t1") (user 0) desktop session)
    as [[[r|e] self'] rng'] eqn:E; [|vm_compute in E; discriminate].
  exists r, self', rng'. split; [reflexivity|].
  assert (S : fraud_score r == 0.32).
  { vm_compute in E. injection E as <- _ _. vm_compute. reflexivity. }
  assert (D : decision r = APPROVE).
  { vm_compute in E. injection E as <- _ _. reflexivity. }
  assert (N : ~ critical []) by (intro C; inversion C).
  assert (R : 0.3 <= fraud_score r < 0.4) by (rewrite S; split; lra).
  split; [exact S|]. split; [|exact D].
  exact (proj1 (proj1 (proj2 (proj2
           FraudThresholds.score_to_risk_level_thresholds))
           (fraud_score r) [] N R)).
Defined.

(** [run_ml_models_features_irrelevant] at two finite arrays. *)
Lemma run_ml_models_features_irrelevant_witness :
  existsb is_inf [Fin 1] = existsb is_inf [Fin 2; NaN]
  /\ fst (fst (_run_ml_models fraud_service [Fin 1] rng))
     = fst (fst (_run_ml_models fraud_service [Fin 2; NaN] rng)).
Proof.
  split; [reflexivity|].
  exact (proj1 (FraudState.run_ml_models_features_irrelevant
                  fraud_service [Fin 1] [Fin 2; NaN] rng eq_refl)).
Defined.

(** [analyze_transaction_indicators_ordered] at the purchase of a new
    account, which has one indicator. *)
Lemma analyze_transaction_indicators_ordered_witness :
  exists r self' rng',
    analyze_transaction fraud_service rng fraud_clock (purchase "t1")
      (user 0) desktop session = (Ok r, self', rng')
    /\ StronglySorted severity_ge (indicators r)
    /\ primary_indicator r = Some "new_account".
Proof.
  destruct (analyze_transaction fraud_service rng fraud_clock
              (purchase "t1") (user 0) desktop session)
    as [[[r|e] self'] rng'] eqn:E; [|vm_compute in E; discriminate].
  exists r, self', rng'. split; [reflexivity|].
  split.
  - exact (proj1 (FraudIndicators.analyze_transaction_indicators_ordered
                    fraud_service rng fraud_clock (purchase "t1") (user 0)
                    desktop session r self' rng' E)).
  - vm_compute in E. injection E as <- _ _. reflexivity.
Defined.

(** [bulk_operations_answer] at two purchases and one product. *)
Lemma bulk_operations_answer_witness :
  thresholds fraud_service = thresholds init
  /\ beta_in_unit rng
  /\ (exists dict w',
        bulk_analyze_transactions fraud_service rng
          [request "t1" 0; request "t2" 400] = (Ok dict, w'))
  /\ (exists dict optimizer',
        Price.bulk_optimize_prices Price.default_settings price_service
          [product "p1" 10 4] None = (Ok dict, optimizer')).
Proof.
  assert (T : thresholds fraud_service = thresholds init) by reflexivity.
  assert (B : beta_in_unit rng).
  { intro n. split; vm_compute; discriminate. }
  split; [exact T|]. split; [exact B|].
  destruct (BulkOperations.bulk_operations_answer fraud_service rng
              [request "t1" 0; request "t2" 400] Price.default_settings
              price_service [product "p1" 10 4] None T B)
    as [(dict & w' & E & _) (dict' & optimizer' & E' & _)].
  split; eauto.
Defined.

(** [recommended_price_within_constraints] at a product of price 10 and
    cost 4, on a service whose fitted regressor predicts 100. *)
Lemma recommended_price_within_constraints_witness :
  0 < 10
  /\ 0 <= Price.MAX_PRICE_CHANGE_PERCENT Price.default_settings
  /\ exists r,
       fst (Price.optimize_product_price Price.default_settings
              (fitted_price_service 100) price_clock "p1" 10 4 40 [] None
              None) = Ok r
       /\ 10 - 10 * 0.20 - (1 # 200) <= Price.recommended_price r
          <= 10 + 10 * 0.20 + (1 # 200).
Proof.
  assert (P : 0 < 10) by reflexivity.
  assert (M : 0 <= Price.MAX_PRICE_CHANGE_PERCENT Price.default_settings)
    by discriminate.
  split; [exact P|]. split; [exact M|].
  destruct (PriceClaims.recommended_price_within_constraints
              Price.default_settings (fitted_price_service 100) price_clock
              "p1" 10 4 40%Z [] None P M) as (r & E & Band & _).
  exists r. split; [exact E | exact Band].
Defined.

(** [no_prediction_keeps_current_price] on the freshly loaded service,
    where no regressor is fitted. *)
Lemma no_prediction_keeps_current_price_witness :
  no_model_predicts price_service
  /\ ~ 10 == 0
  /\ exists r,
       fst (Price.optimize_product_price Price.default_settings
              price_service price_clock "p1" 10 4 40 [] None None) = Ok r
       /\ Price.recommended_price r = 10.
Proof.
  assert (NP : no_model_predicts price_service).
  { repeat constructor. }
  assert (N : ~ 10 == 0) by discriminate.
  split; [exact NP|]. split; [exact N|].
  destruct (proj2 (PriceClaims.no_prediction_keeps_current_price
                     Price.default_settings)
              price_service price_clock "p1" 10 4 40%Z [] None None NP)
    as [Same Returns].
  destruct (Returns N) as [r E].
  exists r. split; [exact E | exact (proj1 (Same r E))].
Defined.

(** [division_by_current_price] at the current price 10. *)
Lemma division_by_current_price_witness :
  0 < 10
  /\ is_ok (Price._calculate_impact 10 12) = true
  /\ is_ok (fst (Price.optimize_product_price Price.default_settings
                   price_service price_clock "p1" 10 4 40 [] None None))
     = true.
Proof.
  assert (P : 0 < 10) by reflexivity.
  split; [exact P|].
  destruct (proj2 (PriceClaims.division_by_current_price
                     Price.default_settings price_service price_clock
                     "p1" 10 4 40%Z [] None None) P)
    as (Defined_ & _ & Returns).
  split; [exact (proj1 (Defined_ 12)) | exact (Returns eq_refl)].
Defined.

End Witnesses.

(* ================================================================== *)
(** * Further properties of the fraud analysis *)
(* ================================================================== *)

Module FraudRules.
Import Fraud Spec Conditions.

Lemma Exists_append_if {A} (P : A -> Prop) (cond : bool) (x : A)
    (l : list A) :
  Exists P (append_if cond x l) <-> Exists P l \/ (cond = true /\ P x).
Proof.
  unfold append_if. destruct cond.
  - rewrite Exists_app, Exists_cons, Exists_nil. intuition congruence.
  - intuition congruence.
Qed.

(** A severity [min(x, 1.0)] is above 0.9 exactly when [x] is. *)
Lemma capped_severity_critical (x : Q) : 0.9 < py_min x 1 <-> 0.9 < x.
Proof.
  destruct (py_min_cases x 1) as [[L ->]|[L ->]]; split; intro; lra.
Qed.

Lemma Qlt_div_iff (a b c : Q) : 0 < c -> a < b / c <-> a * c < b.
Proof.
  intro P. split; intro L.
  - apply (Qmult_lt_r _ _ c P) in L.
    assert (E : b / c * c == b) by (field; lra).
    rewrite E in L. exact L.
  - apply Qlt_shift_div_l; assumption.
Qed.

Lemma count_severity_critical (n d : Z) :
  (0 < d)%Z ->
  0.9 < py_min (inject_Z n / inject_Z d) 1 <-> (9 * d < 10 * n)%Z.
Proof.
  intro P. rewrite capped_severity_critical.
  assert (D : 0 < inject_Z d)
    by (change 0 with (inject_Z 0); rewrite <- Zlt_Qlt; exact P).
  rewrite (Qlt_div_iff _ _ _ D), Zlt_Qlt, !inject_Z_mult.
  change (inject_Z 9) with 9. change (inject_Z 10) with 10.
  split; intro L; lra.
Qed.

Section Rules.
Context `{Runtime}.

(** With the thresholds of [__init__], a rule indicator is critical
    exactly at the amounts and counts of [forced_decline]. *)
Lemma critical_rules_iff (self : FraudDetectionService)
    (transaction : TransactionData) (user : UserData)
    (device : DeviceInfo) (context : ContextData) :
  thresholds self = thresholds init ->
  critical (_apply_fraud_rules self transaction user device context)
  <-> forced_decline transaction user.
Proof.
  intro T. unfold critical, _apply_fraud_rules. rewrite T.
  cbn [high_amount velocity_transactions thresholds init].
  rewrite !Exists_append_if, Exists_nil. cbn [rule_severity].
  set (hourly := int_or_0 (hourly_transaction_count transaction)).
  unfold forced_decline. fold hourly.
  rewrite !capped_severity_critical.
  assert (A1 : Qgtb (amount transaction) 10000 = true
               /\ 0.9 < amount transaction / 50000
               <-> 45000 < amount transaction).
  { rewrite Qgtb_gt, Qlt_div_iff by lra. split; intro L; [|split]; lra. }
  assert (A2 : truthy_int (hourly_transaction_count transaction)
               && (10 <? hourly)%Z = true
               /\ 0.9 < inject_Z hourly / 20
               <-> (18 < hourly)%Z).
  { pose proof (count_severity_critical hourly 20 eq_refl) as C.
    rewrite capped_severity_critical in C. change (inject_Z 20) with 20 in C.
    rewrite C, andb_true_iff, Z.ltb_lt.
    unfold truthy_int. subst hourly.
    destruct (hourly_transaction_count transaction) as [n|]; simpl.
    - rewrite negb_true_iff, Z.eqb_neq. lia.
    - intuition (try discriminate; lia). }
  assert (A3 : (0 <? previous_fraud_reports user)%Z = true
               /\ 0.9 < inject_Z (previous_fraud_reports user) / 5
               <-> (5 <= previous_fraud_reports user)%Z).
  { pose proof (count_severity_critical (previous_fraud_reports user) 5
                  eq_refl) as C.
    rewrite capped_severity_critical in C. change (inject_Z 5) with 5 in C.
    rewrite C, Z.ltb_lt. lia. }
  assert (A4 : (3 <? failed_login_attempts user)%Z = true
               /\ 0.9 < inject_Z (failed_login_attempts user) / 10
               <-> (10 <= failed_login_attempts user)%Z).
  { pose proof (count_severity_critical (failed_login_attempts user) 10
                  eq_refl) as C.
    rewrite capped_severity_critical in C. change (inject_Z 10) with 10 in C.
    rewrite C, Z.ltb_lt. lia. }
  assert (N1 : ~ 0.9 < 0.7) by lra.
  assert (N2 : ~ 0.9 < 0.5) by lra.
  assert (N3 : ~ 0.9 < 0.6) by lra.
  assert (N4 : ~ 0.9 < 0.4) by lra.
  tauto.
Qed.

(** A result of [analyze_transaction], field by field. *)
Lemma analyze_transaction_fields
    (self : FraudDetectionService) (rng : RandomState) (clock : Clock)
    (transaction : TransactionData) (user : UserData)
    (device : DeviceInfo) (context : ContextData)
    (r : FraudDetectionResult) (self' : FraudDetectionService)
    (rng' : RandomState) :
  analyze_transaction self rng clock transaction user device context
    = (Ok r, self', rng') ->
  exists (features : ndarray) (ml_scores anomaly_scores : list (string * Q))
         (velocity_risk : Q) (rng1 : RandomState),
    _prepare_transaction_features self transaction user device context
      = Ok features
    /\ _run_ml_models self features rng = (ml_scores, self', rng1)
    /\ _detect_anomalies self' features rng1 = (anomaly_scores, rng')
    /\ _analyze_velocity_patterns transaction user = Ok velocity_risk
    /\ fraud_score r
       = _calculate_ensemble_score ml_scores anomaly_scores
           (_apply_fraud_rules self transaction user device context)
           (_analyze_device_risk device user)
           (_analyze_behavioral_patterns transaction user context)
           velocity_risk
           (_analyze_geographic_risk transaction user device)
    /\ decision r
       = _make_fraud_decision (fraud_score r)
           (_apply_fraud_rules self transaction user device context)
    /\ indicators r
       = _generate_fraud_indicators
           (_apply_fraud_rules self transaction user device context)
           ml_scores anomaly_scores
           (_analyze_device_risk device user)
           (_analyze_behavioral_patterns transaction user context)
           velocity_risk
           (_analyze_geographic_risk transaction user device)
    /\ recommendations r
       = _generate_recommendations (fraud_score r) (decision r)
           (indicators r).
Proof.
  unfold analyze_transaction.
  destruct (_prepare_transaction_features self transaction user device
              context) as [features|e] eqn:EF; [|discriminate].
  destruct (_run_ml_models self features rng) as [[ml_scores self1] rng1]
    eqn:EM.
  destruct (_detect_anomalies self1 features rng1)
    as [anomaly_scores rng2] eqn:EA.
  destruct (_analyze_velocity_patterns transaction user)
    as [velocity_risk|e] eqn:EV; simpl; [|discriminate].
  intros [= <- <- <-].
  exists features, ml_scores, anomaly_scores, velocity_risk, rng1.
  repeat split; assumption.
Qed.

(** X1.  DECLINE is decided at a score of 0.8, and below it exactly for
    the requests of [forced_decline]: an amount above 45000, more than 18
    transactions in the hour, 5 fraud reports or 10 failed logins. *)
Theorem decline_forced_by_rules
    (self : FraudDetectionService) (rng : RandomState) (clock : Clock)
    (transaction : TransactionData) (user : UserData)
    (device : DeviceInfo) (context : ContextData)
    (r : FraudDetectionResult) (self' : FraudDetectionService)
    (rng' : RandomState) :
  thresholds self = thresholds init ->
  analyze_transaction self rng clock transaction user device context
    = (Ok r, self', rng') ->
  (forced_decline transaction user -> decision r = DECLINE)
  /\ (decision r = DECLINE
      <-> forced_decline transaction user \/ 0.8 <= fraud_score r).
Proof.
  intros T E.
  destruct (analyze_transaction_fields _ _ _ _ _ _ _ _ _ _ E)
    as (features & ml & an & v & rng1 & _ & _ & _ & _ & _ & ED & _).
  pose proof (critical_rules_iff self transaction user device context T)
    as C.
  set (rules := _apply_fraud_rules self transaction user device context)
    in *.
  rewrite ED. split.
  - intro F. apply FraudThresholds.decision_with_critical, C, F.
  - destruct (FraudThresholds.critical_dec rules) as [K|N].
    + rewrite (FraudThresholds.decision_with_critical _ _ K). tauto.
    + rewrite (FraudThresholds.decision_without_critical _ _ N).
      split.
      * intro D. right. revert D. repeat case_cmp; try discriminate.
        intros _. assumption.
      * intros [F|L]; [tauto|].
        repeat case_cmp; try reflexivity; lra.
Qed.

End Rules.

End FraudRules.

(* ================================================================== *)
(** * The models of the fraud service *)
(* ================================================================== *)

Module FraudModels.
Import Fraud Spec Conditions.

(** ** load_models *)

(** Decides the membership tests of a lookup after an insertion. *)
Local Ltac membership_cases :=
  repeat case_bool_decide; try reflexivity; exfalso;
  rewrite elem_of_cons in *; tauto.

Lemma foldl_install_lookup {V} (v : V) (names : list string) :
  forall (m : gmap string V) (n : string),
    foldl (fun m n => <[n := v]> m) m names !! n
    = if bool_decide (n ∈ names) then Some v else m !! n.
Proof.
  induction names as [|k ks IH]; intros m n; simpl.
  - reflexivity.
  - rewrite IH. destruct (decide (n = k)) as [->|N].
    + rewrite lookup_insert_eq.
      membership_cases.
    + rewrite lookup_insert_ne by congruence.
      membership_cases.
Qed.

Lemma foldl_load_lookup {V} (stored : gmap string V)
    (names : list string) :
  forall (m : gmap string V) (n : string),
    foldl (fun m n => match stored !! n with
                      | Some p => <[n := p]> m
                      | None => m
                      end) m names !! n
    = if bool_decide (n ∈ names)
      then match stored !! n with
           | Some p => Some p
           | None => m !! n
           end
      else m !! n.
Proof.
  induction names as [|k ks IH]; intros m n; simpl.
  - reflexivity.
  - rewrite IH. destruct (decide (n = k)) as [->|N].
    + destruct (stored !! k) as [p|] eqn:S.
      * rewrite lookup_insert_eq.
        membership_cases.
      * membership_cases.
    + assert (K : (match stored !! k with
                   | Some p => <[k := p]> m
                   | None => m
                   end) !! n = m !! n).
      { destruct (stored !! k); [|reflexivity].
        apply lookup_insert_ne. congruence. }
      rewrite K.
      membership_cases.
Qed.

(** The models that [load_models] leaves, name by name. *)
Lemma load_models_lookup (self : FraudDetectionService)
    (pretrained : gmap string Model) (n : string) :
  models (load_models self pretrained) !! n
  = if bool_decide (n ∈ supervised_models)
    then Some (default unfitted_classifier (pretrained !! n))
    else if bool_decide (n ∈ anomaly_models)
    then Some (default unfitted_detector (pretrained !! n))
    else models self !! n.
Proof.
  unfold load_models. cbn [models].
  rewrite foldl_load_lookup, !foldl_install_lookup.
  destruct (decide (n ∈ supervised_models)) as [S|S],
    (decide (n ∈ anomaly_models)) as [A|A].
  - exfalso. revert S A. unfold supervised_models, anomaly_models.
    rewrite !elem_of_cons, !elem_of_nil. intuition congruence.
  - rewrite (bool_decide_eq_true_2 _ S), (bool_decide_eq_false_2 _ A).
    rewrite bool_decide_eq_true_2 by (apply elem_of_app; auto).
    destruct (pretrained !! n); reflexivity.
  - rewrite (bool_decide_eq_false_2 _ S), (bool_decide_eq_true_2 _ A).
    rewrite bool_decide_eq_true_2 by (apply elem_of_app; auto).
    destruct (pretrained !! n); reflexivity.
  - rewrite (bool_decide_eq_false_2 _ S), (bool_decide_eq_false_2 _ A).
    rewrite bool_decide_eq_false_2; [reflexivity|].
    rewrite elem_of_app. tauto.
Qed.

Lemma load_scalers_lookup (self : FraudDetectionService)
    (pretrained : gmap string Model) (n : string) :
  scalers (load_models self pretrained) !! n
  = if bool_decide (n ∈ supervised_models)
    then Some new_scaler
    else scalers self !! n.
Proof.
  unfold load_models. cbn [scalers]. apply foldl_install_lookup.
Qed.

(** X2.  [load_models] installs the six models and the three scalers,
    keeps what the storage holds in place of a fresh estimator, resets
    every scaler, and leaves the thresholds alone; loading again changes
    nothing. *)
Theorem load_models_installs (self : FraudDetectionService)
    (pretrained : gmap string Model) :
  (forall n, n ∈ supervised_models ->
     models (load_models self pretrained) !! n
     = Some (default unfitted_classifier (pretrained !! n))
     /\ scalers (load_models self pretrained) !! n = Some new_scaler)
  /\ (forall n, n ∈ anomaly_models ->
        models (load_models self pretrained) !! n
        = Some (default unfitted_detector (pretrained !! n))
        /\ scalers (load_models self pretrained) !! n = scalers self !! n)
  /\ (forall n, n ∉ supervised_models ++ anomaly_models ->
        models (load_models self pretrained) !! n = models self !! n
        /\ scalers (load_models self pretrained) !! n = scalers self !! n)
  /\ is_initialized (load_models self pretrained) = true
  /\ thresholds (load_models self pretrained) = thresholds self
  /\ load_models (load_models self pretrained) pretrained
     = load_models self pretrained.
Proof.
  assert (Disjoint : forall n, n ∈ anomaly_models -> n ∉ supervised_models).
  { intros n A S. revert S A. unfold supervised_models, anomaly_models.
    rewrite !elem_of_cons, !elem_of_nil. intuition congruence. }
  split; [|split; [|split; [|split; [|split]]]].
  - intros n S.
    rewrite load_models_lookup, load_scalers_lookup.
    rewrite !(bool_decide_eq_true_2 _ S). auto.
  - intros n A. pose proof (Disjoint n A) as S.
    rewrite load_models_lookup, load_scalers_lookup.
    rewrite !(bool_decide_eq_false_2 _ S), (bool_decide_eq_true_2 _ A).
    auto.
  - intros n N. rewrite elem_of_app in N.
    rewrite load_models_lookup, load_scalers_lookup.
    rewrite !bool_decide_eq_false_2 by tauto. auto.
  - reflexivity.
  - reflexivity.
  - assert (EM : models (load_models (load_models self pretrained)
                           pretrained)
                 = models (load_models self pretrained)).
    { apply map_eq. intro n. rewrite !(load_models_lookup _ pretrained n).
      destruct (bool_decide (n ∈ supervised_models)); [reflexivity|].
      destruct (bool_decide (n ∈ anomaly_models)); reflexivity. }
    assert (ES : scalers (load_models (load_models self pretrained)
                            pretrained)
                 = scalers (load_models self pretrained)).
    { apply map_eq. intro n. rewrite !(load_scalers_lookup _ pretrained n).
      destruct (bool_decide (n ∈ supervised_models)); reflexivity. }
    destruct (load_models (load_models self pretrained) pretrained)
      as [m2 s2 e2 i2 t2] eqn:L2.
    destruct (load_models self pretrained) as [m1 s1 e1 i1 t1] eqn:L1.
    cbn [models scalers] in EM, ES. subst m2 s2.
    assert (e2 = e1 /\ i2 = i1 /\ t2 = t1) as (-> & -> & ->);
      [|reflexivity].
    unfold load_models in L1, L2.
    injection L1 as _ _ <- <- <-. injection L2 as _ _ <- <- <-.
    auto.
Qed.

Lemma load_models_supervised_installed (self : FraudDetectionService)
    (pretrained : gmap string Model) :
  supervised_installed (load_models self pretrained).
Proof.
  unfold supervised_installed. apply Forall_forall. intros n S.
  rewrite load_models_lookup, load_scalers_lookup.
  rewrite !(bool_decide_eq_true_2 _ S). split; eauto.
Qed.

Lemma load_models_no_detector_fitted (self : FraudDetectionService) :
  no_detector_fitted (load_models self ∅).
Proof.
  unfold no_detector_fitted. apply Forall_forall. intros n A model.
  rewrite load_models_lookup, lookup_empty.
  destruct (bool_decide (n ∈ supervised_models)) eqn:S.
  - apply bool_decide_eq_true in S. exfalso. revert S A.
    unfold supervised_models, anomaly_models.
    rewrite !elem_of_cons, !elem_of_nil. intuition congruence.
  - rewrite (bool_decide_eq_true_2 _ A). intros [= <-].
    split; reflexivity.
Qed.

End FraudModels.

(* ================================================================== *)
(** * The two scoring loops of the fraud service *)
(* ================================================================== *)

Module FraudLoops.
Import Fraud Spec Conditions.

(** ** What a round stores, and what it draws *)

(** A round of [_run_ml_models] stores a score under the name of its
    model, and draws at most one variate. *)
Lemma run_ml_model_round (features : ndarray)
    (st : list (string * Q) * FraudDetectionService * RandomState)
    (model_name : string) :
  exists v,
    fst (fst (run_ml_model features st model_name))
    = dict_set (fst (fst st)) model_name v
    /\ beta_draws (snd (run_ml_model features st model_name))
       = beta_draws (snd st)
    /\ (consumed (snd st)
        <= consumed (snd (run_ml_model features st model_name))
        <= S (consumed (snd st)))%nat.
Proof.
  destruct st as [[scores self] rng]. unfold run_ml_model. cbn [fst snd].
  destruct (models self !! model_name) as [model|].
  - destruct (match scalers self !! model_name with
              | Some scaler =>
                  let '(scaled, scaler0) := fit_transform scaler features in
                  (scaled,
                   set_scalers self
                     (<[model_name := scaler0]> (scalers self)))
              | None => (Ok features, self)
              end) as [[scaled|e] self1].
    + eexists. cbn [fst snd random_beta beta_draws consumed].
      split; [reflexivity | split; [reflexivity | lia]].
    + eexists. cbn [fst snd]. split; [reflexivity | split; [reflexivity | lia]].
  - eexists. cbn [fst snd]. split; [reflexivity | split; [reflexivity | lia]].
Qed.

Lemma detect_anomaly_round (self : FraudDetectionService)
    (features : ndarray) (st : list (string * Q) * RandomState)
    (model_name : string) :
  exists v,
    fst (detect_anomaly self features st model_name)
    = dict_set (fst st) model_name v
    /\ beta_draws (snd (detect_anomaly self features st model_name))
       = beta_draws (snd st)
    /\ (consumed (snd st)
        <= consumed (snd (detect_anomaly self features st model_name))
        <= S (consumed (snd st)))%nat.
Proof.
  destruct st as [scores rng]. unfold detect_anomaly. cbn [fst snd].
  destruct (models self !! model_name) as [model|].
  - destruct (has_decision_function model).
    + destruct (decision_function model features) as [d|e];
        eexists; cbn [fst snd];
        (split; [reflexivity | split; [reflexivity | lia]]).
    + eexists. cbn [fst snd random_beta beta_draws consumed].
      split; [reflexivity | split; [reflexivity | lia]].
  - eexists. cbn [fst snd]. split; [reflexivity | split; [reflexivity | lia]].
Qed.

(** Three rounds over three different names leave three entries, in
    the order of the names. *)
Lemma three_rounds {S : Type} (scores : S -> list (string * Q))
    (step : S -> string -> S) (a b c : string) (st : S) :
  String.eqb a b = false -> String.eqb a c = false ->
  String.eqb b c = false ->
  scores st = [] ->
  (forall st n, exists v, scores (step st n) = dict_set (scores st) n v) ->
  map fst (scores (foldl step st [a; b; c])) = [a; b; c].
Proof.
  intros AB AC BC E Step. simpl.
  destruct (Step (step (step st a) b) c) as [v3 ->].
  destruct (Step (step st a) b) as [v2 ->].
  destruct (Step st a) as [v1 ->].
  rewrite E. simpl. rewrite AB. simpl. rewrite AC, BC. reflexivity.
Qed.

(** The keys of the dictionary of [_run_ml_models]. *)
Lemma run_ml_models_keys (self : FraudDetectionService)
    (features : ndarray) (rng : RandomState) :
  map fst (fst (fst (_run_ml_models self features rng)))
  = supervised_models.
Proof.
  unfold _run_ml_models, supervised_models.
  apply (three_rounds (fun st => fst (fst st))); try reflexivity.
  intros st n.
  destruct (run_ml_model_round features st n) as (v & E & _).
  exists v. exact E.
Qed.

(** The keys of the dictionary of [_detect_anomalies]. *)
Lemma detect_anomalies_keys (self : FraudDetectionService)
    (features : ndarray) (rng : RandomState) :
  map fst (fst (_detect_anomalies self features rng)) = anomaly_models.
Proof.
  unfold _detect_anomalies, anomaly_models.
  apply (three_rounds fst); try reflexivity.
  intros st n.
  destruct (detect_anomaly_round self features st n) as (v & E & _).
  exists v. exact E.
Qed.

Lemma run_ml_models_three (self : FraudDetectionService)
    (features : ndarray) (rng : RandomState) :
  length (dict_values (fst (fst (_run_ml_models self features rng))))
  = 3%nat.
Proof.
  unfold dict_values.
  rewrite length_map, <- (length_map fst), run_ml_models_keys.
  reflexivity.
Qed.

Lemma detect_anomalies_three (self : FraudDetectionService)
    (features : ndarray) (rng : RandomState) :
  length (dict_values (fst (_detect_anomalies self features rng)))
  = 3%nat.
Proof.
  unfold dict_values.
  rewrite length_map, <- (length_map fst), detect_anomalies_keys.
  reflexivity.
Qed.

(** X3.  Whatever the service holds, the two score dictionaries have the
    three model names as their keys, in the order of the loops: both
    means of the ensemble score are means of three values. *)
Theorem score_dictionaries_keys (self : FraudDetectionService)
    (features : ndarray) (rng : RandomState) :
  map fst (fst (fst (_run_ml_models self features rng)))
  = supervised_models
  /\ map fst (fst (_detect_anomalies self features rng)) = anomaly_models
  /\ length (dict_values (fst (fst (_run_ml_models self features rng))))
     = 3%nat
  /\ length (dict_values (fst (_detect_anomalies self features rng)))
     = 3%nat.
Proof.
  split; [apply run_ml_models_keys|].
  split; [apply detect_anomalies_keys|].
  split; [apply run_ml_models_three | apply detect_anomalies_three].
Qed.

(** ** The random generator *)

Lemma run_ml_models_draws (self : FraudDetectionService)
    (features : ndarray) (rng : RandomState) :
  beta_draws (snd (_run_ml_models self features rng)) = beta_draws rng
  /\ (consumed rng <= consumed (snd (_run_ml_models self features rng))
      <= consumed rng + 3)%nat.
Proof.
  unfold _run_ml_models, supervised_models. cbn [foldl].
  set (s0 := ([], self, rng) : list (string * Q) * FraudDetectionService
                               * RandomState).
  destruct (run_ml_model_round features s0 "random_forest")
    as (_ & _ & D1 & C1).
  set (s1 := run_ml_model features s0 "random_forest") in *.
  destruct (run_ml_model_round features s1 "xgboost") as (_ & _ & D2 & C2).
  set (s2 := run_ml_model features s1 "xgboost") in *.
  destruct (run_ml_model_round features s2 "lightgbm") as (_ & _ & D3 & C3).
  subst s0. cbn [snd] in *. split; [congruence | lia].
Qed.

Lemma detect_anomalies_draws (self : FraudDetectionService)
    (features : ndarray) (rng : RandomState) :
  beta_draws (snd (_detect_anomalies self features rng)) = beta_draws rng
  /\ (consumed rng <= consumed (snd (_detect_anomalies self features rng))
      <= consumed rng + 3)%nat.
Proof.
  unfold _detect_anomalies, anomaly_models. cbn [foldl].
  set (s0 := ([], rng) : list (string * Q) * RandomState).
  destruct (detect_anomaly_round self features s0 "isolation_forest")
    as (_ & _ & D1 & C1).
  set (s1 := detect_anomaly self features s0 "isolation_forest") in *.
  destruct (detect_anomaly_round self features s1 "autoencoder")
    as (_ & _ & D2 & C2).
  set (s2 := detect_anomaly self features s1 "autoencoder") in *.
  destruct (detect_anomaly_round self features s2 "local_outlier")
    as (_ & _ & D3 & C3).
  subst s0. cbn [snd] in *. split; [congruence | lia].
Qed.

Section Analysis.
Context `{Runtime}.

(** X4.  An analysis, failed or not, takes at most six variates from the
    generator, one per model, and leaves the sequence of the variates to
    come as it was. *)
Theorem analyze_transaction_draws
    (self : FraudDetectionService) (rng : RandomState) (clock : Clock)
    (transaction : TransactionData) (user : UserData)
    (device : DeviceInfo) (context : ContextData) :
  beta_draws (snd (analyze_transaction self rng clock transaction user
                     device context))
  = beta_draws rng
  /\ (consumed rng
      <= consumed (snd (analyze_transaction self rng clock transaction
                          user device context))
      <= consumed rng + 6)%nat
  /\ (is_ok (_prepare_transaction_features self transaction user device
               context) = false ->
      snd (analyze_transaction self rng clock transaction user device
             context) = rng).
Proof.
  unfold analyze_transaction.
  destruct (_prepare_transaction_features self transaction user device
              context) as [features|e].
  - pose proof (run_ml_models_draws self features rng) as [D1 C1].
    destruct (_run_ml_models self features rng) as [[ml self1] rng1].
    pose proof (detect_anomalies_draws self1 features rng1) as [D2 C2].
    destruct (_detect_anomalies self1 features rng1) as [an rng2].
    cbn [fst snd] in *.
    split; [congruence | split; [lia | discriminate]].
  - cbn [snd]. split; [reflexivity | split; [lia | reflexivity]].
Qed.

End Analysis.

End FraudLoops.

(* ================================================================== *)
(** * The scores of a loaded fraud service *)
(* ================================================================== *)

Module FraudLoaded.
Import Fraud Spec Conditions.

(** ** The supervised models *)

(** A round of [_run_ml_models] for a model that is there with its
    scaler: the scaler is fitted again, and the score is the next
    variate, or 0 when the scaler refuses the features. *)
Lemma run_ml_model_installed (features : ndarray)
    (scores : list (string * Q)) (self : FraudDetectionService)
    (rng : RandomState) (n : string) :
  is_Some (models self !! n) -> is_Some (scalers self !! n) ->
  run_ml_model features (scores, self, rng) n
  = if existsb is_inf features
    then (dict_set scores n 0,
          set_scalers self (<[n := new_scaler]> (scalers self)), rng)
    else (dict_set scores n (beta_draws rng (consumed rng)),
          set_scalers self
            (<[n := {| fitted_on := Some features |}]> (scalers self)),
          {| beta_draws := beta_draws rng;
             consumed := S (consumed rng) |}).
Proof.
  intros [m Hm] [s Hs]. unfold run_ml_model. rewrite Hm, Hs.
  unfold fit_transform.
  destruct (existsb is_inf features); reflexivity.
Qed.

Lemma installed_after_fit (self : FraudDetectionService) (k n : string)
    (scaler : StandardScaler) :
  is_Some (models self !! n) /\ is_Some (scalers self !! n) ->
  is_Some (models (set_scalers self (<[k := scaler]> (scalers self))) !! n)
  /\ is_Some
       (scalers (set_scalers self (<[k := scaler]> (scalers self))) !! n).
Proof.
  intros [M S]. cbn [models scalers set_scalers]. split; [exact M|].
  rewrite lookup_insert_is_Some.
  destruct (decide (k = n)); [left | right]; auto.
Qed.

(** On a service that has the three supervised models and their
    scalers, the three scores are the next three variates of the
    generator; with an infinite entry among the features they are all 0
    and the generator is left alone. *)
Lemma run_ml_models_installed (self : FraudDetectionService)
    (features : ndarray) (rng : RandomState) :
  supervised_installed self ->
  if existsb is_inf features
  then fst (fst (_run_ml_models self features rng))
       = [("random_forest", 0); ("xgboost", 0); ("lightgbm", 0)]
       /\ snd (_run_ml_models self features rng) = rng
  else fst (fst (_run_ml_models self features rng))
       = [("random_forest", beta_draws rng (consumed rng));
          ("xgboost", beta_draws rng (S (consumed rng)));
          ("lightgbm", beta_draws rng (S (S (consumed rng))))]
       /\ snd (_run_ml_models self features rng)
          = {| beta_draws := beta_draws rng;
               consumed := S (S (S (consumed rng))) |}.
Proof.
  unfold supervised_installed, supervised_models.
  rewrite !Forall_cons. intros ([M1 S1] & I2 & I3 & _).
  unfold _run_ml_models, supervised_models. cbn [foldl].
  rewrite (run_ml_model_installed features [] self rng _ M1 S1).
  destruct (existsb is_inf features) eqn:Inf.
  - destruct (installed_after_fit self "random_forest" _ new_scaler I2)
      as [M2 S2].
    rewrite (run_ml_model_installed features _ _ rng _ M2 S2), Inf.
    apply (installed_after_fit self "random_forest" _ new_scaler) in I3.
    destruct (installed_after_fit _ "xgboost" _ new_scaler I3) as [M3 S3].
    rewrite (run_ml_model_installed features _ _ rng _ M3 S3), Inf.
    split; reflexivity.
  - set (fit := {| fitted_on := Some features |}).
    destruct (installed_after_fit self "random_forest" _ fit I2)
      as [M2 S2].
    rewrite (run_ml_model_installed features _ _ _ _ M2 S2), Inf.
    apply (installed_after_fit self "random_forest" _ fit) in I3.
    destruct (installed_after_fit _ "xgboost" _ fit I3) as [M3 S3].
    rewrite (run_ml_model_installed features _ _ _ _ M3 S3), Inf.
    split; reflexivity.
Qed.

(** ** The features *)

Lemma is_inf_log1p `{Runtime} (x : Q) :
  is_inf (np_log1p x) = true <-> x == -1.
Proof.
  unfold np_log1p. destruct (Qltb x (-1)) eqn:L.
  - apply Qltb_lt in L. split; [discriminate | intro E; lra].
  - destruct (Qeq_bool x (-1)) eqn:E.
    + apply Qeq_bool_iff in E. split; [intros _; exact E | reflexivity].
    + apply Qeq_bool_neq in E. split; [discriminate | tauto].
Qed.

Section Features.
Context `{Runtime}.

(** The features hold an infinite entry when an input of [np.log1p] is
    -1. *)
Lemma prepare_features_infinite (self : FraudDetectionService)
    (transaction : TransactionData) (user : UserData)
    (device : DeviceInfo) (context : ContextData) (features : ndarray) :
  _prepare_transaction_features self transaction user device context
    = Ok features ->
  log_of_zero transaction user -> existsb is_inf features = true.
Proof.
  unfold _prepare_transaction_features, log_of_zero.
  assert (Age : inject_Z (account_age_days user) == -1
                <-> account_age_days user = (-1)%Z).
  { change (-1) with (inject_Z (-1)). apply inject_Z_injective. }
  destruct (truthy_dict (billing_address transaction)
            && truthy_dict (shipping_address transaction));
    destruct (last_login_time user) as [login|];
    try (unfold dt_diff_seconds;
         destruct (eqb (dt_aware (transaction_time transaction))
                       (dt_aware login)));
    rewrite ?bind_Ok, ?bind_Raise; try discriminate;
    intros [= <-]; cbn [app existsb is_inf orb];
    rewrite ?orb_false_r, !orb_true_iff, !is_inf_log1p, Age;
    (intros [?|[?|(l & L & ?)]]; auto; try discriminate;
     injection L as <-; auto).
Qed.

(** X5.  On a service that holds the three supervised models and their
    scalers, the three scores of [_run_ml_models] are the next three
    variates of the generator for a feature array without infinite entry;
    for an array with an infinite entry the scalers refuse it, the three
    scores are 0 and no variate is drawn.  The features of a request hold
    an infinite entry when its amount, the age of the account or the
    number of seconds since the last login is exactly -1. *)
Theorem ml_scores_variates_or_zero
    (self : FraudDetectionService) (rng : RandomState) :
  supervised_installed self ->
  (forall features,
     existsb is_inf features = false ->
     fst (fst (_run_ml_models self features rng))
     = [("random_forest", beta_draws rng (consumed rng));
        ("xgboost", beta_draws rng (S (consumed rng)));
        ("lightgbm", beta_draws rng (S (S (consumed rng))))]
     /\ consumed (snd (_run_ml_models self features rng))
        = (consumed rng + 3)%nat)
  /\ (forall features,
        existsb is_inf features = true ->
        fst (fst (_run_ml_models self features rng))
        = [("random_forest", 0); ("xgboost", 0); ("lightgbm", 0)]
        /\ snd (_run_ml_models self features rng) = rng)
  /\ (forall transaction user device context features,
        _prepare_transaction_features self transaction user device
          context = Ok features ->
        log_of_zero transaction user ->
        existsb is_inf features = true).
Proof.
  intro I. split; [|split].
  - intros features Inf.
    pose proof (run_ml_models_installed self features rng I) as R.
    rewrite Inf in R. destruct R as [R1 R2].
    split; [exact R1|]. rewrite R2. cbn [consumed]. lia.
  - intros features Inf.
    pose proof (run_ml_models_installed self features rng I) as R.
    rewrite Inf in R. exact R.
  - intros transaction user device context features.
    apply prepare_features_infinite.
Qed.

End Features.

(** ** The outlier detectors *)

Lemma detect_anomaly_unfitted (self : FraudDetectionService)
    (features : ndarray) (scores : list (string * Q)) (rng : RandomState)
    (n : string) :
  (forall model, models self !! n = Some model ->
     has_decision_function model = true
     /\ forall X, is_ok (decision_function model X) = false) ->
  detect_anomaly self features (scores, rng) n
  = (dict_set scores n 0, rng).
Proof.
  intro U. unfold detect_anomaly.
  destruct (models self !! n) as [model|]; [|reflexivity].
  destruct (U model eq_refl) as [D R]. rewrite D.
  specialize (R features).
  destruct (decision_function model features); [discriminate | reflexivity].
Qed.

Lemma detect_anomalies_unfitted (self : FraudDetectionService)
    (features : ndarray) (rng : RandomState) :
  no_detector_fitted self ->
  _detect_anomalies self features rng
  = ([("isolation_forest", 0); ("autoencoder", 0); ("local_outlier", 0)],
     rng).
Proof.
  unfold no_detector_fitted, anomaly_models.
  rewrite !Forall_cons. intros (U1 & U2 & U3 & _).
  unfold _detect_anomalies, anomaly_models. cbn [foldl].
  rewrite (detect_anomaly_unfitted _ _ _ _ _ U1).
  rewrite (detect_anomaly_unfitted _ _ _ _ _ U2).
  rewrite (detect_anomaly_unfitted _ _ _ _ _ U3).
  reflexivity.
Qed.

(** ** The score *)

Section Score.
Context `{Runtime}.

Lemma behavioral_risk_le (transaction : TransactionData)
    (user : UserData) (context : ContextData) :
  _analyze_behavioral_patterns transaction user context <= 0.9.
Proof.
  unfold _analyze_behavioral_patterns.
  eapply Qle_trans; [apply py_min_le_l|].
  repeat match goal with
         | |- context [if ?b then _ else _] => destruct b
         end; lra.
Qed.

Lemma geographic_risk_le (transaction : TransactionData)
    (user : UserData) (device : DeviceInfo) :
  _analyze_geographic_risk transaction user device <= 0.9.
Proof.
  unfold _analyze_geographic_risk, add_if.
  eapply Qle_trans; [apply py_min_le_l|].
  repeat match goal with
         | |- context [if ?b then _ else _] => destruct b
         end; lra.
Qed.

(** X6.  While no outlier detector is fitted, as after [load_models] on
    an empty model storage, the three anomaly scores are 0 and the fraud
    score cannot exceed 0.785: the risk level is never CRITICAL, and a
    transaction is declined exactly when a rule is critical. *)
Theorem unfitted_detectors_cap_score
    (self : FraudDetectionService) (rng : RandomState) (clock : Clock)
    (transaction : TransactionData) (user : UserData)
    (device : DeviceInfo) (context : ContextData)
    (r : FraudDetectionResult) (self' : FraudDetectionService)
    (rng' : RandomState) :
  thresholds self = thresholds init ->
  beta_in_unit rng ->
  no_detector_fitted self ->
  analyze_transaction self rng clock transaction user device context
    = (Ok r, self', rng') ->
  fraud_score r <= 0.785
  /\ _score_to_risk_level (fraud_score r) <> CRITICAL
  /\ (decision r = DECLINE <-> forced_decline transaction user).
Proof.
  intros T B U E.
  destruct (FraudRules.analyze_transaction_fields _ _ _ _ _ _ _ _ _ _ E)
    as (features & ml & an & v & rng1 & _ & EM & EA & EV & ES & ED & _).
  pose proof (FraudState.run_ml_models_keeps self features rng) as K.
  rewrite EM in K. cbn [fst snd] in K.
  rewrite <- (FraudState.detect_anomalies_agree _ _ features rng1 K) in EA.
  rewrite (detect_anomalies_unfitted _ _ _ U) in EA.
  injection EA as <- _.
  pose proof (FraudScore.run_ml_models_unit self features rng B)
    as [Fml _].
  rewrite EM in Fml. cbn [fst] in Fml.
  assert (Cap : fraud_score r <= 0.785).
  { rewrite ES, FraudScore.calculate_ensemble_score_formula.
    unfold ensemble_formula.
    eapply Qle_trans; [apply Q.le_min_r|].
    destruct (FraudScore.mean_or_zero_unit _ Fml) as [_ Uml].
    pose proof (FraudScore.apply_fraud_rules_unit self transaction user
                  device context T) as Frules.
    apply (Forall_map rule_severity) in Frules.
    destruct (FraudScore.mean_or_zero_unit _ Frules) as [_ Urules].
    destruct (FraudScore.device_risk_unit device user) as [_ Udevice].
    destruct (FraudScore.velocity_risk_unit _ _ _ EV) as [_ Uvelocity].
    pose proof (behavioral_risk_le transaction user context).
    pose proof (geographic_risk_le transaction user device).
    assert (Zero : mean_or_zero
                     (dict_values
                        [("isolation_forest", 0); ("autoencoder", 0);
                         ("local_outlier", 0)]) == 0) by reflexivity.
    rewrite Zero. lra. }
  split; [exact Cap | split].
  - intro L. pose proof (FraudThresholds.risk_level_cases (fraud_score r))
      as D.
    rewrite L in D. lra.
  - rewrite ED.
    pose proof (FraudRules.critical_rules_iff self transaction user device
                  context T) as C.
    destruct (FraudThresholds.critical_dec
                (_apply_fraud_rules self transaction user device context))
      as [Y|N].
    + rewrite (FraudThresholds.decision_with_critical _ _ Y). tauto.
    + rewrite (FraudThresholds.decision_without_critical _ _ N).
      split; [|tauto].
      repeat case_cmp; try discriminate; lra.
Qed.

End Score.

End FraudLoaded.

(* ================================================================== *)
(** * Failures and explanations of the fraud analysis *)
(* ================================================================== *)

Module FraudOutcome.
Import Fraud Spec Conditions.

Section Failures.
Context `{Runtime}.

Lemma prepare_features_outcome (self : FraudDetectionService)
    (transaction : TransactionData) (user : UserData)
    (device : DeviceInfo) (context : ContextData) :
  match _prepare_transaction_features self transaction user device
          context with
  | Ok _ => ~ login_zone_mismatch transaction user
  | Raise e => e = TypeError /\ login_zone_mismatch transaction user
  end.
Proof.
  unfold _prepare_transaction_features, login_zone_mismatch.
  destruct (last_login_time user) as [login|].
  - unfold dt_diff_seconds.
    destruct (eqb (dt_aware (transaction_time transaction))
                  (dt_aware login)) eqn:Z.
    + rewrite !bind_Ok. apply eqb_prop in Z.
      intros (l & [= <-] & N). contradiction.
    + rewrite !bind_Raise. apply eqb_false_iff in Z. eauto.
  - rewrite bind_Ok. intros (l & L & _). discriminate.
Qed.

Lemma velocity_patterns_outcome (transaction : TransactionData)
    (user : UserData) :
  match _analyze_velocity_patterns transaction user with
  | Ok _ => ~ frequency_missing transaction user
  | Raise e => e = TypeError /\ frequency_missing transaction user
  end.
Proof.
  unfold _analyze_velocity_patterns, frequency_missing.
  destruct (truthy_float (daily_amount_total transaction)),
    (truthy_float (average_transaction_amount user));
    cbn [andb]; rewrite ?bind_Ok; try (intros (? & ? & ?); discriminate).
  destruct (transaction_frequency user) as [frequency|].
  - rewrite bind_Ok. intros (_ & _ & ?). discriminate.
  - rewrite bind_Raise. auto.
Qed.

(** X7.  [analyze_transaction] returns no result for two kinds of
    request: a last login and a transaction that differ in carrying a
    time zone, and a day's total and an average amount that come without
    [transaction_frequency].  The first is refused while the features are
    prepared, before a variate is drawn. *)
Theorem analyze_transaction_raises
    (self : FraudDetectionService) (rng : RandomState) (clock : Clock)
    (transaction : TransactionData) (user : UserData)
    (device : DeviceInfo) (context : ContextData) :
  login_zone_mismatch transaction user
  \/ frequency_missing transaction user ->
  is_ok (fst (fst (analyze_transaction self rng clock transaction user
                     device context))) = false
  /\ (login_zone_mismatch transaction user ->
      snd (analyze_transaction self rng clock transaction user device
             context) = rng).
Proof.
  intro Refused.
  pose proof (prepare_features_outcome self transaction user device
                context) as F.
  pose proof (velocity_patterns_outcome transaction user) as V.
  unfold analyze_transaction.
  destruct (_prepare_transaction_features self transaction user device
              context) as [features|e1].
  - destruct (_run_ml_models self features rng) as [[ml self1] rng1].
    destruct (_detect_anomalies self1 features rng1) as [an rng2].
    cbn [fst snd].
    destruct (_analyze_velocity_patterns transaction user) as [v|e2].
    + tauto.
    + rewrite bind_Raise. cbn [is_ok]. split; [reflexivity | tauto].
  - cbn [fst snd is_ok]. split; reflexivity.
Qed.

End Failures.

(** ** The indicators *)

Lemma elem_of_append_if {A} (cond : bool) (x y : A) (l : list A) :
  x ∈ append_if cond y l <-> x ∈ l \/ (cond = true /\ x = y).
Proof.
  unfold append_if. destruct cond.
  - rewrite elem_of_app, list_elem_of_singleton. intuition congruence.
  - intuition congruence.
Qed.

Lemma length_append_if {A} (cond : bool) (y : A) (l : list A) :
  (length (append_if cond y l) <= S (length l))%nat.
Proof.
  unfold append_if. destruct cond; [|lia].
  rewrite length_app. simpl. lia.
Qed.

Lemma elem_of_concat_map {A B} (f : A -> list B) (l : list A) (y : B) :
  y ∈ concat (map f l) <-> exists x, x ∈ l /\ y ∈ f x.
Proof.
  induction l as [|a l IH]; simpl.
  - split; [intro I; inversion I | intros (x & I & _); inversion I].
  - rewrite elem_of_app, IH. split.
    + intros [I|(x & I & J)].
      * exists a. split; [apply list_elem_of_here | exact I].
      * exists x. split; [apply list_elem_of_further, I | exact J].
    + intros (x & [->|I]%elem_of_cons & J); eauto.
Qed.

Lemma ml_indicator_cases (entry : string * Q) (i : FraudIndicator) :
  i ∈ ml_indicator entry ->
  indicator_type i = "ml_" +:+ fst entry
  /\ 0.5 < severity i /\ confidence i = 0.7.
Proof.
  destruct entry as [model_name score]. unfold ml_indicator.
  destruct (Qgtb score 0.5) eqn:G.
  - apply Qgtb_gt in G. intros ->%list_elem_of_singleton. auto.
  - intros I. inversion I.
Qed.

Lemma anomaly_indicator_cases (entry : string * Q) (i : FraudIndicator) :
  i ∈ anomaly_indicator entry ->
  indicator_type i = "anomaly_" +:+ fst entry
  /\ 0.5 < severity i /\ confidence i = 0.6.
Proof.
  destruct entry as [model_name score]. unfold anomaly_indicator.
  destruct (Qgtb score 0.6) eqn:G.
  - apply Qgtb_gt in G. intros ->%list_elem_of_singleton.
    cbn [indicator_type severity confidence fst].
    split; [reflexivity | split; [lra | reflexivity]].
  - intros I. inversion I.
Qed.

(** Where an indicator of the list comes from. *)
Lemma generated_indicator_cases
    (rule_indicators : list RuleIndicator)
    (ml_scores anomaly_scores : list (string * Q))
    (device_risk behavioral_risk velocity_risk geographic_risk : Q)
    (i : FraudIndicator) :
  i ∈ _generate_fraud_indicators rule_indicators ml_scores anomaly_scores
        device_risk behavioral_risk velocity_risk geographic_risk
  <-> (exists rule, rule ∈ rule_indicators /\ i = rule_to_indicator rule)
      \/ (exists entry, entry ∈ ml_scores /\ i ∈ ml_indicator entry)
      \/ (exists entry,
            entry ∈ anomaly_scores /\ i ∈ anomaly_indicator entry)
      \/ (0.5 < device_risk
          /\ i = {| indicator_type := "device_risk";
                    description := "High device risk detected";
                    severity := device_risk;
                    confidence := 0.8;
                    contributing_factors := ["device_analysis"] |})
      \/ (0.5 < behavioral_risk
          /\ i = {| indicator_type := "behavioral_risk";
                    description := "Unusual behavioral patterns detected";
                    severity := behavioral_risk;
                    confidence := 0.7;
                    contributing_factors := ["behavioral_analysis"] |}).
Proof.
  unfold _generate_fraud_indicators.
  rewrite (FraudIndicators.sort_by_severity_perm _).
  rewrite !elem_of_append_if, !elem_of_app, !Qgtb_gt.
  rewrite list_elem_of_fmap, !elem_of_concat_map.
  split.
  - intros [[[[(rule & -> & R)|M]|A]|D]|B]; eauto 8.
  - intros [(rule & R & ->)|[M|[A|[D|B]]]]; eauto 8.
Qed.

Lemma length_concat_le {A B} (f : A -> list B) (l : list A) :
  (forall x, length (f x) <= 1)%nat ->
  (length (concat (map f l)) <= length l)%nat.
Proof.
  intro L. induction l as [|x l IH]; simpl; [lia|].
  rewrite length_app. specialize (L x). lia.
Qed.

Section Indicators.
Context `{Runtime}.

Lemma apply_fraud_rules_length (self : FraudDetectionService)
    (transaction : TransactionData) (user : UserData)
    (device : DeviceInfo) (context : ContextData) :
  (length (_apply_fraud_rules self transaction user device context)
   <= 8)%nat.
Proof.
  unfold _apply_fraud_rules.
  repeat (eapply Nat.le_trans;
          [apply length_append_if | apply le_n_S]).
  simpl. lia.
Qed.

(** X8.  The indicators of a result: every rule that fired is reported,
    with its severity; every other indicator has a severity above 0.5 and
    a confidence below the 0.9 of a rule; and there are at most 16. *)
Theorem indicators_report_rules
    (self : FraudDetectionService) (rng : RandomState) (clock : Clock)
    (transaction : TransactionData) (user : UserData)
    (device : DeviceInfo) (context : ContextData)
    (r : FraudDetectionResult) (self' : FraudDetectionService)
    (rng' : RandomState) :
  analyze_transaction self rng clock transaction user device context
    = (Ok r, self', rng') ->
  (forall rule,
     rule ∈ _apply_fraud_rules self transaction user device context ->
     rule_to_indicator rule ∈ indicators r)
  /\ (forall i, i ∈ indicators r ->
        (exists rule,
           rule ∈ _apply_fraud_rules self transaction user device context
           /\ i = rule_to_indicator rule)
        \/ (0.5 < severity i /\ confidence i < 0.9))
  /\ (length (indicators r) <= 16)%nat.
Proof.
  intro E.
  destruct (FraudRules.analyze_transaction_fields _ _ _ _ _ _ _ _ _ _ E)
    as (features & ml & an & v & rng1 & _ & EM & EA & _ & _ & _ & EI & _).
  split; [|split].
  - intros rule R. rewrite EI. apply generated_indicator_cases. eauto.
  - intros i I. rewrite EI in I.
    apply generated_indicator_cases
      in I as [R|[(e & _ & M)|[(e & _ & A)|[[D ->]|[B ->]]]]].
    + left. exact R.
    + right. apply ml_indicator_cases in M as (_ & S & ->).
      split; [exact S | lra].
    + right. apply anomaly_indicator_cases in A as (_ & S & ->).
      split; [exact S | lra].
    + right. cbn [severity confidence]. split; [exact D | lra].
    + right. cbn [severity confidence]. split; [exact B | lra].
  - rewrite EI. unfold _generate_fraud_indicators.
    rewrite (Permutation_length (FraudIndicators.sort_by_severity_perm _)).
    pose proof (FraudLoops.run_ml_models_three self features rng) as Lml.
    pose proof (FraudLoops.detect_anomalies_three self' features rng1)
      as Lan.
    rewrite EM in Lml. rewrite EA in Lan. cbn [fst] in Lml, Lan.
    unfold dict_values in Lml, Lan. rewrite length_map in Lml, Lan.
    pose proof (apply_fraud_rules_length self transaction user device
                  context) as Lrules.
    assert (Lm : (length (concat (map ml_indicator ml)) <= 3)%nat).
    { rewrite <- Lml. apply length_concat_le. intros [n s].
      unfold ml_indicator. destruct (Qgtb s 0.5); simpl; lia. }
    assert (La : (length (concat (map anomaly_indicator an)) <= 3)%nat).
    { rewrite <- Lan. apply length_concat_le. intros [n s].
      unfold anomaly_indicator. destruct (Qgtb s 0.6); simpl; lia. }
    eapply Nat.le_trans; [apply length_append_if|].
    apply le_n_S.
    eapply Nat.le_trans; [apply length_append_if|].
    apply le_n_S.
    rewrite !length_app, length_map. lia.
Qed.

End Indicators.

End FraudOutcome.

(* ================================================================== *)
(** * The advice of the fraud analysis *)
(* ================================================================== *)

Module FraudAdvice.
Import Fraud Spec Conditions.

Lemma elem_of_map_append_if {A B} (f : A -> B) (cond : bool) (x : B)
    (y : A) (l : list A) :
  x ∈ map f (append_if cond y l)
  <-> x ∈ map f l \/ (cond = true /\ x = f y).
Proof.
  unfold append_if. destruct cond.
  - rewrite map_app, elem_of_app. simpl. rewrite list_elem_of_singleton.
    intuition congruence.
  - intuition congruence.
Qed.

Lemma remove_dups_length_le {A} `{EqDecision A} (l : list A) :
  (length (remove_dups l) <= length l)%nat.
Proof.
  induction l as [|x l IH]; simpl; [lia|].
  case_decide; simpl; lia.
Qed.

(** The four types that [_generate_recommendations] looks for are
    types of rule indicators only. *)
Lemma advice_type_from_rule (t : string)
    (rule_indicators : list RuleIndicator)
    (ml_scores anomaly_scores : list (string * Q))
    (device_risk behavioral_risk velocity_risk geographic_risk : Q) :
  t ∈ ["high_amount"; "velocity_abuse"; "proxy_usage"; "new_account"] ->
  t ∈ map indicator_type
        (_generate_fraud_indicators rule_indicators ml_scores
           anomaly_scores device_risk behavioral_risk velocity_risk
           geographic_risk)
  <-> t ∈ map rule_type rule_indicators.
Proof.
  intro T. rewrite !list_elem_of_fmap. split.
  - intros (i & -> & I).
    apply FraudOutcome.generated_indicator_cases
      in I as [(rule & R & ->)|[(e & _ & M)|[(e & _ & A)|[[_ ->]|[_ ->]]]]].
    + exists rule. auto.
    + apply FraudOutcome.ml_indicator_cases in M as (E & _).
      exfalso. revert T. rewrite E, !elem_of_cons, elem_of_nil.
      cbn [String.append]. intuition discriminate.
    + apply FraudOutcome.anomaly_indicator_cases in A as (E & _).
      exfalso. revert T. rewrite E, !elem_of_cons, elem_of_nil.
      cbn [String.append]. intuition discriminate.
    + exfalso. revert T. rewrite !elem_of_cons, elem_of_nil.
      cbn [indicator_type]. intuition discriminate.
    + exfalso. revert T. rewrite !elem_of_cons, elem_of_nil.
      cbn [indicator_type]. intuition discriminate.
  - intros (rule & -> & R). exists (rule_to_indicator rule).
    split; [reflexivity|].
    apply FraudOutcome.generated_indicator_cases. eauto.
Qed.

Section Advice.
Context `{Runtime}.

(** With the thresholds of [__init__], when each of the four rules
    fires. *)
Lemma advised_rules_fire (self : FraudDetectionService)
    (transaction : TransactionData) (user : UserData)
    (device : DeviceInfo) (context : ContextData) :
  thresholds self = thresholds init ->
  let types :=
    map rule_type
      (_apply_fraud_rules self transaction user device context) in
  ("high_amount" ∈ types <-> 10000 < amount transaction)
  /\ ("velocity_abuse" ∈ types
      <-> (10 < int_or_0 (hourly_transaction_count transaction))%Z)
  /\ ("proxy_usage" ∈ types <-> is_proxy device = Some true)
  /\ ("new_account" ∈ types <-> (account_age_days user < 1)%Z).
Proof.
  intro T. cbn zeta. unfold _apply_fraud_rules. rewrite T.
  cbn [high_amount velocity_transactions thresholds init].
  rewrite !elem_of_map_append_if. cbn [map rule_type].
  rewrite !elem_of_nil, Qgtb_gt, andb_true_iff, !Z.ltb_lt.
  assert (P : truthy_bool (is_proxy device) = true
              <-> is_proxy device = Some true).
  { destruct (is_proxy device) as [[|]|]; simpl; intuition congruence. }
  assert (V : truthy_int (hourly_transaction_count transaction) = true
              /\ (10 < int_or_0 (hourly_transaction_count transaction))%Z
              <-> (10 < int_or_0 (hourly_transaction_count transaction))%Z).
  { unfold truthy_int.
    destruct (hourly_transaction_count transaction) as [n|]; simpl.
    - rewrite negb_true_iff, Z.eqb_neq. lia.
    - intuition (try discriminate; lia). }
  rewrite P, V.
  repeat split; intuition (try discriminate; auto).
Qed.

(** X9.  The advice of a result has no duplicates and at most eight
    entries; a declined transaction comes with the advice to block it;
    and each of the four pieces of advice on limits, velocity controls,
    proxies and new accounts is given exactly when its rule fired,
    whatever the decision. *)
Theorem recommendations_follow_rules
    (self : FraudDetectionService) (rng : RandomState) (clock : Clock)
    (transaction : TransactionData) (user : UserData)
    (device : DeviceInfo) (context : ContextData)
    (r : FraudDetectionResult) (self' : FraudDetectionService)
    (rng' : RandomState) :
  thresholds self = thresholds init ->
  analyze_transaction self rng clock transaction user device context
    = (Ok r, self', rng') ->
  NoDup (recommendations r)
  /\ (length (recommendations r) <= 8)%nat
  /\ (decision r = DECLINE ->
      "Block transaction immediately" ∈ recommendations r)
  /\ (decision r = APPROVE -> (length (recommendations r) <= 4)%nat)
  /\ ("Consider implementing daily/monthly spending limits"
        ∈ recommendations r
      <-> 10000 < amount transaction)
  /\ ("Implement velocity controls and cooling-off periods"
        ∈ recommendations r
      <-> (10 < int_or_0 (hourly_transaction_count transaction))%Z)
  /\ ("Block transactions from known proxy/VPN services"
        ∈ recommendations r
      <-> is_proxy device = Some true)
  /\ ("Require additional verification for new accounts"
        ∈ recommendations r
      <-> (account_age_days user < 1)%Z).
Proof.
  intros T E.
  destruct (FraudRules.analyze_transaction_fields _ _ _ _ _ _ _ _ _ _ E)
    as (features & ml & an & v & rng1 & _ & _ & _ & _ & _ & _ & EI & ER).
  destruct (advised_rules_fire self transaction user device context T)
    as (R1 & R2 & R3 & R4).
  set (rules := _apply_fraud_rules self transaction user device context)
    in *.
  assert (Type_of : forall t,
            t ∈ ["high_amount"; "velocity_abuse"; "proxy_usage";
                 "new_account"] ->
            bool_decide (t ∈ map indicator_type (indicators r)) = true
            <-> t ∈ map rule_type rules).
  { intros t I. rewrite bool_decide_eq_true, EI.
    apply advice_type_from_rule, I. }
  assert (M1 : "high_amount" ∈ ["high_amount"; "velocity_abuse";
                                "proxy_usage"; "new_account"])
    by (rewrite !elem_of_cons; auto).
  assert (M2 : "velocity_abuse" ∈ ["high_amount"; "velocity_abuse";
                                   "proxy_usage"; "new_account"])
    by (rewrite !elem_of_cons; auto).
  assert (M3 : "proxy_usage" ∈ ["high_amount"; "velocity_abuse";
                                "proxy_usage"; "new_account"])
    by (rewrite !elem_of_cons; auto).
  assert (M4 : "new_account" ∈ ["high_amount"; "velocity_abuse";
                                "proxy_usage"; "new_account"])
    by (rewrite !elem_of_cons; auto).
  apply Type_of in M1, M2, M3, M4.
  rewrite ER. unfold _generate_recommendations.
  set (base := match decision r with
               | APPROVE => []
               | DECLINE => _
               | REVIEW => _
               | CHALLENGE => _
               end).
  assert (Lbase : (length base <= 4)%nat)
    by (subst base; destruct (decision r); simpl; lia).
  split; [apply NoDup_remove_dups|].
  split.
  { eapply Nat.le_trans; [apply remove_dups_length_le|].
    repeat (eapply Nat.le_trans;
            [apply FraudOutcome.length_append_if | apply le_n_S]).
    exact Lbase. }
  rewrite !elem_of_remove_dups, !FraudOutcome.elem_of_append_if.
  rewrite M1, M2, M3, M4, R1, R2, R3, R4.
  split.
  { intro D. subst base. rewrite D. do 4 left. apply list_elem_of_here. }
  split.
  { intro D. eapply Nat.le_trans; [apply remove_dups_length_le|].
    subst base. rewrite D.
    repeat (eapply Nat.le_trans;
            [apply FraudOutcome.length_append_if | apply le_n_S]).
    simpl. lia. }
  assert (B : forall s,
            s ∈ ["Consider implementing daily/monthly spending limits";
                 "Implement velocity controls and cooling-off periods";
                 "Block transactions from known proxy/VPN services";
                 "Require additional verification for new accounts"] ->
            ~ s ∈ base).
  { intros s. subst base. rewrite !elem_of_cons, elem_of_nil.
    destruct (decision r); rewrite ?elem_of_cons, ?elem_of_nil;
      intuition (subst; discriminate). }
  repeat split;
    (intros [[[[I|[C I]]|[C I]]|[C I]]|[C I]];
     try discriminate; try assumption;
     exfalso; eapply B; [|exact I]; rewrite !elem_of_cons; auto 6)
    || (intro; auto 10).
Qed.

End Advice.

End FraudAdvice.

(* ================================================================== *)
(** * The entries of a bulk dictionary *)
(* ================================================================== *)

Module BulkEntries.
Import Bulk Spec.

Section Loop.
Context {Req Res Resp World : Type}.
Variable call : Req -> World -> result Res * World.
Variable key : Req -> string.
Variable build : string -> Res -> result Resp.

(** The result that [last_success] finds is the result of a request
    with that key. *)
Lemma last_success_source (k : string) (l : list Req) :
  forall (rs : list (result Res)) (res : Res),
    last_success key k l rs = Some res ->
    exists (i : nat) (request : Req),
      l !! i = Some request /\ key request = k /\ rs !! i = Some (Ok res).
Proof.
  induction l as [|request l IH]; intros rs res; [discriminate|].
  destruct rs as [|r rs]; [discriminate|]. simpl.
  destruct (last_success key k l rs) as [found|] eqn:L.
  - intros [= <-]. destruct (IH rs found L) as (i & q & ? & ? & ?).
    exists (S i), q. auto.
  - destruct r as [own|e]; [|discriminate].
    destruct (String.eqb (key request) k) eqn:K; [|discriminate].
    intros [= <-]. apply String.eqb_eq in K.
    exists 0%nat, request. auto.
Qed.

(** Every entry of the dictionary of a bulk operation was built from
    the result of a request with its key. *)
Lemma bulk_entry_source (batch_size : nat) (requests : list Req)
    (w w' : World) (dict : gmap string Resp) (k : string)
    (response : Resp) :
  (0 < batch_size)%nat ->
  bulk call key build batch_size requests w = (Ok dict, w') ->
  dict !! k = Some response ->
  exists (i : nat) (request : Req) (res : Res),
    requests !! i = Some request /\ key request = k
    /\ outcomes call requests w !! i = Some (Ok res)
    /\ build k res = Ok response.
Proof.
  intros P E D.
  destruct (BulkFacts.bulk_answers call key build batch_size P requests
              w w' dict E) as [[_ A] _].
  specialize (A k).
  destruct (last_success key k requests (outcomes call requests w))
    as [res|] eqn:L.
  - destruct A as (response' & B & D').
    rewrite D in D'. injection D' as <-.
    destruct (last_success_source _ _ _ _ L) as (i & request & ? & ? & ?).
    exists i, request, res. auto.
  - congruence.
Qed.

(** What holds of the outcome of every call, whatever the state it is
    made in, holds of every outcome of the calls in sequence. *)
Lemma outcomes_pointwise (P : Req -> result Res -> Prop) :
  (forall request w, P request (fst (call request w))) ->
  forall (l : list Req) (w : World) (i : nat) (request : Req),
    l !! i = Some request ->
    exists r, outcomes call l w !! i = Some r /\ P request r.
Proof.
  intros Call l. unfold outcomes.
  induction l as [|q l IH]; intros w i request L; [discriminate|].
  simpl. pose proof (Call q w) as C.
  destruct (call q w) as [r w1].
  specialize (IH w1).
  destruct (gather call l w1) as [rs w2]. cbn [fst] in *.
  destruct i as [|i]; simpl in *.
  - injection L as <-. eauto.
  - apply IH, L.
Qed.

(** The dictionary of a bulk operation is the one that processing the
    requests one by one gives: it is the same for every positive batch
    size. *)
Lemma bulk_batch_size (b1 b2 : nat) (requests : list Req) (w : World) :
  (0 < b1)%nat -> (0 < b2)%nat ->
  fst (bulk call key build b1 requests w)
  = fst (bulk call key build b2 requests w).
Proof.
  intros P1 P2.
  rewrite (BulkFacts.bulk_sequential call key build b1 P1).
  rewrite (BulkFacts.bulk_sequential call key build b2 P2).
  reflexivity.
Qed.

End Loop.

Section Operations.
Context `{Runtime}.

(** X10.  The batch sizes 20 and 10 of the two bulk operations cannot be
    observed in the dictionaries they return: any other positive batch
    size gives the same one, and so does handling the requests one at a
    time; no request gives an empty dictionary. *)
Theorem bulk_batch_size_unobservable
    (self : Fraud.FraudDetectionService) (rng : RandomState)
    (transactions : list Fraud.TransactionRequest)
    (settings : Price.Settings) (optimizer : Price.PriceOptimizerService)
    (products : list Price.ProductRequest)
    (constraints : option Price.PricingConstraints) (batch_size : nat) :
  (0 < batch_size)%nat ->
  fst (Fraud.bulk_analyze_transactions self rng transactions)
  = fst (bulk Fraud.analysis_task transaction_key Fraud.make_response
           batch_size transactions (self, rng))
  /\ fst (Price.bulk_optimize_prices settings optimizer products
            constraints)
     = fst (bulk (Price.optimization_task settings constraints)
              product_key keep_response batch_size products optimizer)
  /\ fst (Fraud.bulk_analyze_transactions self rng []) = Ok ∅
  /\ fst (Price.bulk_optimize_prices settings optimizer [] constraints)
     = Ok ∅.
Proof.
  intro P.
  unfold Fraud.bulk_analyze_transactions, Price.bulk_optimize_prices.
  split; [|split; [|split]].
  - apply bulk_batch_size; [lia | exact P].
  - apply (bulk_batch_size _ product_key keep_response); [lia | exact P].
  - reflexivity.
  - reflexivity.
Qed.

(** X11.  Every response of the dictionary of [bulk_analyze_transactions]
    carries the identifier it is stored under and the risk level of its
    own score, and its decision agrees with that level: a CRITICAL level
    comes with DECLINE, REVIEW with HIGH, CHALLENGE with MEDIUM, and
    APPROVE with LOW or MEDIUM. *)
Theorem bulk_responses_consistent
    (self : Fraud.FraudDetectionService) (rng : RandomState)
    (transactions : list Fraud.TransactionRequest)
    (dict : gmap string Fraud.TransactionAnalysisResponse)
    (w' : Fraud.FraudDetectionService * RandomState)
    (k : string) (response : Fraud.TransactionAnalysisResponse) :
  Fraud.bulk_analyze_transactions self rng transactions = (Ok dict, w') ->
  dict !! k = Some response ->
  Fraud.resp_transaction_id response = k
  /\ unit_interval (Fraud.resp_fraud_score response)
  /\ Fraud.resp_risk_level response
     = Fraud._score_to_risk_level (Fraud.resp_fraud_score response)
  /\ (Fraud.resp_risk_level response = Fraud.CRITICAL ->
      Fraud.resp_decision response = Fraud.DECLINE)
  /\ (Fraud.resp_decision response = Fraud.REVIEW ->
      Fraud.resp_risk_level response = Fraud.HIGH)
  /\ (Fraud.resp_decision response = Fraud.CHALLENGE ->
      Fraud.resp_risk_level response = Fraud.MEDIUM)
  /\ (Fraud.resp_decision response = Fraud.APPROVE ->
      Fraud.resp_risk_level response = Fraud.LOW
      \/ Fraud.resp_risk_level response = Fraud.MEDIUM).
Proof.
  intros E D. unfold Fraud.bulk_analyze_transactions in E.
  destruct (bulk_entry_source _ _ _ 20 _ _ _ _ _ _ ltac:(lia) E D)
    as (i & request & res & L & K & O & B).
  assert (Decided :
            exists rules,
              Fraud.decision res
              = Fraud._make_fraud_decision (Fraud.fraud_score res) rules).
  { destruct (outcomes_pointwise Fraud.analysis_task
                (fun request r =>
                   forall res, r = Ok res ->
                     exists rules,
                       Fraud.decision res
                       = Fraud._make_fraud_decision
                           (Fraud.fraud_score res) rules))
      with (l := transactions) (w := (self, rng)) (i := i)
           (request := request) as (r & O' & G); [|exact L|].
    - intros q [s g] res0. unfold Fraud.analysis_task. cbn [fst snd].
      destruct (Fraud.analyze_transaction s g (Fraud.req_clock q)
                  (Fraud.req_transaction q) (Fraud.req_user q)
                  (Fraud.req_device q) (Fraud.req_context q))
        as [[r0 s'] g'] eqn:A.
      cbn [fst]. intros ->.
      destruct (FraudRules.analyze_transaction_fields _ _ _ _ _ _ _ _ _ _ A)
        as (_ & _ & _ & _ & _ & _ & _ & _ & _ & _ & Dc & _).
      eauto.
    - rewrite O in O'. injection O' as <-. apply G. reflexivity. }
  destruct Decided as [rules Dc].
  unfold Fraud.make_response in B.
  destruct (Fraud.validate_score_range (Fraud.fraud_score res))
    as [score|e] eqn:V1; [|discriminate].
  destruct (Fraud.validate_score_range (Fraud.confidence_score res))
    as [conf|e] eqn:V2; [|discriminate].
  rewrite !bind_Ok in B. injection B as <-.
  cbn [Fraud.resp_transaction_id Fraud.resp_fraud_score
       Fraud.resp_risk_level Fraud.resp_decision].
  unfold Fraud.validate_score_range in V1.
  destruct (Qle_bool 0 (Fraud.fraud_score res)
            && Qle_bool (Fraud.fraud_score res) 1) eqn:U;
    [|discriminate].
  injection V1 as <-.
  apply andb_true_iff in U as [U0 U1]. apply Qle_bool_iff in U0, U1.
  pose proof (FraudThresholds.risk_level_cases (Fraud.fraud_score res))
    as Level.
  split; [reflexivity|]. split; [split; assumption|].
  split; [reflexivity|].
  rewrite Dc.
  destruct (FraudThresholds.critical_dec rules) as [C|N].
  - rewrite (FraudThresholds.decision_with_critical _ _ C).
    repeat split; intro; try discriminate; reflexivity.
  - rewrite (FraudThresholds.decision_without_critical _ _ N).
    unfold Fraud._score_to_risk_level in *.
    repeat case_cmp; repeat split; intro; try discriminate;
      try reflexivity; try lra; auto.
Qed.

End Operations.

End BulkEntries.

(* ================================================================== *)
(** * The fields of a price response *)
(* ================================================================== *)

Module PriceResponse.
Import Price Spec Conditions PriceFacts.

(** ** Rounding *)

Lemma Qltb_comp (x x' y y' : Q) :
  x == x' -> y == y' -> Qltb x y = Qltb x' y'.
Proof.
  intros Ex Ey. unfold Qltb. f_equal.
  destruct (Qle_bool y x) eqn:A, (Qle_bool y' x') eqn:B; try reflexivity.
  - apply Qle_bool_iff in A. rewrite Ex, Ey in A.
    apply Qle_bool_iff in A. congruence.
  - apply Qle_bool_iff in B. rewrite <- Ex, <- Ey in B.
    apply Qle_bool_iff in B. congruence.
Qed.

Lemma round_half_even_comp (x y : Q) :
  x == y -> round_half_even x = round_half_even y.
Proof.
  intro E. unfold round_half_even.
  rewrite (Qfloor_comp _ _ E).
  assert (R : x - inject_Z (Qfloor y) == y - inject_Z (Qfloor y))
    by (rewrite E; reflexivity).
  rewrite (Qltb_comp _ _ _ _ R (Qeq_refl (1 # 2))).
  rewrite (Qltb_comp _ _ _ _ (Qeq_refl (1 # 2)) R).
  reflexivity.
Qed.

Lemma py_round2_comp (x y : Q) : x == y -> py_round2 x = py_round2 y.
Proof.
  intro E. unfold py_round2.
  rewrite (round_half_even_comp (x * 100) (y * 100)); [reflexivity|].
  rewrite E. reflexivity.
Qed.

Lemma round_half_even_integer (z : Z) : round_half_even (inject_Z z) = z.
Proof.
  unfold round_half_even. rewrite Qfloor_Z.
  assert (R : inject_Z z - inject_Z z == 0) by ring.
  rewrite (Qltb_comp _ _ _ _ R (Qeq_refl (1 # 2))). reflexivity.
Qed.

(** Rounding to cents a second time changes nothing. *)
Lemma py_round2_idempotent (x : Q) : py_round2 (py_round2 x) = py_round2 x.
Proof.
  unfold py_round2 at 1 3.
  set (z := round_half_even (x * 100)).
  rewrite (round_half_even_comp (py_round2 x * 100) (inject_Z z)).
  - rewrite round_half_even_integer. reflexivity.
  - unfold py_round2. fold z. field.
Qed.

Section Optimizer.
Context `{Runtime}.
Variable settings : Settings.

(** ** A response, field by field *)

Lemma optimize_response_fields (self : PriceOptimizerService)
    (clock : Clock) (product_id : string) (current_price cost : Q)
    (inventory_level : Z) (competitor_prices : list (gmap string Q))
    (demand_data : option (gmap string (list Q)))
    (constraints : option PricingConstraints)
    (r : PriceOptimizationResponse) :
  fst (optimize_product_price settings self clock product_id
         current_price cost inventory_level competitor_prices
         demand_data constraints) = Ok r ->
  let features :=
    _prepare_features (utcnow_features clock) current_price cost
      inventory_level competitor_prices demand_data in
  let predictions := fst (_get_ensemble_prediction self features) in
  ~ current_price == 0
  /\ _apply_business_rules settings predictions current_price cost
       constraints = Ok (recommended_price r)
  /\ resp_product_id r = product_id
  /\ resp_current_price r = current_price
  /\ price_change r = recommended_price r - current_price
  /\ price_change_percent r
     = (recommended_price r - current_price) / current_price * 100
  /\ expected_demand_change r = -1.2 * price_change_percent r
  /\ expected_revenue_change r
     = price_change_percent r + expected_demand_change r
  /\ expected_profit_change r = expected_revenue_change r * (1 + 0.25)
  /\ confidence_score r
     = _calculate_confidence_score predictions demand_data
  /\ (primary_reason r, secondary_reasons r)
     = _analyze_price_change_reasons current_price (recommended_price r)
         competitor_prices
  /\ market_position r
     = _determine_market_position (recommended_price r) competitor_prices
  /\ _assess_risks current_price (recommended_price r)
     = Ok (risk_factors r)
  /\ data_quality_score r = _assess_data_quality features demand_data.
Proof.
  unfold optimize_product_price. cbn zeta.
  set (features := _prepare_features _ _ _ _ _ _).
  destruct (_get_ensemble_prediction self features)
    as [predictions self'].
  cbn [fst].
  destruct (_apply_business_rules settings predictions current_price cost
              constraints) as [optimized_price|e]; [|discriminate].
  rewrite bind_Ok.
  unfold _calculate_impact, _assess_risks, py_div.
  destruct (Qeq_bool current_price 0) eqn:Z; [discriminate|].
  apply Qeq_bool_neq in Z. rewrite !bind_Ok.
  destruct (_analyze_price_change_reasons current_price optimized_price
              competitor_prices) as [primary secondary] eqn:Reasons.
  rewrite !bind_Ok.
  unfold validate_score_range.
  destruct (Qle_bool 0 (_calculate_confidence_score predictions demand_data)
            && Qle_bool (_calculate_confidence_score predictions
                           demand_data) 1); [|discriminate].
  rewrite bind_Ok.
  destruct (Qle_bool 0 (_assess_data_quality features demand_data)
            && Qle_bool (_assess_data_quality features demand_data) 1);
    [|discriminate].
  rewrite bind_Ok. intros [= <-].
  cbn [recommended_price resp_product_id resp_current_price price_change
       price_change_percent expected_demand_change
       expected_revenue_change expected_profit_change confidence_score
       primary_reason secondary_reasons market_position risk_factors
       data_quality_score demand_change revenue_change profit_change].
  repeat split; try reflexivity; [exact Z | symmetry; exact Reasons].
Qed.

(** ** The expected changes *)

(** X12.  The three expected changes of a response are fixed multiples of
    the price change in percent: -1.2 for the demand, -0.2 for the
    revenue, -0.25 for the profit.  A response that raises the price
    expects revenue and profit to fall, and one that lowers it expects
    them to rise. *)
Theorem expected_changes_proportional (self : PriceOptimizerService)
    (clock : Clock) (product_id : string) (current_price cost : Q)
    (inventory_level : Z) (competitor_prices : list (gmap string Q))
    (demand_data : option (gmap string (list Q)))
    (constraints : option PricingConstraints)
    (r : PriceOptimizationResponse) :
  fst (optimize_product_price settings self clock product_id
         current_price cost inventory_level competitor_prices
         demand_data constraints) = Ok r ->
  price_change_percent r == price_change r / current_price * 100
  /\ expected_demand_change r == -1.2 * price_change_percent r
  /\ expected_revenue_change r == -0.2 * price_change_percent r
  /\ expected_profit_change r == -0.25 * price_change_percent r
  /\ (0 < current_price ->
      (current_price < recommended_price r ->
       expected_revenue_change r < 0 /\ expected_profit_change r < 0)
      /\ (recommended_price r < current_price ->
          0 < expected_revenue_change r /\ 0 < expected_profit_change r)
      /\ (recommended_price r == current_price ->
          expected_revenue_change r == 0
          /\ expected_profit_change r == 0)).
Proof.
  intro E.
  destruct (optimize_response_fields _ _ _ _ _ _ _ _ _ _ E)
    as (N & _ & _ & _ & EC & EP & ED & ER & EF & _).
  rewrite EF, ER, ED, EC.
  set (pcp := price_change_percent r) in *.
  split; [rewrite EP; reflexivity|].
  split; [reflexivity|].
  split; [ring|].
  split; [ring|].
  intro P.
  assert (Sign : pcp * current_price
                 == (recommended_price r - current_price) * 100)
    by (rewrite EP; field; exact N).
  split; [|split].
  - intro L.
    assert (0 < pcp).
    { apply (Qmult_lt_r _ _ current_price P). rewrite Sign. lra. }
    split; lra.
  - intro L.
    assert (pcp < 0).
    { apply (Qmult_lt_r _ _ current_price P). rewrite Sign. lra. }
    split; lra.
  - intro Q.
    assert (pcp == 0).
    { apply (Qmult_inj_r _ _ current_price N). rewrite Sign, Q. ring. }
    split; lra.
Qed.

End Optimizer.

End PriceResponse.

(* ================================================================== *)
(** * The business rules under a constraints object *)
(* ================================================================== *)

Module PriceRules.
Import Price Spec Conditions PriceFacts.

Section Rules.
Context `{Runtime}.
Variable settings : Settings.

(** The rules with predictions that carry weight: the clamped weighted
    price goes through the user constraints and is rounded. *)
Lemma apply_business_rules_weighted (predictions : list ModelPrediction)
    (current_price cost : Q) (constraints : option PricingConstraints) :
  predictions <> [] -> ~ py_sum (map confidence predictions) == 0 ->
  exists weighted_price,
    _apply_business_rules settings predictions current_price cost
      constraints
    = (optimized_price ←
         match constraints with
         | Some c =>
             apply_user_constraints c cost
               (clamp settings current_price cost weighted_price)
         | None => Ok (clamp settings current_price cost weighted_price)
         end;
       Ok (py_round2 optimized_price)).
Proof.
  intros N W. unfold _apply_business_rules.
  destruct predictions as [|p ps]; [congruence|].
  destruct (Qeq_bool _ 0) eqn:Z; [apply Qeq_bool_iff in Z; tauto|].
  eexists. reflexivity.
Qed.

(** The user constraints raise for a minimum margin of 1. *)
Lemma apply_user_constraints_margin (c : PricingConstraints)
    (cost optimized_price m : Q) :
  min_margin c = Some m -> m == 1 ->
  apply_user_constraints c cost optimized_price = Raise ZeroDivisionError.
Proof.
  intros M E.
  unfold apply_user_constraints, truthy_float, float_or_0, py_div.
  rewrite M. simpl.
  destruct (Qeq_bool m 0) eqn:Z0; [apply Qeq_bool_iff in Z0; lra|].
  simpl.
  destruct (Qeq_bool (1 - m) 0) eqn:Z1; [reflexivity|].
  apply Qeq_bool_neq in Z1. lra.
Qed.

(** X13.  When some prediction carries weight and the constraints ask for
    a minimum margin of 1, [_apply_business_rules] raises
    [ZeroDivisionError]: [cost / (1 - min_margin)] divides by zero,
    whatever the cost, the predictions and the other constraints are. *)
Theorem margin_of_one_raises (predictions : list ModelPrediction)
    (current_price cost : Q) (c : PricingConstraints) (m : Q) :
  predictions <> [] -> ~ py_sum (map confidence predictions) == 0 ->
  min_margin c = Some m -> m == 1 ->
  _apply_business_rules settings predictions current_price cost (Some c)
  = Raise ZeroDivisionError.
Proof.
  intros N W M E.
  destruct (apply_business_rules_weighted predictions current_price cost
              (Some c) N W) as [w ->].
  rewrite (apply_user_constraints_margin c cost _ m M E).
  reflexivity.
Qed.

(** X14.  With constraints that ask for price bounds only, the price of
    the rules respects them, to the half cent of the final rounding, and
    [max_price] wins over [min_price]: the band around the current price
    and the margin floor give way to the bounds of the user. *)
Theorem price_bounds_override_band (predictions : list ModelPrediction)
    (current_price cost : Q) (c : PricingConstraints) (p : Q) :
  bounds_only c ->
  predictions <> [] -> ~ py_sum (map confidence predictions) == 0 ->
  _apply_business_rules settings predictions current_price cost (Some c)
    = Ok p ->
  (truthy_float (max_price c) = true ->
   p <= float_or_0 (max_price c) + (1 # 200))
  /\ (truthy_float (min_price c) = true ->
      (truthy_float (max_price c) = true ->
       float_or_0 (min_price c) <= float_or_0 (max_price c)) ->
      float_or_0 (min_price c) - (1 # 200) <= p)
  /\ (truthy_float (min_price c) = false ->
      truthy_float (max_price c) = false ->
      exists weighted_price,
        p = py_round2 (clamp settings current_price cost weighted_price)).
Proof.
  intros (M & R & P) N W E.
  destruct (apply_business_rules_weighted predictions current_price cost
              (Some c) N W) as [w Ew].
  rewrite Ew in E. clear Ew.
  unfold apply_user_constraints in E. rewrite M, R, P in E.
  rewrite !bind_Ok in E. injection E as <-.
  set (x0 := clamp settings current_price cost w).
  set (lo := float_or_0 (min_price c)).
  set (hi := float_or_0 (max_price c)).
  split; [|split].
  - intros ->. eapply Qle_trans; [apply py_round2_near|].
    pose proof (py_min_le_l hi
                  (if truthy_float (min_price c) then py_max lo x0 else x0)).
    lra.
  - intros -> Order.
    eapply Qle_trans; [|apply py_round2_near].
    destruct (truthy_float (max_price c)).
    + specialize (Order eq_refl).
      pose proof (py_min_glb hi (py_max lo x0) lo Order
                    (py_max_ge_l lo x0)).
      lra.
    + pose proof (py_max_ge_l lo x0). lra.
  - intros -> ->. exists w. reflexivity.
Qed.

(** X15.  With constraints that ask for psychological pricing only, the
    price of the rules is the clamped weighted price less one cent,
    rounded: between half a cent and a cent and a half below it, whatever
    its last digits were. *)
Theorem psychological_pricing_subtracts_a_cent
    (predictions : list ModelPrediction) (current_price cost : Q)
    (c : PricingConstraints) :
  psychological_only c ->
  predictions <> [] -> ~ py_sum (map confidence predictions) == 0 ->
  exists weighted_price,
    _apply_business_rules settings predictions current_price cost (Some c)
    = Ok (py_round2 (clamp settings current_price cost weighted_price
                     - 0.01))
    /\ clamp settings current_price cost weighted_price - (3 # 200)
       <= py_round2 (clamp settings current_price cost weighted_price
                     - 0.01)
       <= clamp settings current_price cost weighted_price - (1 # 200).
Proof.
  intros (Lo & Hi & M & R & P) N W.
  destruct (apply_business_rules_weighted predictions current_price cost
              (Some c) N W) as [w Ew].
  exists w. rewrite Ew. clear Ew.
  unfold apply_user_constraints. rewrite Lo, Hi, M, R, P.
  rewrite !bind_Ok, PriceResponse.py_round2_idempotent.
  split; [reflexivity|].
  pose proof (py_round2_near (clamp settings current_price cost w - 0.01)).
  lra.
Qed.

End Rules.

End PriceRules.

(* ================================================================== *)
(** * Confidence, reasons and risks of a price response *)
(* ================================================================== *)

Module PriceExplanations.
Import Price Spec Conditions PriceFacts.

(** ** The confidence *)

Lemma fixed_confidence_sum (predictions : list ModelPrediction) :
  fixed_confidence predictions ->
  py_sum (map confidence predictions)
  == 0.8 * inject_Z (Z.of_nat (length predictions)).
Proof.
  intro F. unfold py_sum. rewrite FraudScore.foldl_Qplus_shift.
  induction F as [|p ps E F IH].
  - reflexivity.
  - rewrite FraudScore.inject_length_cons. simpl map. simpl fold_right.
    rewrite E. lra.
Qed.

Lemma fixed_confidence_average (predictions : list ModelPrediction) :
  fixed_confidence predictions -> predictions <> [] ->
  np_mean (map confidence predictions) == 0.8.
Proof.
  intros F N. unfold np_mean.
  rewrite length_map, (fixed_confidence_sum _ F).
  destruct predictions as [|p ps]; [congruence|].
  pose proof (FraudScore.inject_length_cons p ps) as E.
  pose proof (FraudScore.inject_length_nonneg ps) as P.
  field. lra.
Qed.

(** The rounded confidence when the predictions average to 0.8 and the
    data quality factor is [factor]. *)
Lemma rounded_confidence (avg factor v : Q) :
  avg == 0.8 -> 0 <= factor <= 1 ->
  py_round2 (0.8 * factor) == v ->
  py_round2 (py_min 1 (avg * factor)) == v.
Proof.
  intros A F V.
  assert (E : py_min 1 (avg * factor) == 0.8 * factor).
  { destruct (py_min_cases 1 (avg * factor)) as [[_ ->]|[L _]].
    - rewrite A. reflexivity.
    - rewrite A in L. nra. }
  rewrite (PriceResponse.py_round2_comp _ _ E). exact V.
Qed.

Section Explanations.
Context `{Runtime}.
Variable settings : Settings.

Lemma calculate_confidence_score_values
    (predictions : list ModelPrediction)
    (demand_data : option (gmap string (list Q))) :
  fixed_confidence predictions ->
  confidence_level_of_response
    (_calculate_confidence_score predictions demand_data)
  /\ (_calculate_confidence_score predictions demand_data == 0
      <-> predictions = []).
Proof.
  intro F. unfold _calculate_confidence_score, confidence_level_of_response.
  destruct predictions as [|p ps].
  - split; [left; reflexivity | split; reflexivity].
  - pose proof (fixed_confidence_average (p :: ps) F ltac:(discriminate))
      as A.
    set (avg := np_mean (map confidence (p :: ps))) in *.
    assert (Levels :
              forall x,
                (x == 0.58 \/ x == 0.64 \/ x == 0.72 \/ x == 0.8) ->
                (x == 0 \/ x == 0.58 \/ x == 0.64 \/ x == 0.72 \/ x == 0.8)
                /\ (x == 0 <-> p :: ps = [])).
    { intros x L. split; [tauto|].
      split; [intro Z; exfalso; lra | discriminate]. }
    apply Levels.
    repeat match goal with
           | |- context [if ?b then _ else _] => destruct b
           end.
    all: first
      [ left; apply rounded_confidence; [exact A | lra | reflexivity]
      | right; left;
        apply rounded_confidence; [exact A | lra | reflexivity]
      | right; right; left;
        apply rounded_confidence; [exact A | lra | reflexivity]
      | right; right; right;
        apply rounded_confidence; [exact A | lra | reflexivity] ].
Qed.

(** X16.  The confidence of a response takes one of five values: 0 when
    no model predicted, and otherwise 0.8, lowered to 0.72 when the
    predictions disagree, to 0.64 without sales history, and to 0.58 with
    both; it never exceeds 0.8. *)
Theorem response_confidence_levels (self : PriceOptimizerService)
    (clock : Clock) (product_id : string) (current_price cost : Q)
    (inventory_level : Z) (competitor_prices : list (gmap string Q))
    (demand_data : option (gmap string (list Q)))
    (constraints : option PricingConstraints)
    (r : PriceOptimizationResponse) :
  fst (optimize_product_price settings self clock product_id
         current_price cost inventory_level competitor_prices
         demand_data constraints) = Ok r ->
  confidence_level_of_response (confidence_score r)
  /\ confidence_score r <= 0.8
  /\ (confidence_score r == 0
      <-> fst (_get_ensemble_prediction self
                 (_prepare_features (utcnow_features clock) current_price
                    cost inventory_level competitor_prices demand_data))
          = [])
  /\ (has_daily_sales demand_data = false -> confidence_score r <= 0.64).
Proof.
  intro E.
  destruct (PriceResponse.optimize_response_fields settings _ _ _ _ _ _ _
              _ _ _ E) as (_ & _ & _ & _ & _ & _ & _ & _ & _ & EC & _).
  set (features := _prepare_features _ _ _ _ _ _) in *.
  pose proof (ensemble_prediction_confidence self features) as F.
  set (predictions := fst (_get_ensemble_prediction self features)) in *.
  destruct (calculate_confidence_score_values predictions demand_data F)
    as [L Z].
  rewrite EC. split; [exact L|]. split; [|split; [exact Z|]].
  - unfold confidence_level_of_response in L.
    destruct L as [L|[L|[L|[L|L]]]]; rewrite L; lra.
  - intro S. clear L Z.
    unfold _calculate_confidence_score. rewrite S.
    destruct predictions as [|p ps] eqn:P; [lra|].
    pose proof (fixed_confidence_average (p :: ps) F ltac:(discriminate))
      as A.
    set (avg := np_mean (map confidence (p :: ps))) in *.
    cbn [negb].
    repeat match goal with
           | |- context [if ?b then _ else _] => destruct b
           end.
    all: first
      [ rewrite (rounded_confidence avg (1 * 0.8 * 0.9) 0.58 A);
        [lra | lra | reflexivity]
      | rewrite (rounded_confidence avg (1 * 0.8) 0.64 A);
        [lra | lra | reflexivity] ].
Qed.

End Explanations.

(** ** The reasons *)

(** X17.  [_analyze_price_change_reasons]: the primary reason is never
    DEMAND_DECREASE, a lower price always has COMPETITIVE_PRESSURE as its
    primary reason, with or without competitor data, and an unchanged
    price without competitor data has MARKET_POSITION alone; four of the
    eight reasons of the schema are never given. *)
Theorem price_change_reasons (current_price optimized_price : Q)
    (competitor_prices : list (gmap string Q)) :
  let primary :=
    fst (_analyze_price_change_reasons current_price optimized_price
           competitor_prices) in
  let secondary :=
    snd (_analyze_price_change_reasons current_price optimized_price
           competitor_prices) in
  primary ∈ [COMPETITIVE_PRESSURE; DEMAND_INCREASE; MARKET_POSITION]
  /\ Forall (fun reason =>
               reason ∈ [COMPETITIVE_PRESSURE; DEMAND_INCREASE;
                         DEMAND_DECREASE; MARKET_POSITION])
            secondary
  /\ (optimized_price < current_price ->
      primary = COMPETITIVE_PRESSURE /\ DEMAND_DECREASE ∈ secondary)
  /\ (current_price < optimized_price ->
      MARKET_POSITION ∈ secondary
      /\ (competitor_prices = [] ->
          primary = DEMAND_INCREASE /\ secondary = [MARKET_POSITION]))
  /\ (optimized_price == current_price -> competitor_prices = [] ->
      primary = MARKET_POSITION /\ secondary = []).
Proof.
  cbn zeta. unfold _analyze_price_change_reasons.
  set (pressure :=
         match competitor_prices with
         | [] => []
         | _ :: _ =>
             if Qgtb current_price
                  (np_mean (map competitor_price competitor_prices) * 1.1)
             then [] ++ [COMPETITIVE_PRESSURE] else []
         end).
  assert (P : pressure = [] \/ pressure = [COMPETITIVE_PRESSURE]).
  { subst pressure. destruct competitor_prices; [auto|].
    destruct (Qgtb _ _); auto. }
  assert (P0 : competitor_prices = [] -> pressure = []).
  { intros ->. reflexivity. }
  clearbody pressure.
  destruct (Qgtb (optimized_price - current_price) 0) eqn:Up;
    [apply Qgtb_gt in Up | apply Qgtb_le in Up];
    [|destruct (Qltb (optimized_price - current_price) 0) eqn:Down;
      [apply Qltb_lt in Down | apply Qltb_ge in Down]];
    destruct P as [-> | ->]; cbn [app hd tl fst snd];
    repeat match goal with
           | |- _ /\ _ => split
           | |- Forall _ _ => repeat constructor
           | |- _ ∈ _ => rewrite !elem_of_cons; tauto
           | |- _ -> _ => intro
           end;
    try lra; try reflexivity;
    try (rewrite !elem_of_cons; tauto);
    try match goal with
        | C : competitor_prices = [] |- _ =>
            specialize (P0 C); discriminate
        end.
Qed.

(** ** The risks *)

Lemma Qabs_div (a b : Q) : ~ b == 0 -> Qabs (a / b) == Qabs a / Qabs b.
Proof.
  intro N. unfold Qdiv. rewrite Qabs_Qmult, Qabs_Qinv. reflexivity.
Qed.

(** The risks when the percentage is computed without rounding. *)
Lemma assess_risks_exact (current_price optimized_price : Q) :
  ~ current_price == 0 ->
  exists risks,
    _assess_risks current_price optimized_price = Ok risks
    /\ (2 <= length risks <= 3)%nat
    /\ ("Large price change may shock customers" ∈ risks
        <-> 0.1 * Qabs current_price
            < Qabs (optimized_price - current_price))
    /\ ("Price increase may reduce demand" ∈ risks
        <-> current_price < optimized_price)
    /\ ("Profit margins will be reduced" ∈ risks
        <-> optimized_price <= current_price).
Proof.
  intro N. unfold _assess_risks.
  rewrite (py_div_nonzero _ _ N), bind_Ok.
  eexists. split; [reflexivity|].
  assert (A : 0 < Qabs current_price).
  { apply Qabs_case; intro L.
    - apply Qle_lteq in L as [L|L]; [exact L|].
      exfalso. apply N. symmetry. exact L.
    - apply Qle_lteq in L as [L|L]; [lra|].
      exfalso. apply N. exact L. }
  assert (Large : Qgtb (Qabs ((optimized_price - current_price)
                              / current_price) * 100) 10 = true
                  <-> 0.1 * Qabs current_price
                      < Qabs (optimized_price - current_price)).
  { rewrite Qgtb_gt, (Qabs_div _ _ N).
    set (d := Qabs (optimized_price - current_price)).
    set (c := Qabs current_price) in *.
    assert (E : d / c * 100 == d * 100 / c) by (field; lra).
    rewrite E, (FraudRules.Qlt_div_iff _ _ _ A). split; intro; lra. }
  destruct (Qgtb (Qabs ((optimized_price - current_price) / current_price)
                  * 100) 10) eqn:G;
    destruct (Qgtb optimized_price current_price) eqn:Up;
    [apply Qgtb_gt in Up | apply Qgtb_le in Up
     | apply Qgtb_gt in Up | apply Qgtb_le in Up];
    cbn [app length];
    (split; [lia|]);
    rewrite !elem_of_cons, !elem_of_nil;
    (split; [|split]);
    (split; [intro D; decompose [or] D; clear D; try congruence;
             try contradiction; try (apply Large; reflexivity); try lra
            | intro L; try (apply Large in L; discriminate L);
              try lra; auto]).
Qed.

(** X18.  [_assess_risks], for a current price that is not zero: two or
    three risks; the risks of an increase exactly for a higher price, and
    those of a decrease otherwise, also for a price that does not change;
    the shock of a large change for every change of at least 11% of the
    current price and for no change of at most 9%. *)
Theorem assess_risks_cases (current_price optimized_price : Q) :
  ~ current_price == 0 ->
  exists risks,
    _assess_risks current_price optimized_price = Ok risks
    /\ (2 <= length risks <= 3)%nat
    /\ (0.11 * Qabs current_price
          <= Qabs (optimized_price - current_price) ->
        "Large price change may shock customers" ∈ risks)
    /\ (Qabs (optimized_price - current_price)
          <= 0.09 * Qabs current_price ->
        "Large price change may shock customers" ∉ risks)
    /\ ("Price increase may reduce demand" ∈ risks
        <-> current_price < optimized_price)
    /\ ("Profit margins will be reduced" ∈ risks
        <-> optimized_price <= current_price).
Proof.
  intro N.
  destruct (assess_risks_exact current_price optimized_price N)
    as (risks & E & L & Large & Up & Down).
  assert (A : 0 < Qabs current_price).
  { apply Qabs_case; intro P.
    - apply Qle_lteq in P as [P|P]; [exact P|].
      exfalso. apply N. symmetry. exact P.
    - apply Qle_lteq in P as [P|P]; [lra|].
      exfalso. apply N. exact P. }
  exists risks. split; [exact E|]. split; [exact L|].
  split; [|split; [|split; [exact Up | exact Down]]].
  - intro Far. apply Large. lra.
  - intros Near In. apply Large in In. lra.
Qed.

End PriceExplanations.

(* ================================================================== *)
(** * Price responses in particular situations *)
(* ================================================================== *)

Module PriceSituations.
Import Price Spec Conditions PriceFacts.

(** ** The market position *)

(** X19.  A higher price is never given a lower market position, whatever
    the competitor prices are. *)
Theorem market_position_monotone (p p' : Q)
    (competitor_prices : list (gmap string Q)) :
  p <= p' ->
  (position_rank (_determine_market_position p competitor_prices)
   <= position_rank (_determine_market_position p' competitor_prices))%nat.
Proof.
  intro L. unfold _determine_market_position.
  destruct competitor_prices as [|first rest]; [reflexivity|].
  set (avg := np_mean (map competitor_price (first :: rest))).
  repeat case_cmp; cbn; try lia; lra.
Qed.

Section Situations.
Context `{Runtime}.
Variable settings : Settings.

(** ** A service without a fitted model *)

(** X20.  While no model predicts, as after [load_models] on an empty
    model storage, a response recommends the current price with
    confidence 0 and expects no change, and yet lists the two risks of a
    price decrease. *)
Theorem unfitted_service_response (self : PriceOptimizerService)
    (clock : Clock) (product_id : string) (current_price cost : Q)
    (inventory_level : Z) (competitor_prices : list (gmap string Q))
    (demand_data : option (gmap string (list Q)))
    (constraints : option PricingConstraints)
    (r : PriceOptimizationResponse) :
  no_model_predicts self ->
  fst (optimize_product_price settings self clock product_id
         current_price cost inventory_level competitor_prices
         demand_data constraints) = Ok r ->
  recommended_price r = current_price
  /\ confidence_score r = 0
  /\ price_change_percent r == 0
  /\ expected_demand_change r == 0
  /\ expected_revenue_change r == 0
  /\ expected_profit_change r == 0
  /\ risk_factors r
     = [ "Price decrease may signal quality concerns";
         "Profit margins will be reduced" ]
  /\ (competitor_prices = [] ->
      primary_reason r = MARKET_POSITION /\ secondary_reasons r = []).
Proof.
  intros NP E.
  destruct (PriceResponse.optimize_response_fields settings _ _ _ _ _ _ _
              _ _ _ E)
    as (N & EB & _ & _ & _ & EP & ED & ER & EF & EC & EReasons & _ & ERisk
        & _).
  rewrite (ensemble_prediction_none self _ NP) in EB, EC.
  rewrite (apply_business_rules_no_prediction settings [] _ _ _
             (or_introl eq_refl)) in EB.
  injection EB as EB. rewrite <- EB in *.
  assert (Zero : (current_price - current_price) / current_price == 0)
    by (field; exact N).
  assert (P0 : price_change_percent r == 0) by (rewrite EP, Zero; ring).
  split; [reflexivity|]. split; [exact EC|]. split; [exact P0|].
  split; [rewrite ED, P0; ring|].
  split; [rewrite ER, ED, P0; ring|].
  split; [rewrite EF, ER, ED, P0; ring|].
  split.
  - unfold _assess_risks in ERisk.
    rewrite (py_div_nonzero _ _ N), bind_Ok in ERisk.
    assert (G1 : Qgtb (Qabs ((current_price - current_price)
                             / current_price) * 100) 10 = false).
    { apply Qgtb_le. rewrite Zero. discriminate. }
    assert (G2 : Qgtb current_price current_price = false)
      by (apply Qgtb_le; lra).
    rewrite G1, G2 in ERisk. injection ERisk as <-. reflexivity.
  - intros ->. unfold _analyze_price_change_reasons in EReasons.
    assert (G1 : Qgtb (current_price - current_price) 0 = false)
      by (apply Qgtb_le; lra).
    assert (G2 : Qltb (current_price - current_price) 0 = false)
      by (apply Qltb_ge; lra).
    rewrite G1, G2 in EReasons. injection EReasons as -> ->. auto.
Qed.

(** ** bulk_optimize_prices *)

Lemma optimization_task_outcome
    (constraints : option PricingConstraints) (request : ProductRequest)
    (self : PriceOptimizerService) :
  match fst (optimization_task settings constraints request self) with
  | Ok r =>
      ~ current_price (fst request) == 0
      /\ resp_product_id r = product_id (fst request)
      /\ resp_current_price r = current_price (fst request)
      /\ market_position r = "value_leader"
  | Raise e =>
      e = ZeroDivisionError
      /\ (Price.constraints (fst request) = None -> constraints = None ->
          current_price (fst request) == 0)
  end.
Proof.
  unfold optimization_task.
  destruct (fst (optimize_product_price settings self (snd request)
                   (product_id (fst request))
                   (current_price (fst request)) (cost (fst request))
                   (inventory_level (fst request)) []
                   (demand_dict <$> demand_data (fst request))
                   match Price.constraints (fst request) with
                   | Some c => Some c
                   | None => constraints
                   end)) as [r|e] eqn:E.
  - destruct (PriceResponse.optimize_response_fields settings _ _ _ _ _ _
                _ _ _ _ E)
      as (N & _ & Id & Cp & _ & _ & _ & _ & _ & _ & _ & M & _).
    auto.
  - destruct (Qeq_bool (current_price (fst request)) 0) eqn:Z.
    + apply Qeq_bool_iff in Z.
      rewrite (optimize_zero_price settings _ _ _ _ _ _ _ _ _ Z) in E.
      injection E as <-. auto.
    + apply Qeq_bool_neq in Z.
      pose proof (optimize_outcome settings self (snd request)
                    (product_id (fst request))
                    (current_price (fst request)) (cost (fst request))
                    (inventory_level (fst request)) []
                    (demand_dict <$> demand_data (fst request))
                    match Price.constraints (fst request) with
                    | Some c => Some c
                    | None => constraints
                    end Z) as O.
      destruct (_apply_business_rules settings _ _ _ _) as [x|e'] eqn:B.
      * destruct O as (r & Er & _). congruence.
      * rewrite O in E. injection E as <-.
        split; [eapply apply_business_rules_raise, B|].
        intros C1 C2. rewrite C1, C2 in B.
        pose proof (apply_business_rules_unconstrained settings
                      (fst (_get_ensemble_prediction self
                              (_prepare_features
                                 (utcnow_features (snd request))
                                 (current_price (fst request))
                                 (cost (fst request))
                                 (inventory_level (fst request)) []
                                 (demand_dict
                                    <$> demand_data (fst request)))))
                      (current_price (fst request)) (cost (fst request)))
          as U.
        rewrite B in U. discriminate.
Qed.

(** X22.  [bulk_optimize_prices] passes no competitor prices on: every
    response of its dictionary has the market position "value_leader",
    whatever its price, and is stored under its own product identifier.
    Without constraints, the products that are answered are exactly those
    whose current price is not zero. *)
Theorem bulk_prices_without_competitors (self : PriceOptimizerService)
    (products : list ProductRequest)
    (constraints : option PricingConstraints)
    (dict : gmap string PriceOptimizationResponse)
    (self' : PriceOptimizerService) :
  bulk_optimize_prices settings self products constraints
    = (Ok dict, self') ->
  (forall k r, dict !! k = Some r ->
     resp_product_id r = k /\ market_position r = "value_leader"
     /\ ~ resp_current_price r == 0)
  /\ (constraints = None ->
      Forall (fun request => Price.constraints (fst request) = None)
             products ->
      forall k,
        k ∈ dom dict
        <-> exists request,
              request ∈ products /\ product_key request = k
              /\ ~ current_price (fst request) == 0).
Proof.
  intro E. unfold bulk_optimize_prices in E.
  pose proof (BulkEntries.outcomes_pointwise
                (optimization_task settings constraints)
                (fun request r =>
                   match r with
                   | Ok r =>
                       ~ current_price (fst request) == 0
                       /\ resp_product_id r = product_id (fst request)
                       /\ resp_current_price r
                          = current_price (fst request)
                       /\ market_position r = "value_leader"
                   | Raise e =>
                       e = ZeroDivisionError
                       /\ (Price.constraints (fst request) = None ->
                           constraints = None ->
                           current_price (fst request) == 0)
                   end)
                (fun request w =>
                   optimization_task_outcome constraints request w)
                products self) as Each.
  split.
  - intros k r D.
    destruct (BulkEntries.bulk_entry_source _ _ _ 10 _ _ _ _ _ _
                ltac:(lia) E D) as (i & request & res & L & K & O & B).
    injection B as <-.
    destruct (Each i request L) as (r' & O' & G).
    rewrite O in O'. injection O' as <-.
    destruct G as (N & Id & Cp & M).
    rewrite Id, Cp. auto.
  - intros -> NoC k.
    destruct (BulkFacts.bulk_answers _ _ _ 10 ltac:(lia) _ _ _ _ E)
      as [[Keys _] _].
    rewrite (Keys k). split.
    + intros (i & request & res & L & K & O).
      destruct (Each i request L) as (r' & O' & G).
      rewrite O in O'. injection O' as <-.
      exists request. split; [eapply list_elem_of_lookup_2, L|].
      split; [exact K | apply G].
    + intros (request & I & K & N).
      apply list_elem_of_lookup_1 in I as [i L].
      destruct (Each i request L) as ([res|e] & O' & G).
      * exists i, request, res. auto.
      * exfalso. apply N, G; [|reflexivity].
        rewrite Forall_forall in NoC. apply NoC.
        eapply list_elem_of_lookup_2, L.
Qed.

End Situations.

End PriceSituations.

(* ================================================================== *)
(** * The competitive analysis *)
(* ================================================================== *)

Module PriceCompetition.
Import Price Spec Conditions PriceAnalysis.

Lemma foldl_py_min_le (xs : list Q) :
  forall a, foldl py_min a xs <= a.
Proof.
  induction xs as [|x xs IH]; intro a; simpl; [lra|].
  eapply Qle_trans; [apply IH | apply py_min_le_l].
Qed.

Lemma foldl_py_max_ge (xs : list Q) :
  forall a, a <= foldl py_max a xs.
Proof.
  induction xs as [|x xs IH]; intro a; simpl; [lra|].
  eapply Qle_trans; [apply py_max_ge_l | apply IH].
Qed.

Lemma foldl_py_min_nonneg (xs : list Q) :
  Forall (fun x => 0 <= x) xs ->
  forall a, 0 <= a -> 0 <= foldl py_min a xs.
Proof.
  induction 1 as [|x xs P _ IH]; intros a A; simpl; [exact A|].
  apply IH, py_min_glb; assumption.
Qed.

Lemma closest_gap_nonneg (optimized_price : Q) (first : gmap string Q)
    (rest : list (gmap string Q)) :
  0 <= foldl py_min (Qabs (optimized_price - competitor_price first))
         (map (fun cp => Qabs (optimized_price - competitor_price cp))
              rest).
Proof.
  apply foldl_py_min_nonneg; [|apply Qabs_nonneg].
  apply Forall_map, Forall_forall. intros cp _. apply Qabs_nonneg.
Qed.

Lemma filter_none {A} (f : A -> bool) (l : list A) :
  length (List.filter f l) = 0%nat <-> Forall (fun x => f x = false) l.
Proof.
  induction l as [|x l IH]; simpl.
  - split; [constructor | reflexivity].
  - rewrite Forall_cons. destruct (f x); simpl.
    + split; [discriminate | intros [? _]; discriminate].
    + rewrite IH. tauto.
Qed.

(** X23.  [_analyze_competition]: without competitors the analysis is the
    "unknown" dictionary; with competitors the rank of the price lies
    between 1 and their number plus one, and is 1 exactly when no
    competitor is cheaper; the percentile lies in (0, 100]; the gap to
    the closest competitor and the market spread are not negative. *)
Theorem competition_figures (optimized_price : Q)
    (competitor_prices : list (gmap string Q)) :
  (_analyze_competition optimized_price competitor_prices
   = NoCompetitorData <-> competitor_prices = [])
  /\ forall figures,
       _analyze_competition optimized_price competitor_prices
       = Figures figures ->
       (1 <= price_rank figures
        <= Z.of_nat (length competitor_prices) + 1)%Z
       /\ (price_rank figures = 1%Z
           <-> Forall (fun cp => optimized_price <= competitor_price cp)
                      competitor_prices)
       /\ 0 < price_percentile figures <= 100
       /\ 0 <= closest_competitor_gap figures
       /\ 0 <= market_spread figures.
Proof.
  unfold _analyze_competition.
  destruct competitor_prices as [|first rest].
  - split; [tauto | discriminate].
  - split; [split; discriminate|].
    set (prices := map competitor_price (first :: rest)).
    set (cheaper := List.filter (fun p => Qgtb optimized_price p) prices).
    intros figures [= <-].
    cbn [price_rank price_percentile closest_competitor_gap
         market_spread].
    change (S (length (map competitor_price rest)))
      with (length prices).
    assert (Len : length prices = length (first :: rest))
      by apply length_map.
    pose proof (filter_length_le (fun p => Qgtb optimized_price p) prices)
      as Le.
    fold cheaper in Le.
    split; [rewrite <- Len; lia|].
    split.
    { split.
      - intro R.
        assert (Z : length cheaper = 0%nat) by lia.
        apply filter_none in Z. subst prices.
        rewrite Forall_map in Z.
        eapply Forall_impl; [exact Z|].
        intros cp G. apply Qgtb_le in G. exact G.
      - intro F.
        assert (Z : length cheaper = 0%nat).
        { apply filter_none. subst prices. rewrite Forall_map.
          eapply Forall_impl; [exact F|].
          intros cp G. apply Qgtb_le. exact G. }
        lia. }
    assert (R1 : 1 <= inject_Z (Z.of_nat (length cheaper) + 1)).
    { change 1 with (inject_Z 1) at 1. rewrite <- Zle_Qle. lia. }
    assert (R2 : inject_Z (Z.of_nat (length cheaper) + 1)
                 <= inject_Z (Z.of_nat (length prices) + 1)).
    { rewrite <- Zle_Qle. lia. }
    set (rank := inject_Z (Z.of_nat (length cheaper) + 1)) in *.
    set (n1 := inject_Z (Z.of_nat (length prices) + 1)) in *.
    split.
    { split.
      - apply Qmult_lt_0_compat; [|reflexivity].
        apply Qlt_shift_div_l; lra.
      - assert (D : rank / n1 <= 1) by (apply Qle_shift_div_r; lra).
        lra. }
    split.
    { apply closest_gap_nonneg. }
    unfold np_min, np_max. subst prices. cbn [map].
    pose proof (foldl_py_min_le (map competitor_price rest)
                  (competitor_price first)).
    pose proof (foldl_py_max_ge (map competitor_price rest)
                  (competitor_price first)).
    lra.
Qed.

End PriceCompetition.

(* ================================================================== *)
(** * The alert listing *)
(* ================================================================== *)

Module FraudAlertFacts.
Import FraudAlerts.

Section Alerts.
Context `{Runtime}.

(** X24.  [get_recent_alerts] returns [min(limit, 10)] alerts, and none
    for a limit that is not positive: never more than ten, whatever is
    asked for.  Every alert has a score of 0.8, 0.85 or 0.9, and asks for
    immediate action exactly when its severity and its priority are
    "high", which is the case of every third alert, the first one
    included. *)
Theorem recent_alerts_capped (utcnow : nat -> datetime) (limit : Z)
    (severity_filter : option string) :
  length (get_recent_alerts utcnow limit severity_filter)
  = Z.to_nat (Z.min limit 10)
  /\ (length (get_recent_alerts utcnow limit severity_filter) <= 10)%nat
  /\ ((limit <= 0)%Z ->
      get_recent_alerts utcnow limit severity_filter = [])
  /\ (forall (i : nat) (alert : FraudAlert),
        get_recent_alerts utcnow limit severity_filter !! i = Some alert ->
        (alert_fraud_score alert == 0.8
         \/ alert_fraud_score alert == 0.85
         \/ alert_fraud_score alert == 0.9)
        /\ (requires_immediate_action alert = true
            <-> (i mod 3 = 0)%nat)
        /\ (alert_severity alert = "high" <-> (i mod 3 = 0)%nat)
        /\ (investigation_priority alert = "high"
            <-> (i mod 3 = 0)%nat)).
Proof.
  unfold get_recent_alerts.
  split; [rewrite length_map, length_seq; reflexivity|].
  split; [rewrite length_map, length_seq; lia|].
  split.
  { intro L.
    assert (Z : Z.to_nat (Z.min limit 10) = 0%nat) by lia.
    rewrite Z. reflexivity. }
  intros i alert L.
  apply list_lookup_fmap_Some in L as (j & -> & L).
  apply lookup_seq in L as [-> _]. cbn [Nat.add].
  unfold mock_alert.
  cbn [alert_fraud_score requires_immediate_action alert_severity
       investigation_priority].
  assert (M : (Z.of_nat i mod 3 = Z.of_nat (i mod 3))%Z)
    by (rewrite Nat2Z.inj_mod; reflexivity).
  pose proof (Nat.mod_upper_bound i 3 ltac:(lia)) as U.
  rewrite M.
  destruct (i mod 3)%nat as [|[|[|k]]] eqn:R; [| | |lia];
    cbn [Z.of_nat Pos.of_succ_nat Pos.succ Z.eqb];
    (split; [|split; [|split]]);
    try (split; [discriminate || reflexivity || (intros _; reflexivity)
                | discriminate || (intros _; reflexivity)]).
  - left. reflexivity.
  - right; left. reflexivity.
  - right; right. reflexivity.
Qed.

End Alerts.

End FraudAlertFacts.

(* ================================================================== *)
(** * The confidence of a fraud analysis *)
(* ================================================================== *)

Module FraudConfidence.
Import Fraud Spec Conditions.

Section Confidence.
Context `{Runtime}.

(** The feature array has 35 entries. *)
Lemma prepare_features_shape (self : FraudDetectionService)
    (transaction : TransactionData) (user : UserData)
    (device : DeviceInfo) (context : ContextData) (features : ndarray) :
  _prepare_transaction_features self transaction user device context
    = Ok features ->
  length features = 35%nat.
Proof.
  unfold _prepare_transaction_features.
  destruct (truthy_dict (billing_address transaction)
            && truthy_dict (shipping_address transaction));
    destruct (last_login_time user) as [login|];
    try (destruct (dt_diff_seconds (transaction_time transaction) login));
    rewrite ?bind_Ok, ?bind_Raise; try discriminate;
    intros [= <-]; reflexivity.
Qed.

(** The mean of the three confidence factors. *)
Lemma confidence_of_three (agreement quality : Q) :
  np_mean [agreement; quality; 0.8] == (agreement + quality + 0.8) / 3.
Proof.
  unfold np_mean, py_sum. cbn [foldl length].
  change (inject_Z (Z.of_nat 3)) with 3. field.
Qed.

Lemma filter_length_le {A} (f : A -> bool) (l : list A) :
  (length (List.filter f l) <= length l)%nat.
Proof.
  induction l as [|x l IH]; simpl; [lia|].
  destruct (f x); simpl; lia.
Qed.

(** X25.  The confidence of a result is the mean of three factors: the
    agreement of the six scores, which is in [0, 1]; the share of the 35
    features that are not NaN; and the constant 0.8.  It lies between
    4/15 and 14/15. *)
Theorem confidence_between_bounds
    (self : FraudDetectionService) (rng : RandomState) (clock : Clock)
    (transaction : TransactionData) (user : UserData)
    (device : DeviceInfo) (context : ContextData)
    (r : FraudDetectionResult) (self' : FraudDetectionService)
    (rng' : RandomState) :
  analyze_transaction self rng clock transaction user device context
    = (Ok r, self', rng') ->
  exists (features : ndarray) (agreement : Q),
    _prepare_transaction_features self transaction user device context
      = Ok features
    /\ length features = 35%nat
    /\ 0 <= agreement <= 1
    /\ confidence_score r
       == (agreement
           + (1 - inject_Z (Z.of_nat (length (List.filter is_nan features)))
                  / 35)
           + 0.8) / 3
    /\ (4 # 15) <= confidence_score r <= (14 # 15).
Proof.
  intro E.
  destruct (FraudScore.analyze_transaction_inversion _ _ _ _ _ _ _ _ _ _ E)
    as (features & ml & an & v & rng1 & EF & EM & EA & _ & _ & EC).
  pose proof (prepare_features_shape _ _ _ _ _ _ EF) as Len.
  pose proof (FraudLoops.run_ml_models_three self features rng) as Lml.
  rewrite EM in Lml. cbn [fst] in Lml.
  pose proof (filter_length_le is_nan features) as Nan.
  rewrite Len in Nan.
  assert (C : exists agreement,
             0 <= agreement <= 1
             /\ confidence_score r
                == (agreement
                    + (1 - inject_Z (Z.of_nat (length (List.filter is_nan
                                                         features)))
                           / 35)
                    + 0.8) / 3).
  { rewrite EC. unfold _calculate_confidence.
    destruct (dict_values ml) as [|x xs] eqn:Vml; [discriminate|].
    cbn [app]. rewrite Len.
    exists (py_max 0 (1 - np_std (x :: xs ++ dict_values an) * 2)).
    split.
    - pose proof (np_std_nonneg (x :: xs ++ dict_values an)).
      split; [apply py_max_ge_l | apply py_max_lub; lra].
    - rewrite confidence_of_three.
      change (inject_Z (Z.of_nat 35)) with 35. reflexivity. }
  destruct C as (agreement & A & C).
  exists features, agreement.
  split; [exact EF|]. split; [exact Len|]. split; [exact A|].
  split; [exact C|].
  set (nans := length (List.filter is_nan features)) in *.
  assert (N0 : 0 <= inject_Z (Z.of_nat nans))
    by (change 0 with (inject_Z 0); rewrite <- Zle_Qle; lia).
  assert (N35 : inject_Z (Z.of_nat nans) <= 35)
    by (change 35 with (inject_Z 35); rewrite <- Zle_Qle; lia).
  set (k := inject_Z (Z.of_nat nans)) in *.
  rewrite C.
  assert (R : k / 35 == k * (1 # 35)) by field.
  rewrite R.
  assert (D : forall t, t / 3 == t * (1 # 3)) by (intro t; field).
  rewrite D. split; lra.
Qed.

End Confidence.

End FraudConfidence.

(* ================================================================== *)
(** * The inventory level and the price models *)
(* ================================================================== *)

Module PriceInventory.
Import Price Spec Conditions PriceFacts.

Section Inventory.
Context `{Runtime}.
Variable settings : Settings.

(** The only entry of the feature array that can be infinite or NaN is
    the logarithm of the inventory level. *)
Lemma price_features_not_finite (now : datetime) (current_price cost : Q)
    (inventory_level : Z) (competitor_prices : list (gmap string Q))
    (demand_data : option (gmap string (list Q))) :
  let features :=
    _prepare_features now current_price cost inventory_level
      competitor_prices demand_data in
  (existsb is_inf features = true <-> inventory_level = (-1)%Z)
  /\ (existsb is_nan features = true <-> (inventory_level < -1)%Z).
Proof.
  cbn zeta. unfold _prepare_features.
  assert (Inf : is_inf (np_log1p (inject_Z inventory_level)) = true
                <-> inventory_level = (-1)%Z).
  { rewrite FraudLoaded.is_inf_log1p.
    change (-1) with (inject_Z (-1)). apply inject_Z_injective. }
  assert (Nan : is_nan (np_log1p (inject_Z inventory_level)) = true
                <-> (inventory_level < -1)%Z).
  { unfold np_log1p.
    destruct (Qltb (inject_Z inventory_level) (-1)) eqn:L.
    - apply Qltb_lt in L. change (-1) with (inject_Z (-1)) in L.
      rewrite <- Zlt_Qlt in L. split; [intros _; exact L | reflexivity].
    - apply Qltb_ge in L. change (-1) with (inject_Z (-1)) in L.
      rewrite <- Zle_Qle in L.
      destruct (Qeq_bool _ _); cbn [is_nan]; split; try discriminate; lia. }
  destruct competitor_prices as [|first rest];
    destruct (demand_data ≫= (fun d => d !! "daily_sales"))
      as [[|x sales]|];
    cbn [app existsb is_inf is_nan orb];
    rewrite ?orb_false_r; split; assumption.
Qed.

(** With an infinite entry among the features every scaler raises, and
    no model predicts. *)
Lemma ensemble_skips_infinite (self : PriceOptimizerService)
    (features : ndarray) :
  existsb is_inf features = true ->
  fst (_get_ensemble_prediction self features) = [].
Proof.
  intro Inf. unfold _get_ensemble_prediction.
  apply (foldl_invariant (fun st => fst st = [])); [|reflexivity].
  intros [predictions s] [model_name model]. cbn [fst]. intros ->.
  unfold predict_one.
  destruct (scalers s !! model_name) as [scaler|]; [|reflexivity].
  unfold fit_transform. rewrite Inf. reflexivity.
Qed.

(** X26.  An inventory level of -1, which no validator refuses, silences
    the models: its logarithm is infinite, every scaler refuses the
    features, and the response recommends the current price with
    confidence 0 and a data quality of at most 0.7, whatever the fitted
    models would predict and whatever the constraints ask for. *)
Theorem inventory_of_minus_one_silences_models
    (self : PriceOptimizerService) (clock : Clock) (product_id : string)
    (current_price cost : Q) (competitor_prices : list (gmap string Q))
    (demand_data : option (gmap string (list Q)))
    (constraints : option PricingConstraints) :
  (~ current_price == 0 ->
   exists r,
     fst (optimize_product_price settings self clock product_id
            current_price cost (-1) competitor_prices demand_data
            constraints) = Ok r)
  /\ forall r,
       fst (optimize_product_price settings self clock product_id
              current_price cost (-1) competitor_prices demand_data
              constraints) = Ok r ->
       recommended_price r = current_price
       /\ confidence_score r = 0
       /\ data_quality_score r <= 0.7.
Proof.
  destruct (price_features_not_finite (utcnow_features clock)
              current_price cost (-1) competitor_prices demand_data)
    as [Inf _].
  apply proj2 in Inf. specialize (Inf eq_refl).
  pose proof (ensemble_skips_infinite self _ Inf) as None_.
  split.
  - intro N.
    pose proof (optimize_outcome settings self clock product_id
                  current_price cost (-1)%Z competitor_prices demand_data
                  constraints N) as O.
    rewrite None_ in O.
    rewrite (apply_business_rules_no_prediction settings [] _ _ _
               (or_introl eq_refl)) in O.
    destruct O as (r & E & _). eauto.
  - intros r E.
    destruct (PriceResponse.optimize_response_fields settings _ _ _ _ _ _
                _ _ _ _ E)
      as (_ & EB & _ & _ & _ & _ & _ & _ & _ & EC & _ & _ & _ & EQ).
    rewrite None_ in EB, EC.
    rewrite (apply_business_rules_no_prediction settings [] _ _ _
               (or_introl eq_refl)) in EB.
    injection EB as EB.
    split; [symmetry; exact EB|]. split; [exact EC|].
    rewrite EQ. unfold _assess_data_quality.
    rewrite Inf, orb_true_r.
    destruct (negb (truthy_dict demand_data)); [discriminate|].
    destruct (demand_data ≫= (fun d => d !! "daily_sales"))
      as [[|x sales]|]; try discriminate.
    destruct (length (x :: sales) <? 30)%nat; discriminate.
Qed.

End Inventory.

End PriceInventory.

(* ================================================================== *)
(** * The bulk endpoint of the fraud service *)
(* ================================================================== *)

Module FraudEndpointFacts.
Import Fraud Spec FraudEndpoint.

Lemma start_tasks_dicts (batch : list TransactionRequest) :
  start_tasks (map AsDict batch) = Ok batch.
Proof.
  induction batch as [|request batch IH]; [reflexivity|].
  simpl. rewrite IH. reflexivity.
Qed.

Section Endpoint.
Context `{Runtime}.

Lemma foldl_run_batch_raised (transactions : list RequestValue) (e : exn)
    (w : FraudDetectionService * RandomState) (starts : list nat) :
  foldl (run_batch transactions) (Raise e, w) starts = (Raise e, w).
Proof.
  induction starts as [|i starts IH]; [reflexivity|]. exact IH.
Qed.

(** On a list of dictionaries the loop is the one of
    [Fraud.bulk_analyze_transactions]. *)
Lemma service_bulk_on_dicts (self : FraudDetectionService)
    (rng : RandomState) (transactions : list TransactionRequest) :
  service_bulk_analyze_transactions self rng (map AsDict transactions)
  = Fraud.bulk_analyze_transactions self rng transactions.
Proof.
  unfold service_bulk_analyze_transactions,
    Fraud.bulk_analyze_transactions, Bulk.bulk.
  rewrite length_map. apply foldl_ext.
  intros [[results|e] w] i; [|reflexivity].
  unfold run_batch, Bulk.run_batch, Bulk.slice.
  rewrite <- fmap_drop, <- fmap_take, start_tasks_dicts. reflexivity.
Qed.

(** X27.  The endpoint [/api/v1/bulk-analyze] passes request objects to a
    loop that subscripts dictionaries.  An empty request is answered with
    an empty dictionary; every other request is answered with status 500,
    before any transaction is analysed: the service and the random
    generator are left as they were.  The same loop, given the
    dictionaries it is annotated with, is the bulk operation of the
    service. *)
Theorem bulk_endpoint_refuses_requests (self : FraudDetectionService)
    (rng : RandomState) (request_transactions : list TransactionRequest) :
  bulk_analyze_transactions self rng []
  = (Http200 ∅, (self, rng))
  /\ (request_transactions <> [] ->
      bulk_analyze_transactions self rng request_transactions
      = (Http500 "Bulk analysis failed", (self, rng)))
  /\ service_bulk_analyze_transactions self rng
       (map AsDict request_transactions)
     = Fraud.bulk_analyze_transactions self rng request_transactions.
Proof.
  split; [reflexivity|]. split; [|apply service_bulk_on_dicts].
  intro N. destruct request_transactions as [|first rest]; [congruence|].
  unfold bulk_analyze_transactions, service_bulk_analyze_transactions.
  rewrite (BulkFacts.range_step_unfold 20 ltac:(lia)).
  cbn [map length foldl].
  assert (First : run_batch (AsModel first :: map AsModel rest)
                    (Ok ∅, (self, rng)) 0
                  = (Raise TypeError, (self, rng))).
  { unfold run_batch, Bulk.slice. rewrite drop_0. reflexivity. }
  rewrite First, foldl_run_batch_raised. reflexivity.
Qed.

End Endpoint.

End FraudEndpointFacts.

(* ================================================================== *)
(** * The further properties at the worked inputs *)
(* ================================================================== *)

Module FurtherWitnesses.
Import Fraud Spec Conditions Sample Offers.

(** ** The fraud service *)

(** [decline_forced_by_rules] at the purchase of a new account on the
    fresh service. *)
Lemma decline_forced_by_rules_witness :
  thresholds fraud_service = thresholds init
  /\ exists r self' rng',
       analyze_transaction fraud_service rng fraud_clock (purchase "t1")
         (user 0) desktop session = (Ok r, self', rng')
       /\ (decision r = DECLINE
           <-> forced_decline (purchase "t1") (user 0)
               \/ 0.8 <= fraud_score r).
Proof.
  assert (T : thresholds fraud_service = thresholds init) by reflexivity.
  split; [exact T|].
  destruct (analyze_transaction fraud_service rng fraud_clock
              (purchase "t1") (user 0) desktop session)
    as [[[r|e] self'] rng'] eqn:E; [|vm_compute in E; discriminate].
  exists r, self', rng'. split; [reflexivity|].
  exact (proj2 (FraudRules.decline_forced_by_rules fraud_service rng
                  fraud_clock (purchase "t1") (user 0) desktop session
                  r self' rng' T E)).
Defined.

(** [ml_scores_variates_or_zero] on the fresh service: three variates
    are drawn for the features of the same purchase, and none for those
    of the purchase of an account whose age is -1. *)
Lemma ml_scores_variates_or_zero_witness :
  supervised_installed fraud_service
  /\ (exists features,
        _prepare_transaction_features fraud_service (purchase "t1")
          (user 0) desktop session = Ok features
        /\ consumed (snd (_run_ml_models fraud_service features rng))
           = 3%nat)
  /\ (exists features,
        _prepare_transaction_features fraud_service (purchase "t1")
          (user (-1)) desktop session = Ok features
        /\ snd (_run_ml_models fraud_service features rng) = rng).
Proof.
  assert (I : supervised_installed fraud_service)
    by apply FraudModels.load_models_supervised_installed.
  split; [exact I|].
  destruct (FraudLoaded.ml_scores_variates_or_zero fraud_service rng I)
    as (Finite & Infinite & Log).
  split.
  - destruct (_prepare_transaction_features fraud_service (purchase "t1")
                (user 0) desktop session) as [features|e] eqn:F;
      [|vm_compute in F; discriminate].
    exists features. split; [reflexivity|].
    apply Finite. vm_compute in F. injection F as <-.
    vm_compute. reflexivity.
  - destruct (_prepare_transaction_features fraud_service (purchase "t1")
                (user (-1)) desktop session) as [features|e] eqn:F;
      [|vm_compute in F; discriminate].
    exists features. split; [reflexivity|].
    apply Infinite.
    apply (Log (purchase "t1") (user (-1)) desktop session features F).
    right. left. reflexivity.
Defined.

(** [analyze_transaction_raises] at a purchase whose user comes
    without [transaction_frequency]. *)
Lemma analyze_transaction_raises_witness :
  frequency_missing (later_purchase "t0") regular_user
  /\ is_ok (fst (fst (analyze_transaction fraud_service rng fraud_clock
                        (later_purchase "t0") regular_user desktop
                        session))) = false.
Proof.
  assert (M : frequency_missing (later_purchase "t0") regular_user)
    by (repeat split).
  split; [exact M|].
  exact (proj1 (FraudOutcome.analyze_transaction_raises fraud_service rng
                  fraud_clock (later_purchase "t0") regular_user desktop
                  session (or_intror M))).
Defined.

(** [unfitted_detectors_cap_score] at the same purchase. *)
Lemma unfitted_detectors_cap_score_witness :
  thresholds fraud_service = thresholds init
  /\ beta_in_unit rng
  /\ no_detector_fitted fraud_service
  /\ exists r self' rng',
       analyze_transaction fraud_service rng fraud_clock (purchase "t1")
         (user 0) desktop session = (Ok r, self', rng')
       /\ fraud_score r <= 0.785.
Proof.
  assert (T : thresholds fraud_service = thresholds init) by reflexivity.
  assert (B : beta_in_unit rng).
  { intro n. split; vm_compute; discriminate. }
  assert (U : no_detector_fitted fraud_service)
    by apply FraudModels.load_models_no_detector_fitted.
  split; [exact T|]. split; [exact B|]. split; [exact U|].
  destruct (analyze_transaction fraud_service rng fraud_clock
              (purchase "t1") (user 0) desktop session)
    as [[[r|e] self'] rng'] eqn:E; [|vm_compute in E; discriminate].
  exists r, self', rng'. split; [reflexivity|].
  exact (proj1 (FraudLoaded.unfitted_detectors_cap_score fraud_service rng
                  fraud_clock (purchase "t1") (user 0) desktop session
                  r self' rng' T B U E)).
Defined.

(** [indicators_report_rules] at the same purchase. *)
Lemma indicators_report_rules_witness :
  exists r self' rng',
    analyze_transaction fraud_service rng fraud_clock (purchase "t1")
      (user 0) desktop session = (Ok r, self', rng')
    /\ (length (indicators r) <= 16)%nat.
Proof.
  destruct (analyze_transaction fraud_service rng fraud_clock
              (purchase "t1") (user 0) desktop session)
    as [[[r|e] self'] rng'] eqn:E; [|vm_compute in E; discriminate].
  exists r, self', rng'. split; [reflexivity|].
  exact (proj2 (proj2 (FraudOutcome.indicators_report_rules fraud_service
                         rng fraud_clock (purchase "t1") (user 0) desktop
                         session r self' rng' E))).
Defined.

(** [recommendations_follow_rules] at the same purchase. *)
Lemma recommendations_follow_rules_witness :
  thresholds fraud_service = thresholds init
  /\ exists r self' rng',
       analyze_transaction fraud_service rng fraud_clock (purchase "t1")
         (user 0) desktop session = (Ok r, self', rng')
       /\ NoDup (recommendations r).
Proof.
  assert (T : thresholds fraud_service = thresholds init) by reflexivity.
  split; [exact T|].
  destruct (analyze_transaction fraud_service rng fraud_clock
              (purchase "t1") (user 0) desktop session)
    as [[[r|e] self'] rng'] eqn:E; [|vm_compute in E; discriminate].
  exists r, self', rng'. split; [reflexivity|].
  exact (proj1 (FraudAdvice.recommendations_follow_rules fraud_service rng
                  fraud_clock (purchase "t1") (user 0) desktop session
                  r self' rng' T E)).
Defined.

(** [confidence_between_bounds] at the same purchase. *)
Lemma confidence_between_bounds_witness :
  exists r self' rng',
    analyze_transaction fraud_service rng fraud_clock (purchase "t1")
      (user 0) desktop session = (Ok r, self', rng')
    /\ (4 # 15) <= confidence_score r <= (14 # 15).
Proof.
  destruct (analyze_transaction fraud_service rng fraud_clock
              (purchase "t1") (user 0) desktop session)
    as [[[r|e] self'] rng'] eqn:E; [|vm_compute in E; discriminate].
  exists r, self', rng'. split; [reflexivity|].
  destruct (FraudConfidence.confidence_between_bounds fraud_service rng
              fraud_clock (purchase "t1") (user 0) desktop session r self'
              rng' E) as (features & agreement & _ & _ & _ & _ & Bounds).
  exact Bounds.
Defined.

(** ** The bulk operations *)

(** [bulk_batch_size_unobservable] at the batch size 7. *)
Lemma bulk_batch_size_unobservable_witness :
  (0 < 7)%nat
  /\ fst (bulk_analyze_transactions fraud_service rng
            [request "t1" 0; request "t2" 400])
     = fst (Bulk.bulk analysis_task transaction_key make_response 7
              [request "t1" 0; request "t2" 400] (fraud_service, rng)).
Proof.
  assert (P : (0 < 7)%nat) by lia.
  split; [exact P|].
  exact (proj1 (BulkEntries.bulk_batch_size_unobservable fraud_service rng
                  [request "t1" 0; request "t2" 400]
                  Price.default_settings price_service
                  [product "p1" 10 4] None 7 P)).
Defined.

(** [bulk_responses_consistent] at the entry of the purchase "t1". *)
Lemma bulk_responses_consistent_witness :
  exists dict w' response,
    bulk_analyze_transactions fraud_service rng [request "t1" 0]
    = (Ok dict, w')
    /\ dict !! "t1" = Some response
    /\ resp_risk_level response
       = _score_to_risk_level (resp_fraud_score response).
Proof.
  destruct (bulk_analyze_transactions fraud_service rng [request "t1" 0])
    as [[dict|e] w'] eqn:E; [|vm_compute in E; discriminate].
  destruct (dict !! "t1") as [response|] eqn:D.
  - exists dict, w', response.
    split; [reflexivity|]. split; [exact D|].
    exact (proj1 (proj2 (proj2
             (BulkEntries.bulk_responses_consistent fraud_service rng
                [request "t1" 0] dict w' "t1" response E D)))).
  - exfalso.
    destruct (BulkFacts.bulk_answers analysis_task transaction_key
                make_response 20 ltac:(lia) [request "t1" 0]
                (fraud_service, rng) w' dict E) as [[Keys _] _].
    apply not_elem_of_dom in D. apply D, Keys.
    exists 0%nat. eexists. eexists.
    split; [reflexivity|]. split; [reflexivity|].
    vm_compute. reflexivity.
Defined.

(** ** The price service *)

(** [expected_changes_proportional] on the service whose fitted
    regressor predicts 100, for a product of price 10 and cost 4. *)
Lemma expected_changes_proportional_witness :
  exists r,
    fst (Price.optimize_product_price Price.default_settings
           (fitted_price_service 100) price_clock "p1" 10 4 40 [] None
           None) = Ok r
    /\ Price.expected_revenue_change r
       == -0.2 * Price.price_change_percent r.
Proof.
  destruct (fst (Price.optimize_product_price Price.default_settings
                   (fitted_price_service 100) price_clock "p1" 10 4 40 []
                   None None)) as [r|e] eqn:E;
    [|vm_compute in E; discriminate].
  exists r. split; [reflexivity|].
  exact (proj1 (proj2 (proj2
           (PriceResponse.expected_changes_proportional
              Price.default_settings (fitted_price_service 100)
              price_clock "p1" 10 4 40%Z [] None None r E)))).
Defined.

(** [margin_of_one_raises] at a prediction of 100 for a product of
    price 10 and cost 4. *)
Lemma margin_of_one_raises_witness :
  [prediction_of_100] <> []
  /\ Price.min_margin margin_of_one = Some 1
  /\ Price._apply_business_rules Price.default_settings
       [prediction_of_100] 10 4 (Some margin_of_one)
     = Raise ZeroDivisionError.
Proof.
  assert (N : [prediction_of_100] <> []) by discriminate.
  assert (W : ~ py_sum (map Price.confidence [prediction_of_100]) == 0)
    by (intro Z; vm_compute in Z; discriminate Z).
  assert (M : Price.min_margin margin_of_one = Some 1) by reflexivity.
  split; [exact N|]. split; [exact M|].
  exact (PriceRules.margin_of_one_raises Price.default_settings
           [prediction_of_100] 10 4 margin_of_one 1 N W M (Qeq_refl 1)).
Defined.

(** [price_bounds_override_band]: the cap of 11 wins over the band,
    which would allow 12. *)
Lemma price_bounds_override_band_witness :
  bounds_only at_most_11
  /\ exists p,
       Price._apply_business_rules Price.default_settings
         [prediction_of_100] 10 4 (Some at_most_11) = Ok p
       /\ p <= 11 + (1 # 200).
Proof.
  assert (B : bounds_only at_most_11) by (repeat split).
  split; [exact B|].
  assert (N : [prediction_of_100] <> []) by discriminate.
  assert (W : ~ py_sum (map Price.confidence [prediction_of_100]) == 0)
    by (intro Z; vm_compute in Z; discriminate Z).
  destruct (Price._apply_business_rules Price.default_settings
              [prediction_of_100] 10 4 (Some at_most_11)) as [p|e] eqn:E;
    [|vm_compute in E; discriminate].
  exists p. split; [reflexivity|].
  exact (proj1 (PriceRules.price_bounds_override_band
                  Price.default_settings [prediction_of_100] 10 4
                  at_most_11 p B N W E) eq_refl).
Defined.

(** [psychological_pricing_subtracts_a_cent] at the same prediction. *)
Lemma psychological_pricing_subtracts_a_cent_witness :
  psychological_only psychological
  /\ exists weighted_price,
       Price._apply_business_rules Price.default_settings
         [prediction_of_100] 10 4 (Some psychological)
       = Ok (py_round2 (clamp Price.default_settings 10 4 weighted_price
                        - 0.01)).
Proof.
  assert (P : psychological_only psychological) by (repeat split).
  split; [exact P|].
  assert (N : [prediction_of_100] <> []) by discriminate.
  assert (W : ~ py_sum (map Price.confidence [prediction_of_100]) == 0)
    by (intro Z; vm_compute in Z; discriminate Z).
  destruct (PriceRules.psychological_pricing_subtracts_a_cent
              Price.default_settings [prediction_of_100] 10 4
              psychological P N W) as (w & E & _).
  exists w. exact E.
Defined.

(** [response_confidence_levels] on the service whose fitted regressor
    predicts 100. *)
Lemma response_confidence_levels_witness :
  exists r,
    fst (Price.optimize_product_price Price.default_settings
           (fitted_price_service 100) price_clock "p1" 10 4 40 [] None
           None) = Ok r
    /\ Price.confidence_score r <= 0.8.
Proof.
  destruct (fst (Price.optimize_product_price Price.default_settings
                   (fitted_price_service 100) price_clock "p1" 10 4 40 []
                   None None)) as [r|e] eqn:E;
    [|vm_compute in E; discriminate].
  exists r. split; [reflexivity|].
  exact (proj1 (proj2
           (PriceExplanations.response_confidence_levels
              Price.default_settings (fitted_price_service 100)
              price_clock "p1" 10 4 40%Z [] None None r E))).
Defined.

(** [assess_risks_cases] at a rise from 10 to 12. *)
Lemma assess_risks_cases_witness :
  ~ 10 == 0
  /\ exists risks,
       Price._assess_risks 10 12 = Ok risks
       /\ (2 <= length risks <= 3)%nat.
Proof.
  assert (N : ~ 10 == 0) by discriminate.
  split; [exact N|].
  destruct (PriceExplanations.assess_risks_cases 10 12 N)
    as (risks & E & L & _).
  exists risks. split; [exact E | exact L].
Defined.

(** [market_position_monotone] at the prices 10 and 12. *)
Lemma market_position_monotone_witness :
  10 <= 12
  /\ (position_rank (Price._determine_market_position 10 [competitor_at_10])
      <= position_rank
           (Price._determine_market_position 12 [competitor_at_10]))%nat.
Proof.
  assert (L : 10 <= 12) by discriminate.
  split; [exact L|].
  exact (PriceSituations.market_position_monotone 10 12
           [competitor_at_10] L).
Defined.

(** [unfitted_service_response] on the freshly loaded service. *)
Lemma unfitted_service_response_witness :
  no_model_predicts price_service
  /\ exists r,
       fst (Price.optimize_product_price Price.default_settings
              price_service price_clock "p1" 10 4 40 [] None None) = Ok r
       /\ Price.confidence_score r = 0.
Proof.
  assert (NP : no_model_predicts price_service).
  { repeat constructor. }
  split; [exact NP|].
  destruct (fst (Price.optimize_product_price Price.default_settings
                   price_service price_clock "p1" 10 4 40 [] None None))
    as [r|e] eqn:E; [|vm_compute in E; discriminate].
  exists r. split; [reflexivity|].
  exact (proj1 (proj2
           (PriceSituations.unfitted_service_response
              Price.default_settings price_service price_clock "p1" 10 4
              40%Z [] None None r NP E))).
Defined.

(** [bulk_prices_without_competitors] at one product. *)
Lemma bulk_prices_without_competitors_witness :
  exists dict self',
    Price.bulk_optimize_prices Price.default_settings price_service
      [product "p1" 10 4] None = (Ok dict, self')
    /\ forall k r, dict !! k = Some r ->
         Price.market_position r = "value_leader".
Proof.
  destruct (Price.bulk_optimize_prices Price.default_settings
              price_service [product "p1" 10 4] None)
    as [[dict|e] self'] eqn:E; [|vm_compute in E; discriminate].
  exists dict, self'. split; [reflexivity|].
  intros k r D.
  exact (proj1 (proj2
           (proj1 (PriceSituations.bulk_prices_without_competitors
                     Price.default_settings price_service
                     [product "p1" 10 4] None dict self' E) k r D))).
Defined.

End FurtherWitnesses.
